(** * circadias: the daily solar report of [calculator.py], the unmasking
    script [start.py] and the citation markers of [parser.py]

    A shallow embedding of [calculate_astronomical_events] and of the Python
    runtime pieces it calls ([datetime], [timedelta], [strptime], [strftime],
    the [f"{..:02d}"] format), of the loop of [start.py] and of the string
    functions of [parser.py], followed by their properties.

    Conventions of the embedding.
    - A [datetime] is the number of microseconds since 0001-01-01T00:00:00,
      with the range check Python applies to the result of every addition.
    - Python floats are read as exact rationals ([Q]): day lengths in hours,
      the altitude, the time-zone offset and the [ephem.Date] values (days
      since 1899-12-31T12:00).  Binary rounding is not modelled: the
      quotient behind [daylength] and the product behind a fractional
      offset are exact here, and the statements that depend on them say on
      which inputs.
    - The [ephem] library is not part of the repository: the two searches
      and the altitude the code asks it for are fields of the record
      [ephem.Lib], together with [math.degrees], and every theorem is
      stated for an arbitrary [ephem.Lib].
    - [twilight_times] is a Python [dict] with string keys: a [gmap]. *)

From Stdlib Require Import ZArith QArith Qround Lqa Ascii String DecimalString.
From stdpp Require Import base option gmap strings.

Local Open Scope string_scope.
Local Open Scope Z_scope.

(** ** Exceptions and the result of a call *)

Module Py.

(** The exceptions that can leave [calculate_astronomical_events].
    [ephem.AlwaysUpError] and [ephem.NeverUpError] are not among them: they
    are results of the library calls (see [RiseSet]) and the code catches
    them on the spot. *)
Inductive exn : Type :=
  | ValueError_strptime      (* time data does not match format '%Y-%m-%d' *)
  | ValueError_year          (* year out of range, from [Date.datetime()] *)
  | OverflowError_date       (* date value out of range, from [datetime + timedelta] *)
  | OverflowError_timedelta  (* days magnitude above 999999999 *)
  | TypeError.               (* [str + timedelta] *)

Inductive result (A : Type) : Type :=
  | Ok (a : A)
  | Raise (e : exn).
Arguments Ok {A} a.
Arguments Raise {A} e.

#[export] Instance result_ret : MRet result := fun A a => Ok a.
#[export] Instance result_bind : MBind result := fun A B f m =>
  match m with
  | Ok a => f a
  | Raise e => Raise e
  end.

Definition returns {A} (m : result A) : bool :=
  match m with Ok _ => true | Raise _ => false end.

(** *** Numbers *)

(** [int(x)] on a float: truncation toward zero. *)
Definition int (x : Q) : Z := Z.quot (Qnum x) (Z.pos (Qden x)).

(** [x % 1] on a float: the divisor is positive, so the result is in [0, 1). *)
Definition mod1 (x : Q) : Q := (x - inject_Z (Qfloor x))%Q.

(** [round(x)] on a float: to the nearest integer, ties to even. *)
Definition round (x : Q) : Z :=
  let f := Qfloor x in
  let r := (x - inject_Z f)%Q in
  match (r ?= 1 # 2)%Q with
  | Lt => f
  | Gt => f + 1
  | Eq => if Z.even f then f else f + 1
  end.

(** [str(n)] on an int. *)
Definition str (n : Z) : string := NilZero.string_of_int (Z.to_int n).

(** [f"{n:02d}"]: decimal, padded with zeros to at least two characters; the
    sign of a negative number counts as a character and comes first. *)
Definition fmt02d (n : Z) : string :=
  if (0 <=? n) && (n <? 10) then "0" +:+ str n else str n.

(** *** Calendar dates, [datetime] and [timedelta] *)

Record date : Type := mk_date { year : Z; month : Z; day : Z }.

Definition is_leap (y : Z) : bool :=
  (y mod 4 =? 0) && (negb (y mod 100 =? 0) || (y mod 400 =? 0)).

Definition days_in_month (y m : Z) : Z :=
  if (m =? 2) && is_leap y then 29
  else nth (Z.to_nat m) [-1; 31; 28; 31; 30; 31; 30; 31; 31; 30; 31; 30; 31] (-1).

Definition days_before_year (y : Z) : Z :=
  let y1 := y - 1 in y1 * 365 + y1 / 4 - y1 / 100 + y1 / 400.

Definition days_before_month (y m : Z) : Z :=
  nth (Z.to_nat m) [-1; 0; 31; 59; 90; 120; 151; 181; 212; 243; 273; 304; 334] (-1)
  + (if (2 <? m) && is_leap y then 1 else 0).

(** [date.toordinal()]: 0001-01-01 is day 1. *)
Definition toordinal (d : date) : Z :=
  days_before_year (year d) + days_before_month (year d) (month d) + day d.

(** The fields a [date] may hold ([MINYEAR = 1], [MAXYEAR = 9999]). *)
Definition valid_date (y m d : Z) : bool :=
  (1 <=? y) && (y <=? 9999) && (1 <=? m) && (m <=? 12)
  && (1 <=? d) && (d <=? days_in_month y m).

Definition usec_per_minute : Z := 60000000.
Definition usec_per_hour : Z := 3600000000.
Definition usec_per_day : Z := 86400000000.

(** [date.max.toordinal()] *)
Definition MAXORDINAL : Z := 3652059.

(** A [datetime], as microseconds since 0001-01-01T00:00:00. *)
Definition datetime : Type := Z.

Definition in_range (t : Z) : bool :=
  (0 <=? t) && (t <? MAXORDINAL * usec_per_day).

(** [datetime.datetime.combine(d, datetime.time(h, m))] *)
Definition combine (d : date) (h m : Z) : datetime :=
  (toordinal d - 1) * usec_per_day + h * usec_per_hour + m * usec_per_minute.

(** A [timedelta], in microseconds. *)
Definition timedelta : Type := Z.

(** [datetime.timedelta(hours=h)]: rounded to the microsecond, ties to even
    (exact for an int [h]); the number of whole days must not exceed
    999999999 in magnitude. *)
Definition timedelta_hours (h : Q) : result timedelta :=
  let us := round (h * inject_Z usec_per_hour) in
  if (-999999999 <=? us / usec_per_day) && (us / usec_per_day <=? 999999999)
  then Ok us else Raise OverflowError_timedelta.

(** [datetime.timedelta(hours=h, minutes=m)] for int arguments *)
Definition timedelta_hm (h m : Z) : timedelta :=
  h * usec_per_hour + m * usec_per_minute.

(** [t + delta] on a [datetime]: the result must be a date of years 1..9999. *)
Definition add (t : datetime) (delta : timedelta) : result datetime :=
  if in_range (t + delta) then Ok (t + delta) else Raise OverflowError_date.

(** [(b - a).total_seconds()] *)
Definition total_seconds (delta : timedelta) : Q := delta # 1000000.

(** Two decimal digits, for a number below 100 *)
Definition two_digits (n : Z) : string :=
  String (ascii_of_nat (48 + Z.to_nat (n / 10)))
    (String (ascii_of_nat (48 + Z.to_nat (n mod 10))) "").

Definition hour_of (t : datetime) : Z := (t mod usec_per_day) / usec_per_hour.
Definition minute_of (t : datetime) : Z :=
  ((t mod usec_per_day) mod usec_per_hour) / usec_per_minute.

(** [t.strftime("%H:%M")] *)
Definition strftime_HM (t : datetime) : string :=
  two_digits (hour_of t) +:+ ":" +:+ two_digits (minute_of t).

(** *** [datetime.datetime.strptime(s, "%Y-%m-%d").date()]

    The format is compiled to the regular expression
    [(\d\d\d\d)-(1[0-2]|0[1-9]|[1-9])-(3[01]|[12]\d|0[1-9]|[1-9]| [1-9])],
    matched at the start of the string; text left over after the match and
    field values that are no calendar date raise [ValueError].  Strings are
    byte strings here, so only ASCII digits count as digits. *)

Definition digit (c : ascii) : option Z :=
  let n := Z.of_nat (nat_of_ascii c) in
  if (48 <=? n) && (n <=? 57) then Some (n - 48) else None.

Definition digit_between (lo hi : Z) (c : ascii) : option Z :=
  match digit c with
  | Some n => if (lo <=? n) && (n <=? hi) then Some n else None
  | None => None
  end.

(** [%m]: the first alternative of [1[0-2]|0[1-9]|[1-9]] that matches *)
Definition match_month (s : string) : option (Z * string) :=
  match s with
  | String c1 rest1 =>
      let two :=
        match rest1 with
        | String c2 rest2 =>
            match digit_between 1 1 c1, digit_between 0 2 c2 with
            | Some _, Some n => Some (10 + n, rest2)
            | _, _ =>
                match digit_between 0 0 c1, digit_between 1 9 c2 with
                | Some _, Some n => Some (n, rest2)
                | _, _ => None
                end
            end
        | EmptyString => None
        end in
      match two with
      | Some r => Some r
      | None => match digit_between 1 9 c1 with
                | Some n => Some (n, rest1)
                | None => None
                end
      end
  | EmptyString => None
  end.

(** [%d]: the first alternative of [3[01]|[12]\d|0[1-9]|[1-9]| [1-9]] that matches *)
Definition match_day (s : string) : option (Z * string) :=
  match s with
  | String c1 rest1 =>
      let two :=
        match rest1 with
        | String c2 rest2 =>
            match digit_between 3 3 c1, digit_between 0 1 c2 with
            | Some _, Some n => Some (30 + n, rest2)
            | _, _ =>
                match digit_between 1 2 c1, digit c2 with
                | Some t, Some n => Some (10 * t + n, rest2)
                | _, _ =>
                    match digit_between 0 0 c1, digit_between 1 9 c2 with
                    | Some _, Some n => Some (n, rest2)
                    | _, _ => None
                    end
                end
            end
        | EmptyString => None
        end in
      match two with
      | Some r => Some r
      | None =>
          match digit_between 1 9 c1 with
          | Some n => Some (n, rest1)
          | None =>
              match rest1 with
              | String c2 rest2 =>
                  if Ascii.eqb c1 " "%char
                  then match digit_between 1 9 c2 with
                       | Some n => Some (n, rest2)
                       | None => None
                       end
                  else None
              | EmptyString => None
              end
          end
      end
  | EmptyString => None
  end.

Definition match_year (s : string) : option (Z * string) :=
  match s with
  | String c1 (String c2 (String c3 (String c4 rest))) =>
      match digit c1, digit c2, digit c3, digit c4 with
      | Some a, Some b, Some c, Some d => Some (1000 * a + 100 * b + 10 * c + d, rest)
      | _, _, _, _ => None
      end
  | _ => None
  end.

Definition match_dash (s : string) : option string :=
  match s with
  | String c rest => if Ascii.eqb c "-"%char then Some rest else None
  | EmptyString => None
  end.

Definition strptime_Ymd (s : string) : option date :=
  '(y, s1) ← match_year s;
  s2 ← match_dash s1;
  '(m, s3) ← match_month s2;
  s4 ← match_dash s3;
  '(d, s5) ← match_day s4;
  match s5 with
  | EmptyString => if valid_date y m d then Some (mk_date y m d) else None
  | String _ _ => None
  end.

Definition strptime (s : string) : result date :=
  match strptime_Ymd s with
  | Some d => Ok d
  | None => Raise ValueError_strptime
  end.

End Py.

(** ** The part of [ephem] the code relies on *)

Module ephem.
Import Py.

(** An [ephem.Date]: days since 1899-12-31T12:00:00, a float in the library. *)
Definition Date : Type := Q.

(** 1899-12-31T12:00:00 as a [datetime] *)
Definition EPOCH : datetime := combine (mk_date 1899 12 31) 12 0.

(** [ephem.Date(t)] for a [datetime] [t] *)
Definition Date_of_datetime (t : datetime) : Date := (t - EPOCH) # 86400000000.

(** [d.datetime()]: the nearest microsecond, as a [datetime]; a year outside
    1..9999 makes the [datetime] constructor raise [ValueError]. *)
Definition Date_datetime (d : Date) : result datetime :=
  let t := Qfloor (d * inject_Z usec_per_day + (1 # 2)) + EPOCH in
  if in_range t then Ok t else Raise ValueError_year.

(** The observer fields the code sets.  [lat], [lon] and [horizon] are
    assigned from [str(x)], which the library reads back as degrees. *)
Record Observer : Type := mk_Observer {
  lat : Q;
  lon : Q;
  date : Date;
  horizon : Z
}.

Definition set_horizon (h : Z) (o : Observer) : Observer :=
  {| lat := lat o; lon := lon o; date := date o; horizon := h |}.
Definition set_date (d : Date) (o : Observer) : Observer :=
  {| lat := lat o; lon := lon o; date := d; horizon := horizon o |}.

(** What [observer.next_rising(sun, ...)] and [observer.next_setting(sun, ...)]
    do: return the date of the crossing, or raise one of the two errors the
    code catches. *)
Inductive RiseSet : Type :=
  | Crossing (t : Date)
  | AlwaysUpError
  | NeverUpError.

(** The library, as seen from [calculator.py].  The search functions read
    the observer (place, start date, horizon) and leave it unchanged; the
    second argument is [use_center].  [alt] is [sun.alt] after
    [sun.compute(observer)], in radians; [degrees] is [math.degrees]. *)
Record Lib : Type := mk_Lib {
  next_rising : Observer -> bool -> RiseSet;
  next_setting : Observer -> bool -> RiseSet;
  alt : Observer -> Q;
  degrees : Q -> Q
}.

End ephem.

(** ** The report *)

Module Report.

(** The dictionary under ["data"] *)
Record day : Type := mk_day {
  Astronomical_Dawn : string;
  Nautical_Dawn : string;
  Civil_Dawn : string;
  sunrise : string;
  UVA_on : string;
  UVB_on : string;
  SolarNoon : string;
  UVB_off : string;
  UVA_off : string;
  sunset : string;
  CivilDusk : string;
  NauticalDusk : string;
  AstronomicalDusk : string;
  daylength : string;
  nightLength : string;
  sleepDuration : string;
  ElevationAngle : string
}.

Record t : Type := mk {
  date : string;
  data : list day;
  nextAvailable : list string
}.

End Report.

(** ** [calculator.py] *)

Module calculator.
Import Py ephem.

(** A variable that holds a [datetime] on one path and the string ["N/A"]
    on the other ([sunrise_local], [uva_on_local], ...). *)
Inductive time_or_na : Type :=
  | At (t : datetime)
  | NA.

(** [x.strftime("%H:%M") if isinstance(x, datetime.datetime) else x] *)
Definition show (x : time_or_na) : string :=
  match x with
  | At t => strftime_HM t
  | NA => "N/A"
  end.

(** [x.strftime("%H:%M") if isinstance(x, datetime.datetime) else "12:00"] *)
Definition show_noon (x : time_or_na) : string :=
  match x with
  | At t => strftime_HM t
  | NA => "12:00"
  end.

(** [f"{int(h):02d}:{int((h % 1) * 60):02d}"] *)
Definition fmt_hours (h : Q) : string :=
  fmt02d (int h) +:+ ":" +:+ fmt02d (int (mod1 h * 60)).

(** The table the loop runs over *)
Definition twilights : list (string * Z) :=
  [("Astronomical", -18); ("Nautical", -12); ("Civil", -6)].

Fixpoint foldM {S A : Type} (f : S -> A -> result S) (l : list A) (s : S) : result S :=
  match l with
  | [] => Ok s
  | a :: l' => s' ← f s a; foldM f l' s'
  end.

Section WithLibrary.

Variable E : Lib.

(** Lines 24-31: the [try] around the two searches.  An error of either
    search leaves both variables [None]; the second search is not run when
    the first one fails. *)
Definition sun_events (observer : Observer) : option Date * option Date :=
  match next_rising E observer false with
  | Crossing r =>
      match next_setting E observer false with
      | Crossing s => (Some r, Some s)
      | AlwaysUpError | NeverUpError => (None, None)
      end
  | AlwaysUpError | NeverUpError => (None, None)
  end.

(** Lines 34-60: local sunrise and sunset, the two lengths, solar noon. *)
Definition day_part (d : Py.date) (tzo : Q) (sunrise sunset : option Date)
  : result (time_or_na * time_or_na * string * string * time_or_na) :=
  match sunrise, sunset with
  | Some sr, Some ss =>
      sunrise_utc ← Date_datetime sr;
      sunset_utc ← Date_datetime ss;
      tz ← timedelta_hours tzo;
      sunrise_local ← add sunrise_utc tz;
      tz ← timedelta_hours tzo;
      sunset_local ← add sunset_utc tz;
      let day_length_seconds := total_seconds (sunset_utc - sunrise_utc) in
      let day_length_hours := (day_length_seconds / 3600)%Q in
      let day_length_str := fmt_hours day_length_hours in
      let night_length_hours := (24 - day_length_hours)%Q in
      let night_length_str := fmt_hours night_length_hours in
      solar_noon_utc ← Date_datetime ((sr + ss) / 2)%Q;
      tz ← timedelta_hours tzo;
      solar_noon_local ← add solar_noon_utc tz;
      mret (At sunrise_local, At sunset_local, day_length_str, night_length_str,
            At solar_noon_local)
  | _, _ =>
      let day_length_str := match sunrise with None => "24:00" | Some _ => "00:00" end in
      let night_length_str := match sunrise with None => "00:00" | Some _ => "24:00" end in
      tz ← timedelta_hours tzo;
      solar_noon_local ← add (combine d 12 0) tz;
      mret (NA, NA, day_length_str, night_length_str, At solar_noon_local)
  end.

(** Lines 70-92: one turn of the loop over [twilights]. *)
Definition twilight_step (d : Py.date) (tzo : Q)
    (st : Observer * gmap string string) (item : string * Z)
  : result (Observer * gmap string string) :=
  let '(observer, twilight_times) := st in
  let '(twilight_type, angle) := item in
  let observer := set_horizon angle observer in
  let observer := set_date (Date_of_datetime (combine d 0 0)) observer in
  twilight_times ←
    match next_rising E observer true with
    | Crossing dawn =>
        dawn_utc ← Date_datetime dawn;
        tz ← timedelta_hours tzo;
        dawn_local ← add dawn_utc tz;
        mret (<[twilight_type +:+ "_Dawn" := strftime_HM dawn_local]> twilight_times)
    | AlwaysUpError | NeverUpError =>
        mret (<[twilight_type +:+ "_Dawn" := "N/A"]> twilight_times)
    end;
  let observer := set_date (Date_of_datetime (combine d 12 0)) observer in
  twilight_times ←
    match next_setting E observer true with
    | Crossing dusk =>
        dusk_utc ← Date_datetime dusk;
        tz ← timedelta_hours tzo;
        dusk_local ← add dusk_utc tz;
        mret (<[twilight_type +:+ "Dusk" := strftime_HM dusk_local]> twilight_times)
    | AlwaysUpError | NeverUpError =>
        mret (<[twilight_type +:+ "Dusk" := "N/A"]> twilight_times)
    end;
  mret (observer, twilight_times).

(** Lines 96-105: the UV window. *)
Definition uv_part (sunrise sunset : option Date) (sunrise_local sunset_local : time_or_na)
  : result (time_or_na * time_or_na * time_or_na * time_or_na) :=
  match sunrise, sunset with
  | Some _, Some _ =>
      match sunrise_local, sunset_local with
      | At rl, At sl =>
          uva_on_local ← add rl (timedelta_hm 1 8);
          uva_off_local ← add sl (- timedelta_hm 1 8);
          uvb_on_local ← add rl (timedelta_hm 3 16);
          uvb_off_local ← add sl (- timedelta_hm 3 16);
          mret (At uva_on_local, At uva_off_local, At uvb_on_local, At uvb_off_local)
      | _, _ => Raise TypeError
      end
  | _, _ => mret (NA, NA, NA, NA)
  end.

(** Lines 108-111, with [str] of line 140 applied: [str(7.638)] and [str(7.0)]. *)
Definition sleep_duration (sunrise sunset : option Date) : string :=
  match sunrise, sunset with
  | Some _, Some _ => "7.638"
  | _, _ => "7.0"
  end.

(** [twilight_times.get(key, "N/A")] *)
Definition get (twilight_times : gmap string string) (key : string) : string :=
  default "N/A" (twilight_times !! key).

Definition calculate_astronomical_events (lat lon : Q) (date_str : string) (tzo : Q)
  : result Report.t :=
  d ← strptime date_str;
  let observer :=
    {| lat := lat; lon := lon; date := Date_of_datetime (combine d 0 0); horizon := 0 |} in
  let observer := set_horizon 0 observer in
  let '(sunrise, sunset) := sun_events observer in
  '(sunrise_local, sunset_local, day_length_str, night_length_str, solar_noon_local) ←
    day_part d tzo sunrise sunset;
  '(observer, twilight_times) ← foldM (twilight_step d tzo) twilights (observer, ∅);
  '(uva_on_local, uva_off_local, uvb_on_local, uvb_off_local) ←
    uv_part sunrise sunset sunrise_local sunset_local;
  let sleep := sleep_duration sunrise sunset in
  let observer := set_date (Date_of_datetime (combine d 0 0)) observer in
  let elevation_angle := int (degrees E (alt E observer)) in
  mret {|
    Report.date := date_str +:+ "T00:00:00.000Z";
    Report.data := [ {|
      Report.Astronomical_Dawn := get twilight_times "Astronomical_Dawn";
      Report.Nautical_Dawn := get twilight_times "Nautical_Dawn";
      Report.Civil_Dawn := get twilight_times "Civil_Dawn";
      Report.sunrise := show sunrise_local;
      Report.UVA_on := show uva_on_local;
      Report.UVB_on := show uvb_on_local;
      Report.SolarNoon := show_noon solar_noon_local;
      Report.UVB_off := show uvb_off_local;
      Report.UVA_off := show uva_off_local;
      Report.sunset := show sunset_local;
      Report.CivilDusk := get twilight_times "CivilDusk";
      Report.NauticalDusk := get twilight_times "NauticalDusk";
      Report.AstronomicalDusk := get twilight_times "AstronomicalDusk";
      Report.daylength := day_length_str;
      Report.nightLength := night_length_str;
      Report.sleepDuration := sleep;
      Report.ElevationAngle := str elevation_angle
    |} ];
    Report.nextAvailable := []
  |}.

End WithLibrary.

End calculator.

(** ** Ephemerides to run the code on

    A sun that repeats the same day for ever, described by the UTC day
    fraction of its culmination and, for each horizon, half the time it
    spends above it.  The instances carry values close to those of one
    place and date. *)

Module Samples.
Import Py ephem calculator.

Inductive arc : Type :=
  | Arc (half : Q)   (* crosses the horizon [half] days before and after culmination *)
  | Up               (* never goes below it *)
  | Down.            (* never comes above it *)

Record daily_sun : Type := mk_daily_sun {
  transit : Q;
  arcs : Z -> arc;
  midnight_alt : Q
}.

(** The first date after [start] whose UTC day fraction is [f] *)
Definition next_at (start : Date) (f : Q) : Date :=
  Qred (inject_Z (Qfloor (start + (1 # 2) - f)) + 1 + f - (1 # 2)).

Definition periodic (s : daily_sun) : Lib := {|
  next_rising o _ :=
    match arcs s (horizon o) with
    | Arc a => Crossing (next_at (date o) (transit s - a))
    | Up => AlwaysUpError
    | Down => NeverUpError
    end;
  next_setting o _ :=
    match arcs s (horizon o) with
    | Arc a => Crossing (next_at (date o) (transit s + a))
    | Up => AlwaysUpError
    | Down => NeverUpError
    end;
  alt _ := midnight_alt s;
  degrees x := (x * (4068 # 71))%Q
|}.

Definition minutes (n : Z) : Q := n # 1440.

(** Athens (37.98 N, 23.73 E) on 2025-04-14: sunrise about 03:51 UTC, sunset
    about 16:57 UTC *)
Definition athens : daily_sun := {|
  transit := minutes 624;
  arcs h := if h =? 0 then Arc (minutes 393) else if h =? -6 then Arc (minutes 420)
            else if h =? -12 then Arc (minutes 453) else Arc (minutes 489);
  midnight_alt := -(7208 # 10000)
|}.

(** Sydney (33.87 S, 151.21 E) on 2025-04-14: sunset about 07:30 UTC, sunrise
    about 20:15 UTC *)
Definition sydney : daily_sun := {|
  transit := 225 # 2880;
  arcs h := if h =? 0 then Arc (675 # 2880) else if h =? -6 then Arc (725 # 2880)
            else if h =? -12 then Arc (783 # 2880) else Arc (841 # 2880);
  midnight_alt := 61 # 100
|}.

(** Longyearbyen (78.22 N, 15.65 E) on 2025-06-21: the sun stays up *)
Definition polar_day : daily_sun := {|
  transit := minutes 657;
  arcs _ := Up;
  midnight_alt := 21 # 100
|}.

(** The south pole in December: the sun stays up *)
Definition south_pole_summer : daily_sun := {|
  transit := minutes 720;
  arcs _ := Up;
  midnight_alt := 408 # 1000
|}.

(** Longyearbyen on 2025-12-21: the sun stays below -6 degrees *)
Definition polar_night : daily_sun := {|
  transit := minutes 657;
  arcs h := if h =? -12 then Arc (minutes 66) else if h =? -18 then Arc (minutes 280)
            else Down;
  midnight_alt := -(61 # 100)
|}.

End Samples.

(** ** What the report is made of

    The names the properties are stated with: the searches the code asks
    the library for, and the clock time a library date is shown as. *)

Module Spec.
Import Py ephem calculator.

(** *** Reading the strings of a report *)

(** [int] truncates toward zero: it is the floor of a positive number and
    the ceiling of a negative one. *)
Definition truncate (x : Q) : Z :=
  if Qle_bool 0 x then Qfloor x else Qceiling x.

(** The minutes after midnight a string of the shape [HH:MM] stands for *)
Definition HM_minutes (s : string) : option Z :=
  match s with
  | String a (String b (String c (String d (String e EmptyString)))) =>
      if Ascii.eqb c ":"%char then
        h1 ← digit a; h2 ← digit b; m1 ← digit d; m2 ← digit e;
        Some (60 * (10 * h1 + h2) + (10 * m1 + m2))
      else None
  | _ => None
  end.

Definition minute_of_day (t : datetime) : Z := (t mod usec_per_day) / usec_per_minute.

(** Whether one [HH:MM] time of day is not later than another *)
Definition HM_leb (s1 s2 : string) : bool :=
  match HM_minutes s1, HM_minutes s2 with
  | Some a, Some b => a <=? b
  | _, _ => false
  end.

Fixpoint ascending (l : list string) : bool :=
  match l with
  | a :: (b :: _) as rest => HM_leb a b && ascending rest
  | _ => true
  end.

(** A length such as ["13:06"] or ["-12:15"], as a sign, hours and minutes *)
Fixpoint read_digits (acc : Z) (s : string) : option (Z * string) :=
  match s with
  | String c rest =>
      match digit c with
      | Some n => read_digits (10 * acc + n) rest
      | None => Some (acc, s)
      end
  | EmptyString => Some (acc, s)
  end.

Definition strip_sign (s : string) : bool * string :=
  match s with
  | String c rest => if Ascii.eqb c "-"%char then (true, rest) else (false, s)
  | EmptyString => (false, s)
  end.

Definition read_length (s : string) : option (bool * Z * Z) :=
  match read_digits 0 (snd (strip_sign s)) with
  | Some (h, String c (String m1 (String m2 EmptyString))) =>
      if Ascii.eqb c ":"%char then
        a ← digit m1; b ← digit m2; Some (fst (strip_sign s), h, 10 * a + b)
      else None
  | _ => None
  end.

(** The minutes a length stands for, with the sign read as the sign of the
    whole length, or as the sign of the hours alone *)
Definition length_minutes (whole : bool) (s : string) : option Z :=
  match read_length s with
  | Some (true, h, m) => Some (if whole then - (60 * h + m) else - (60 * h) + m)
  | Some (false, h, m) => Some (60 * h + m)
  | None => None
  end.

(** *** The searches and their rendering *)

Definition midnight (d : Py.date) : Date := Date_of_datetime (combine d 0 0).
Definition midday (d : Py.date) : Date := Date_of_datetime (combine d 12 0).

Definition observer_at (lat lon : Q) (start : Date) (h : Z) : Observer :=
  {| lat := lat; lon := lon; date := start; horizon := h |}.

Section Searches.
Variables (E : Lib) (lat lon : Q) (d : Py.date).

Definition sunrise_search : RiseSet :=
  next_rising E (observer_at lat lon (midnight d) 0) false.
Definition sunset_search : RiseSet :=
  next_setting E (observer_at lat lon (midnight d) 0) false.
Definition dawn_search (angle : Z) : RiseSet :=
  next_rising E (observer_at lat lon (midnight d) angle) true.
Definition dusk_search (angle : Z) : RiseSet :=
  next_setting E (observer_at lat lon (midday d) angle) true.

(** Sunrise and sunset are both there *)
Definition observable : bool :=
  match sunrise_search, sunset_search with
  | Crossing _, Crossing _ => true
  | _, _ => false
  end.

End Searches.

(** A library date on the local clock: to the microsecond, plus [tzo] hours *)
Definition local_time (tzo : Q) (t : Date) : result datetime :=
  u ← Date_datetime t; tz ← timedelta_hours tzo; add u tz.

(** How the outcome of a search appears in the report *)
Definition render (tzo : Q) (rs : RiseSet) : result string :=
  match rs with
  | Crossing t => u ← local_time tzo t; mret (strftime_HM u)
  | AlwaysUpError | NeverUpError => mret "N/A"
  end.

(** The instant half way between two dates, in the words of the spec *)
Definition midpoint (a b : Date) : Date := (a + (b - a) / 2)%Q.

(** Hours from sunrise to sunset, both to the microsecond *)
Definition day_length_hours (sunrise_utc sunset_utc : datetime) : Q :=
  (total_seconds (sunset_utc - sunrise_utc)%Z / 3600)%Q.

(** [ElevationAngle]: the altitude the library computes for the observer as
    the loop leaves it (horizon -6), put back to midnight *)
Definition elevation (E : Lib) (lat lon : Q) (d : Py.date) : Z :=
  int (degrees E (alt E (observer_at lat lon (midnight d) (-6)))).

(** The six twilight fields, in the order of the loop *)
Record twilight_fields : Type := mk_twilight_fields {
  astronomical_dawn : string; astronomical_dusk : string;
  nautical_dawn : string; nautical_dusk : string;
  civil_dawn : string; civil_dusk : string
}.

Definition envelope (date_str : string) (day : Report.day) : Report.t :=
  {| Report.date := date_str +:+ "T00:00:00.000Z";
     Report.data := [day];
     Report.nextAvailable := [] |}.

(** The day of a report with sunrise at [r], sunset at [s] and solar noon at
    [n], all three on the local clock *)
Definition observable_day (r s n : datetime) (day_hours : Q) (tw : twilight_fields)
    (elev : Z) : Report.day :=
  {| Report.Astronomical_Dawn := astronomical_dawn tw;
     Report.Nautical_Dawn := nautical_dawn tw;
     Report.Civil_Dawn := civil_dawn tw;
     Report.sunrise := strftime_HM r;
     Report.UVA_on := strftime_HM (r + timedelta_hm 1 8);
     Report.UVB_on := strftime_HM (r + timedelta_hm 3 16);
     Report.SolarNoon := strftime_HM n;
     Report.UVB_off := strftime_HM (s - timedelta_hm 3 16);
     Report.UVA_off := strftime_HM (s - timedelta_hm 1 8);
     Report.sunset := strftime_HM s;
     Report.CivilDusk := civil_dusk tw;
     Report.NauticalDusk := nautical_dusk tw;
     Report.AstronomicalDusk := astronomical_dusk tw;
     Report.daylength := fmt_hours day_hours;
     Report.nightLength := fmt_hours (24 - day_hours);
     Report.sleepDuration := "7.638";
     Report.ElevationAngle := str elev |}.

(** The day of a report without sunrise and sunset, solar noon at [n] *)
Definition fallback_day (n : datetime) (tw : twilight_fields) (elev : Z) : Report.day :=
  {| Report.Astronomical_Dawn := astronomical_dawn tw;
     Report.Nautical_Dawn := nautical_dawn tw;
     Report.Civil_Dawn := civil_dawn tw;
     Report.sunrise := "N/A";
     Report.UVA_on := "N/A";
     Report.UVB_on := "N/A";
     Report.SolarNoon := strftime_HM n;
     Report.UVB_off := "N/A";
     Report.UVA_off := "N/A";
     Report.sunset := "N/A";
     Report.CivilDusk := civil_dusk tw;
     Report.NauticalDusk := nautical_dusk tw;
     Report.AstronomicalDusk := astronomical_dusk tw;
     Report.daylength := "24:00";
     Report.nightLength := "00:00";
     Report.sleepDuration := "7.0";
     Report.ElevationAngle := str elev |}.

(** A library date to the microsecond, before the range check *)
Definition to_usec (t : Date) : Z :=
  Qfloor (t * inject_Z usec_per_day + (1 # 2)) + EPOCH.

(** The local clock time of the outcome of a search is a [datetime] *)
Definition fits (tz : timedelta) (rs : RiseSet) : bool :=
  match rs with
  | Crossing t => in_range (to_usec t) && in_range (to_usec t + tz)
  | AlwaysUpError | NeverUpError => true
  end.

(** Every [datetime] the computation forms is one of the years 1..9999:
    the six twilight times on the local clock; with sunrise and sunset
    found, both on the local clock and moved by the longer UV offset; and
    without them, the local 12:00. *)
Definition stays_in_range (E : Lib) (lat lon : Q) (d : Py.date) (tzo : Q) : bool :=
  match timedelta_hours tzo with
  | Ok tz =>
      forallb (fun h => fits tz (dawn_search E lat lon d h)
                        && fits tz (dusk_search E lat lon d h)) [-18; -12; -6]
      && match sunrise_search E lat lon d, sunset_search E lat lon d with
         | Crossing sr, Crossing ss =>
             fits tz (Crossing sr) && fits tz (Crossing ss)
             && in_range (to_usec sr + tz + timedelta_hm 3 16)
             && in_range (to_usec ss + tz - timedelta_hm 3 16)
         | _, _ => in_range (combine d 12 0 + tz)
         end
  | Raise _ => false
  end.

(** The eight searches in the order of the day *)
Definition events (E : Lib) (lat lon : Q) (d : Py.date) : list RiseSet :=
  [dawn_search E lat lon d (-18); dawn_search E lat lon d (-12);
   dawn_search E lat lon d (-6); sunrise_search E lat lon d;
   sunset_search E lat lon d; dusk_search E lat lon d (-6);
   dusk_search E lat lon d (-12); dusk_search E lat lon d (-18)].

(** All of them crossings, at dates that do not decrease along the list *)
Fixpoint in_order (l : list RiseSet) : bool :=
  match l with
  | [] => true
  | Crossing a :: rest =>
      match rest with
      | [] => true
      | Crossing b :: _ => Qle_bool a b
      | _ => false
      end && in_order rest
  | _ => false
  end.

(** The local calendar day of a crossing, as a day number *)
Definition local_day (tz : timedelta) (rs : RiseSet) : option Z :=
  match rs with
  | Crossing t => Some ((to_usec t + tz) / usec_per_day)
  | AlwaysUpError | NeverUpError => None
  end.

(** The nine clock times of a day in the order the spec gives them *)
Definition timeline (day : Report.day) : list string :=
  [Report.Astronomical_Dawn day; Report.Nautical_Dawn day; Report.Civil_Dawn day;
   Report.sunrise day; Report.SolarNoon day; Report.sunset day;
   Report.CivilDusk day; Report.NauticalDusk day; Report.AstronomicalDusk day].

(** The six twilight searches, rendered *)
Definition twilights_rendered (E : Lib) (lat lon : Q) (d : Py.date) (tzo : Q)
    (tw : twilight_fields) : Prop :=
  render tzo (dawn_search E lat lon d (-18)) = Ok (astronomical_dawn tw) /\
  render tzo (dusk_search E lat lon d (-18)) = Ok (astronomical_dusk tw) /\
  render tzo (dawn_search E lat lon d (-12)) = Ok (nautical_dawn tw) /\
  render tzo (dusk_search E lat lon d (-12)) = Ok (nautical_dusk tw) /\
  render tzo (dawn_search E lat lon d (-6)) = Ok (civil_dawn tw) /\
  render tzo (dusk_search E lat lon d (-6)) = Ok (civil_dusk tw).

(** The report of a call, stage by stage.  Every [in_range] below is an
    addition the code performs on a [datetime]. *)
Definition reports (E : Lib) (lat lon : Q) (date_str : string) (tzo : Q)
    (r : Report.t) : Prop :=
  exists d tz tw,
    strptime_Ymd date_str = Some d /\
    timedelta_hours tzo = Ok tz /\
    twilights_rendered E lat lon d tzo tw /\
    match sunrise_search E lat lon d, sunset_search E lat lon d with
    | Crossing sr, Crossing ss =>
        exists sunrise_utc sunset_utc noon_utc,
          Date_datetime sr = Ok sunrise_utc /\
          Date_datetime ss = Ok sunset_utc /\
          Date_datetime ((sr + ss) / 2)%Q = Ok noon_utc /\
          in_range (sunrise_utc + tz) = true /\
          in_range (sunset_utc + tz) = true /\
          in_range (noon_utc + tz) = true /\
          in_range (sunrise_utc + tz + timedelta_hm 1 8) = true /\
          in_range (sunset_utc + tz - timedelta_hm 1 8) = true /\
          in_range (sunrise_utc + tz + timedelta_hm 3 16) = true /\
          in_range (sunset_utc + tz - timedelta_hm 3 16) = true /\
          r = envelope date_str
                (observable_day (sunrise_utc + tz) (sunset_utc + tz) (noon_utc + tz)
                   (day_length_hours sunrise_utc sunset_utc) tw (elevation E lat lon d))
    | _, _ =>
        in_range (combine d 12 0 + tz) = true /\
        r = envelope date_str
              (fallback_day (combine d 12 0 + tz) tw (elevation E lat lon d))
    end.

(** The dictionary the loop leaves behind *)
Definition twilight_dict (a1 a2 n1 n2 c1 c2 : string) : gmap string string :=
  <["CivilDusk" := c2]> (<["Civil_Dawn" := c1]>
  (<["NauticalDusk" := n2]> (<["Nautical_Dawn" := n1]>
  (<["AstronomicalDusk" := a2]> (<["Astronomical_Dawn" := a1]> ∅))))).

(** Whether a search found a crossing *)
Definition is_crossing (rs : RiseSet) : bool :=
  match rs with Crossing _ => true | AlwaysUpError | NeverUpError => false end.

(** A field of the one day of a report, if the call returned one *)
Definition field (f : Report.day -> string) (res : result Report.t) : option string :=
  match res with
  | Ok r => f <$> head (Report.data r)
  | Raise _ => None
  end.

End Spec.

(** ** Runs of the code on the sample ephemerides *)

Module Runs.
Import Py ephem calculator Samples Spec.

(** The call of [main()], with the sun of that day over Athens *)
Definition athens_lat : Q := 379838096 # 10000000.
Definition athens_lon : Q := 237275388 # 10000000.

Definition athens_report : Report.t :=
  Eval vm_compute in
    match calculate_astronomical_events (periodic athens)
            athens_lat athens_lon "2025-04-14" 3 with
    | Ok r => r
    | Raise _ => envelope "" (fallback_day 0 (mk_twilight_fields "" "" "" "" "" "") 0)
    end.

(** The same Athens day, asked for with an offset of eight hours *)
Definition athens_report_tzo8 : Report.t :=
  Eval vm_compute in
    match calculate_astronomical_events (periodic athens)
            athens_lat athens_lon "2025-04-14" 8 with
    | Ok r => r
    | Raise _ => envelope "" (fallback_day 0 (mk_twilight_fields "" "" "" "" "" "") 0)
    end.

(** Longyearbyen at the June solstice: no sunrise, no sunset *)
Definition polar_day_report : Report.t :=
  Eval vm_compute in
    match calculate_astronomical_events (periodic polar_day)
            (7822 # 100) (1565 # 100) "2025-06-21" 2 with
    | Ok r => r
    | Raise _ => envelope "" (fallback_day 0 (mk_twilight_fields "" "" "" "" "" "") 0)
    end.

End Runs.

(** ** More names for the fields of a report *)

Module Fields.
Import Py ephem calculator Spec.

(** A string of the shape [HH:MM] that names a minute of the day *)
Definition is_clock (s : string) : bool :=
  match HM_minutes s with
  | Some m => (0 <=? m) && (m <? 24 * 60)
  | None => false
  end.

(** The thirteen fields of a day that hold a clock time or ["N/A"] *)
Definition clock_fields (day : Report.day) : list string :=
  [Report.Astronomical_Dawn day; Report.Nautical_Dawn day; Report.Civil_Dawn day;
   Report.sunrise day; Report.UVA_on day; Report.UVB_on day; Report.SolarNoon day;
   Report.UVB_off day; Report.UVA_off day; Report.sunset day;
   Report.CivilDusk day; Report.NauticalDusk day; Report.AstronomicalDusk day].

(** The keys the loop over [twilights] writes *)
Definition twilight_keys : gset string :=
  {[ "Astronomical_Dawn"; "AstronomicalDusk"; "Nautical_Dawn"; "NauticalDusk";
     "Civil_Dawn"; "CivilDusk" ]}.

End Fields.

(** ** [start.py] *)

Module start.

Definition KEY : Z := 170.

(** [bytes(iterable)]: every item must be in [range(256)], or the
    constructor raises [ValueError] ([None] here). *)
Definition is_byte (b : Z) : bool := (0 <=? b) && (b <? 256).

Definition bytes (items : list Z) : option (list Z) :=
  if forallb is_byte items then Some items else None.

(** [orig = bytes(b ^ KEY for b in data)] *)
Definition orig (data : list Z) : option (list Z) :=
  bytes (map (fun b => Z.lxor b KEY) data).

(** [name.rfind(c)]: the last index of [c], [None] for Python's -1 *)
Fixpoint rfind (c : ascii) (name : string) : option nat :=
  match name with
  | EmptyString => None
  | String a rest =>
      match rfind c rest with
      | Some i => Some (S i)
      | None => if Ascii.eqb a c then Some O else None
      end
  end.

(** [Path(name).stem] for a path of one component: the name up to its last
    dot, unless that dot is the first or the last character. *)
Definition stem (name : string) : string :=
  match rfind "."%char name with
  | Some i =>
      if (0 <? i)%nat && (i <? String.length name - 1)%nat
      then String.substring 0 i name else name
  | None => name
  end.

(** What a name of the working directory stands for.  The pattern of the
    [glob] is tried on every name, whatever it stands for. *)
Inductive entry : Type :=
  | File (data : list Z)
  | Directory.

(** The exceptions of the loop that are told apart here.  Others of the
    operating system (a file that may not be read, a full disk) are left
    out. *)
Inductive error : Type :=
  | FileNotFoundError
  | IsADirectoryError
  | ValueError
  | UnicodeEncodeError.

(** What the script works on: the working directory, a finite map from
    names to entries, and the lines written to [sys.stdout] so far *)
Record state : Type := mk_state {
  files : gmap string entry;
  stdout : list string
}.

(** [path.read_bytes()] *)
Definition read_bytes (fs : gmap string entry) (path : string) : error + list Z :=
  match fs !! path with
  | Some (File data) => inr data
  | Some Directory => inl IsADirectoryError
  | None => inl FileNotFoundError
  end.

(** [out.write_bytes(orig)]: the file is created or replaced; a directory
    of that name is in the way. *)
Definition write_bytes (fs : gmap string entry) (out : string) (data : list Z)
  : error + gmap string entry :=
  match fs !! out with
  | Some Directory => inl IsADirectoryError
  | _ => inr (<[out := File data]> fs)
  end.

(** The text of line 12, with its arrow (U+2192) in UTF-8 *)
Definition message (name out : string) : string :=
  "Decoded " +:+ name +:+ " → " +:+ out.

Definition regular_file (fs : gmap string entry) (path : string) : bool :=
  match fs !! path with
  | Some (File data) => forallb is_byte data
  | _ => false
  end.

Definition is_directory (fs : gmap string entry) (name : string) : bool :=
  match fs !! name with
  | Some Directory => true
  | _ => false
  end.

Section Console.

(** Whether [sys.stdout] can encode a text: every text on a UTF-8 console,
    no text with the arrow on an ASCII or a Latin-1 one.  [print] raises
    [UnicodeEncodeError] before anything of the text is written. *)
Variable encodes : string -> bool.

(** The loop, over the paths [glob] yields.  An exception ends the script
    where it is raised: what was written before stays written. *)
Fixpoint script (paths : list string) (st : state) : state * option error :=
  match paths with
  | [] => (st, None)
  | path :: paths' =>
      match read_bytes (files st) path with
      | inl e => (st, Some e)
      | inr data =>
          match orig data with
          | None => (st, Some ValueError)
          | Some out_bytes =>
              let out := stem path in
              match write_bytes (files st) out out_bytes with
              | inl e => (st, Some e)
              | inr fs =>
                  if encodes (message path out)
                  then script paths' (mk_state fs (stdout st ++ [message path out]))
                  else (mk_state fs (stdout st), Some UnicodeEncodeError)
              end
          end
      end
  end.

End Console.

(** The names the pattern [*.json.bin] matches *)
Definition matches (name : string) : Prop :=
  exists base, name = base +:+ ".json.bin".

End start.

(** ** [parser.py] *)

Module parser.

(** *** Characters

    A Python [str] is a list of characters.  What the code asks of a
    character, through [re] and the [str] methods: whether it is a word
    character ([\w]), white space ([\s], [str.strip], [str.isspace]), a
    decimal digit ([\d], with its value for [int]), a digit for
    [str.isdigit]; the ASCII characters are among them, with their usual
    classes. *)

Definition ascii_code (c : ascii) : Z := Z.of_nat (nat_of_ascii c).

Definition ascii_word (c : ascii) : bool :=
  let n := ascii_code c in
  ((48 <=? n) && (n <=? 57)) || ((65 <=? n) && (n <=? 90))
  || ((97 <=? n) && (n <=? 122)) || (n =? 95).

Definition ascii_space (c : ascii) : bool :=
  let n := ascii_code c in
  ((9 <=? n) && (n <=? 13)) || ((28 <=? n) && (n <=? 32)).

Class Alphabet (char : Type) : Type := {
  char_eq_dec :: EqDecision char;
  of_ascii : ascii -> char;
  is_word : char -> bool;
  is_space : char -> bool;
  decimal : char -> option Z;
  is_digit : char -> bool;
  of_ascii_inj : Inj (=) (=) of_ascii;
  is_word_ascii c : is_word (of_ascii c) = ascii_word c;
  is_space_ascii c : is_space (of_ascii c) = ascii_space c;
  decimal_ascii c : decimal (of_ascii c) = Py.digit c;
  decimal_is_digit c : is_Some (decimal c) -> is_digit c = true;
  space_not_digit c : is_space c = true -> is_digit c = false
}.

(** The alphabet of ASCII text *)
#[export] Instance ascii_alphabet : Alphabet ascii := {|
  of_ascii c := c;
  is_word := ascii_word;
  is_space := ascii_space;
  decimal := Py.digit;
  is_digit c := bool_decide (is_Some (Py.digit c));
  of_ascii_inj := fun c d Hcd => Hcd;
  is_word_ascii c := eq_refl;
  is_space_ascii c := eq_refl;
  decimal_ascii c := eq_refl;
  decimal_is_digit c Hc := bool_decide_eq_true_2 _ Hc;
  space_not_digit :=
    ltac:(intros c Hc; apply bool_decide_eq_false; intros [n Hn];
          revert Hc Hn; destruct c as [[] [] [] [] [] [] [] []];
          vm_compute; congruence)
|}.

(** The call returns, or [KeyError] leaves it. *)
Inductive outcome (A : Type) : Type :=
  | Returned (a : A)
  | KeyError (key : string).
Arguments Returned {A} a.
Arguments KeyError {A} key.

Definition and_then {A B} (m : outcome A) (f : A -> outcome B) : outcome B :=
  match m with
  | Returned a => f a
  | KeyError key => KeyError key
  end.

(** A reference, as far as the code reads it: the values under the keys
    ["link"] and ["text"], [None] for a key that is missing. *)
Record reference (char : Type) : Type := mk_reference {
  link : option (list char);
  text : option (list char)
}.
Arguments mk_reference {char} link text.
Arguments link {char} r.
Arguments text {char} r.

(** An information item, as far as the code reads it *)
Record information_item (char : Type) : Type := mk_information_item {
  information_text : option (list char);
  item_reference : option (list (reference char))
}.
Arguments mk_information_item {char} information_text item_reference.
Arguments information_text {char} i.
Arguments item_reference {char} i.

Section Str.
Context {char : Type} `{!Alphabet char}.

(** A literal of the source, as a [str] *)
Definition lit (s : string) : list char := of_ascii <$> list_ascii_of_string s.

Fixpoint drop_while (p : char -> bool) (s : list char) : list char :=
  match s with
  | [] => []
  | c :: rest => if p c then drop_while p rest else s
  end.

(** [s.strip(chars)] and [s.strip()]: characters are removed from both ends
    while they are in the set *)
Definition strip_by (p : char -> bool) (s : list char) : list char :=
  reverse (drop_while p (reverse (drop_while p s))).

Definition strip (s : list char) : list char := strip_by is_space s.

(** *** [sanitize_filename] *)

(** [re.sub(r'[^\w\s-]', '_', name)] *)
Definition sub_invalid (name : list char) : list char :=
  (fun c => if is_word c || is_space c || bool_decide (c = of_ascii "-")
            then c else of_ascii "_") <$> name.

(** [re.sub(r'\s+', '_', s)]: every longest run of white space becomes one
    underscore; [in_run] tells that the character before was white space. *)
Fixpoint sub_spaces (in_run : bool) (s : list char) : list char :=
  match s with
  | [] => []
  | c :: rest =>
      if is_space c
      then (if in_run then sub_spaces true rest else of_ascii "_" :: sub_spaces true rest)
      else c :: sub_spaces false rest
  end.

Definition sanitize_filename (name : list char) : list char :=
  let safe_name := sub_invalid name in
  let safe_name := strip_by (fun c => bool_decide (c = of_ascii "_")) (sub_spaces false safe_name) in
  safe_name.

(** *** [replace_citations] *)

(** [sys.get_int_max_str_digits()]: 4300 unless changed, 0 for no limit
    (and for Python before 3.11). *)
Variable max_str_digits : nat.

(** [s.split(',')] *)
Fixpoint split_commas (s : list char) : list (list char) :=
  match s with
  | [] => [[]]
  | c :: rest =>
      if decide (c = of_ascii ",") then [] :: split_commas rest
      else match split_commas rest with
           | part :: parts => (c :: part) :: parts
           | [] => [[c]]
           end
  end.

(** [num.isdigit()] *)
Definition isdigit (num : list char) : bool :=
  match num with
  | [] => false
  | _ :: _ => forallb is_digit num
  end.

(** [int(num)] for a string [num] that passed [isdigit]: the decimal value;
    [ValueError] ([None]) for a digit that is not decimal and for more digits
    than the limit allows. *)
Fixpoint decimal_value (acc : Z) (num : list char) : option Z :=
  match num with
  | [] => Some acc
  | c :: rest => d ← decimal c; decimal_value (10 * acc + d) rest
  end.

Definition int_of_str (num : list char) : option Z :=
  if (0 <? max_str_digits)%nat && (max_str_digits <? length num)%nat then None
  else match num with
       | [] => None
       | _ :: _ => decimal_value 0 num
       end.

(** [l[i]] on a list: a negative index counts from the end; [IndexError]
    ([None]) outside. *)
Definition index {A} (l : list A) (i : Z) : option A :=
  if 0 <=? i then l !! Z.to_nat i
  else if 0 <=? Z.of_nat (length l) + i then l !! Z.to_nat (Z.of_nat (length l) + i)
  else None.

Definition dquote : char := of_ascii "034".

(** The clickable marker of line 42 *)
Definition anchor (link title num : list char) : list char :=
  (lit "<a href=" ++ [dquote] ++ link ++ [dquote]
   ++ lit " title=" ++ [dquote] ++ title ++ [dquote]
   ++ lit " target=" ++ [dquote] ++ lit "_blank" ++ [dquote]
   ++ lit ">[" ++ num ++ lit "]</a>")%list.

(** Lines 38-45: one turn of the loop over [numbers] *)
Definition cite (references : list (reference char)) (num : list char) : outcome (list char) :=
  match int_of_str num ≫= (fun n => index references (n - 1)) with
  | Some ref =>
      match link ref with
      | Some l =>
          match text ref with
          | Some t => Returned (anchor l t num)
          | None => KeyError "text"
          end
      | None => KeyError "link"
      end
  | None => Returned (lit "[" ++ num ++ lit "]")%list
  end.

Fixpoint cite_all (references : list (reference char)) (numbers : list (list char))
  : outcome (list char) :=
  match numbers with
  | [] => Returned []
  | num :: rest =>
      and_then (cite references num) (fun l =>
      and_then (cite_all references rest) (fun ls => Returned (l ++ ls)%list))
  end.

(** Lines 30-47 *)
Definition replacement (references : list (reference char)) (numbers_str : list char)
  : outcome (list char) :=
  let numbers := filter (fun num => isdigit num = true) (strip <$> split_commas numbers_str) in
  cite_all references numbers.

(** The class [[\d\s,]] *)
Definition in_group (c : char) : bool :=
  bool_decide (is_Some (decimal c)) || is_space c || bool_decide (c = of_ascii ",").

Fixpoint take_group (s : list char) : list char * list char :=
  match s with
  | c :: rest =>
      if in_group c then (c :: (take_group rest).1, (take_group rest).2) else ([], s)
  | [] => ([], [])
  end.

(** The pattern [\[([\d\s,]+)\]] tried at the start of [s]: group 1 and the
    number of characters matched *)
Definition match_citation (s : list char) : option (list char * nat) :=
  match s with
  | c :: rest =>
      if decide (c = of_ascii "[") then
        match take_group rest with
        | (g :: group, c' :: _) =>
            if decide (c' = of_ascii "]") then Some (g :: group, S (S (length (g :: group))))
            else None
        | _ => None
        end
      else None
  | [] => None
  end.

(** [pattern.sub(repl, s)]: the text is scanned from left to right; where
    the pattern matches, the match is replaced by what [repl] returns for
    it and the scan goes on behind the match ([skip] counts the characters
    of a match still to pass); elsewhere the character is kept. *)
Fixpoint sub (repl : list char -> outcome (list char)) (skip : nat) (s : list char)
  : outcome (list char) :=
  match s with
  | [] => Returned []
  | c :: rest =>
      match skip with
      | S skip' => sub repl skip' rest
      | O =>
          match match_citation s with
          | Some (group, n) =>
              and_then (repl group) (fun r =>
              and_then (sub repl (pred n) rest) (fun out => Returned (r ++ out)%list))
          | None => and_then (sub repl 0 rest) (fun out => Returned (c :: out))
          end
      end
  end.

Definition replace_citations (text : list char) (references : list (reference char))
  : outcome (list char) :=
  sub (replacement references) 0 text.

(** *** [process_information] *)

Definition process_information (item : information_item char) : outcome (list char) :=
  let text := default [] (information_text item) in
  match item_reference item with
  | Some references => replace_citations text references
  | None => Returned text
  end.

End Str.

End parser.

(** ** Names [sanitize_filename] leaves alone *)

Module Names.
Import parser.

Section WithAlphabet.
Context {char : Type} `{!Alphabet char}.

(** Word characters and hyphens only, none of them white space, and no
    underscore at either end *)
Definition clean (name : list char) : Prop :=
  Forall (fun c => is_space c = false /\ (is_word c = true \/ c = of_ascii "-")) name
  /\ head name <> Some (of_ascii "_") /\ last name <> Some (of_ascii "_").

End WithAlphabet.
End Names.

(** ** Sample inputs *)

Module Examples.
Import Py ephem calculator Samples Spec Runs start parser.

Definition athens_day : Py.date :=
  Eval vm_compute in default (mk_date 1 1 1) (strptime_Ymd "2025-04-14").

(** The observer and the dictionary the twilight loop leaves behind *)
Definition athens_twilight : Observer * gmap string string :=
  Eval vm_compute in
    match foldM (twilight_step (periodic athens) athens_day 3) twilights
            (observer_at athens_lat athens_lon (midnight athens_day) 0, ∅) with
    | Ok st => st
    | Raise _ => (observer_at athens_lat athens_lon (midnight athens_day) 0, ∅)
    end.

(** The Athens day again, asked for with an offset one day larger: 108
    quarter hours *)
Definition athens_report_tzo27 : Report.t :=
  Eval vm_compute in
    match calculate_astronomical_events (periodic athens)
            athens_lat athens_lon "2025-04-14" (108 # 4) with
    | Ok r => r
    | Raise _ => athens_report
    end.

(** Athens again, with the crossings of the 0 degree horizon given to the
    second: sunrise 03:51:16 UTC, sunset 16:57:44 UTC *)
Definition athens_to_the_second : daily_sun := {|
  transit := 37470 # 86400;
  arcs h := if h =? 0 then Arc (23594 # 86400) else arcs athens h;
  midnight_alt := midnight_alt athens
|}.

Definition athens_to_the_second_report : Report.t :=
  Eval vm_compute in
    match calculate_astronomical_events (periodic athens_to_the_second)
            athens_lat athens_lon "2025-04-14" 3 with
    | Ok r => r
    | Raise _ => athens_report
    end.

Definition athens_sunrise_to_the_second : Date :=
  Eval vm_compute in
    match sunrise_search (periodic athens_to_the_second) athens_lat athens_lon athens_day with
    | Crossing t => t
    | _ => 0%Q
    end.

Definition athens_sunset_to_the_second : Date :=
  Eval vm_compute in
    match sunset_search (periodic athens_to_the_second) athens_lat athens_lon athens_day with
    | Crossing t => t
    | _ => 0%Q
    end.


Definition working_directory : state :=
  mk_state
    {[ "a.json.bin" := File [209; 136; 203; 136; 144; 155; 215];
       "b.json.bin" := File [241; 247];
       "notes.txt" := File [104; 105];
       "old" := Directory ]}
    [].


Definition ascii_console (text : string) : bool :=
  forallb (fun c => (nat_of_ascii c <? 128)%nat) (list_ascii_of_string text).

(** Two complete references and one without a link *)
Definition first_reference : reference ascii :=
  mk_reference (Some (lit "https://a.example")) (Some (lit "Light at dawn")).

Definition second_reference : reference ascii :=
  mk_reference (Some (lit "https://b.example")) (Some (lit "Blue light")).

Definition unlinked_reference : reference ascii :=
  mk_reference None (Some (lit "Unpublished")).

Definition complete_references : list (reference ascii) :=
  [first_reference; second_reference].

Definition article_item : information_item ascii :=
  mk_information_item (Some (lit "<p>Morning light matters.</p>"))
    (Some complete_references).

(** A decidable statement about sample inputs, settled by evaluation *)
Ltac by_evaluation :=
  match goal with
  | |- ?P => let dec := constr:(_ : Decision P) in
             apply (@bool_decide_unpack P dec); vm_compute; exact I
  end.

End Examples.

(** ** Facts about the runtime pieces *)

Module PyFacts.
Import Py Spec.

Lemma bind_ok {A B} (m : result A) (f : A -> result B) (b : B) :
  m ≫= f = Ok b <-> exists a, m = Ok a /\ f a = Ok b.
Proof.
  destruct m as [a|e]; simpl; split.
  - intros H; exists a; auto.
  - intros (a' & Ha & H); injection Ha as ->; exact H.
  - discriminate.
  - intros (a' & Ha & _); discriminate.
Qed.

Lemma Ok_inj {A} (a b : A) : Ok a = Ok b -> a = b.
Proof. intros [= ->]; reflexivity. Qed.

Lemma bind_of_ok {A B} (m : result A) (f : A -> result B) (a : A) :
  m = Ok a -> m ≫= f = f a.
Proof. intros ->; reflexivity. Qed.

Lemma add_ok (t delta u : Z) :
  add t delta = Ok u <-> in_range (t + delta) = true /\ u = t + delta.
Proof.
  unfold add; destruct (in_range (t + delta)); split.
  - intros [= <-]; auto.
  - intros [_ ->]; reflexivity.
  - discriminate.
  - intros [? _]; discriminate.
Qed.

Lemma in_range_spec (t : Z) :
  in_range t = true <-> 0 <= t < MAXORDINAL * usec_per_day.
Proof. unfold in_range; rewrite andb_true_iff, Z.leb_le, Z.ltb_lt; tauto. Qed.

Lemma in_range_convex (a b t : Z) :
  in_range a = true -> in_range b = true -> a <= t <= b -> in_range t = true.
Proof. rewrite !in_range_spec; lia. Qed.

Lemma int_truncate (x : Q) : int x = truncate x.
Proof.
  destruct x as [n d]; unfold int, truncate, Qceiling, Qfloor, Qle_bool, Qopp; simpl.
  rewrite Z.mul_1_r, Z.mul_0_l.
  destruct (Z.leb_spec 0 n) as [Hn|Hn].
  - apply Z.quot_div_nonneg; lia.
  - rewrite <- (Z.opp_involutive n) at 1.
    rewrite Z.quot_opp_l by lia.
    f_equal. apply Z.quot_div_nonneg; lia.
Qed.

Lemma int_bounds (x : Q) :
  (0 <= x -> inject_Z (int x) <= x < inject_Z (int x) + 1)%Q /\
  (x <= 0 -> inject_Z (int x) - 1 < x <= inject_Z (int x))%Q.
Proof.
  rewrite int_truncate; unfold truncate.
  pose proof (Qfloor_le x) as Hfl. pose proof (Qlt_floor x) as Hlf.
  pose proof (Qle_ceiling x) as Hce. pose proof (Qceiling_lt x) as Hlc.
  rewrite inject_Z_plus in Hlf. unfold Z.sub in Hlc.
  rewrite inject_Z_plus, inject_Z_opp in Hlc.
  change (inject_Z 1) with 1%Q in *.
  split; intros Hx.
  - rewrite (proj2 (Qle_bool_iff 0 x) Hx). lra.
  - destruct (Qle_bool 0 x) eqn:H0; [ | lra ].
    apply Qle_bool_iff in H0.
    pose proof (Qfloor_resp_le 0 x H0) as Hf0.
    change (Qfloor 0) with 0 in Hf0.
    assert (0 <= inject_Z (Qfloor x))%Q
      by (change 0%Q with (inject_Z 0); rewrite <- Zle_Qle; exact Hf0).
    lra.
Qed.

Lemma int_comp (x y : Q) : (x == y)%Q -> int x = int y.
Proof.
  intros Hxy. rewrite !int_truncate. unfold truncate.
  assert (Hb : Qle_bool 0 x = Qle_bool 0 y).
  { apply eq_true_iff_eq. rewrite !Qle_bool_iff, Hxy. reflexivity. }
  rewrite Hb, (Qfloor_comp _ _ Hxy), (Qceiling_comp _ _ Hxy). reflexivity.
Qed.

Lemma mod1_comp (x y : Q) : (x == y)%Q -> (mod1 x == mod1 y)%Q.
Proof.
  intros Hxy. unfold mod1. rewrite (Qfloor_comp _ _ Hxy), Hxy. reflexivity.
Qed.

Lemma int_nonneg (n : Z) (d : positive) : 0 <= n -> int (n # d) = n / Z.pos d.
Proof. intros Hn. unfold int; simpl. apply Z.quot_div_nonneg; lia. Qed.

(** The whole minutes of a length of [n] microseconds, [n] not negative:
    hours and minutes as [fmt_hours] takes them from the length in hours *)
Lemma whole_minutes (n : Z) :
  0 <= n ->
  let h := n # 3600000000 in
  int h = n / 3600000000 /\
  int (mod1 h * 60) = (n mod 3600000000) / 60000000 /\
  60 * int h + int (mod1 h * 60) = n / 60000000.
Proof.
  intros Hn h.
  assert (Hh : int h = n / 3600000000) by (apply int_nonneg; exact Hn).
  assert (Hm : int (mod1 h * 60) = (n mod 3600000000) / 60000000).
  { rewrite (int_comp _ ((n mod 3600000000) # 60000000)).
    - apply int_nonneg, Z.mod_pos_bound; lia.
    - unfold mod1, h, Qfloor.
      rewrite (Z.mod_eq n 3600000000) by lia.
      unfold Qeq, Qmult, Qminus, Qplus, Qopp, inject_Z; simpl. lia. }
  repeat split; try assumption.
  rewrite Hh, Hm.
  rewrite (Z.div_mod n 3600000000) at 3 by lia.
  replace (3600000000 * (n / 3600000000)) with (60 * (n / 3600000000) * 60000000) by lia.
  rewrite Z.div_add_l by lia. reflexivity.
Qed.

Lemma digit_of_char (k : Z) :
  0 <= k < 10 -> digit (ascii_of_nat (48 + Z.to_nat k)) = Some k.
Proof.
  intros Hk.
  assert (Hc : k = 0 \/ k = 1 \/ k = 2 \/ k = 3 \/ k = 4 \/ k = 5 \/ k = 6
               \/ k = 7 \/ k = 8 \/ k = 9) by lia.
  repeat (destruct Hc as [-> | Hc]; [ reflexivity | ]); subst k; reflexivity.
Qed.

Lemma hour_of_range (t : datetime) : 0 <= hour_of t < 24.
Proof.
  unfold hour_of, usec_per_day, usec_per_hour.
  pose proof (Z.mod_pos_bound t 86400000000 ltac:(lia)).
  split; [ apply Z.div_pos; lia | apply Z.div_lt_upper_bound; lia ].
Qed.

Lemma minute_of_range (t : datetime) : 0 <= minute_of t < 60.
Proof.
  unfold minute_of, usec_per_hour, usec_per_minute.
  pose proof (Z.mod_pos_bound (t mod usec_per_day) 3600000000 ltac:(lia)).
  split; [ apply Z.div_pos; lia | apply Z.div_lt_upper_bound; lia ].
Qed.

Lemma minute_of_day_split (t : datetime) :
  minute_of_day t = 60 * hour_of t + minute_of t.
Proof.
  unfold minute_of_day, hour_of, minute_of, usec_per_hour, usec_per_minute.
  set (x := t mod usec_per_day).
  rewrite (Z.div_mod x 3600000000) at 1 by lia.
  replace (3600000000 * (x / 3600000000)) with (60 * (x / 3600000000) * 60000000) by lia.
  rewrite Z.div_add_l by lia. reflexivity.
Qed.

Lemma HM_minutes_two_digits (h m : Z) :
  0 <= h < 100 -> 0 <= m < 100 ->
  HM_minutes (two_digits h +:+ ":" +:+ two_digits m) = Some (60 * h + m).
Proof.
  intros Hh Hm.
  cbv beta iota zeta fix delta [String.append HM_minutes two_digits].
  change (Ascii.eqb ":" ":") with true; cbv iota.
  rewrite !digit_of_char
    by (first [ apply Z.mod_pos_bound; lia
              | split; [ apply Z.div_pos; lia | apply Z.div_lt_upper_bound; lia ] ]).
  cbn [mbind option_bind]. f_equal.
  pose proof (Z.div_mod h 10 ltac:(lia)). pose proof (Z.div_mod m 10 ltac:(lia)). lia.
Qed.

Lemma HM_minutes_strftime (t : datetime) :
  HM_minutes (strftime_HM t) = Some (minute_of_day t).
Proof.
  unfold strftime_HM.
  pose proof (hour_of_range t). pose proof (minute_of_range t).
  rewrite HM_minutes_two_digits by lia.
  rewrite minute_of_day_split. reflexivity.
Qed.

Lemma minute_of_day_mono (x y : datetime) :
  x <= y -> x / usec_per_day = y / usec_per_day -> minute_of_day x <= minute_of_day y.
Proof.
  intros Hxy Hday. unfold minute_of_day.
  apply Z.div_le_mono; [ unfold usec_per_minute; lia | ].
  rewrite !Z.mod_eq by (unfold usec_per_day; lia). rewrite Hday. lia.
Qed.

Lemma same_day_between (x y z : datetime) :
  x <= y <= z -> x / usec_per_day = z / usec_per_day ->
  y / usec_per_day = x / usec_per_day.
Proof.
  intros [Hxy Hyz] Hday.
  assert (0 < usec_per_day) by (unfold usec_per_day; lia).
  pose proof (Z.div_le_mono x y usec_per_day ltac:(lia) Hxy).
  pose proof (Z.div_le_mono y z usec_per_day ltac:(lia) Hyz).
  lia.
Qed.

Lemma HM_leb_strftime (x y : datetime) :
  x <= y -> x / usec_per_day = y / usec_per_day ->
  HM_leb (strftime_HM x) (strftime_HM y) = true.
Proof.
  intros Hxy Hday. unfold HM_leb. rewrite !HM_minutes_strftime.
  apply Z.leb_le, minute_of_day_mono; assumption.
Qed.

Lemma strftime_HM_not_NA (t : datetime) : strftime_HM t <> "N/A".
Proof.
  cbv beta iota zeta fix delta [String.append strftime_HM two_digits]; discriminate.
Qed.

End PyFacts.

(** ** The stages of the computation *)

Module Stages.
Import Py ephem calculator PyFacts Spec.

Ltac ok_inv :=
  repeat match goal with
  | H : _ ≫= _ = Ok _ |- _ =>
      let a := fresh "a" in
      let Ha := fresh "Ha" in
      apply bind_ok in H; destruct H as (a & Ha & H)
  | H : mret _ = Ok _ |- _ => apply Ok_inj in H
  | H : Ok _ = Ok _ |- _ => apply Ok_inj in H
  | H : Raise _ = Ok _ |- _ => discriminate H
  | H : context [match ?x with pair _ _ => _ end] |- _ =>
      is_var x; destruct x; cbv beta iota in H
  | H : (_, _) = (_, _) |- _ => injection H as ? ?
  | H : ?x = _ |- _ => is_var x; subst x
  | H : _ = ?x |- _ => is_var x; subst x
  end.

(** Two runs of the same call give the same value. *)
Ltac ok_merge :=
  repeat match goal with
  | H1 : ?x = Ok ?a, H2 : ?x = Ok ?b |- _ =>
      rewrite H1 in H2; apply Ok_inj in H2; try subst b
  end.

Ltac ok_rewrite :=
  repeat first
    [ match goal with H : ?x = Ok _ |- context [?x] => rewrite H end
    | progress cbn [mbind result_bind mret result_ret] ].

Section WithLibrary.
Variable E : Lib.

Lemma sun_events_searches (lat lon : Q) (d : Py.date) :
  sun_events E (observer_at lat lon (midnight d) 0) =
  match sunrise_search E lat lon d, sunset_search E lat lon d with
  | Crossing r, Crossing s => (Some r, Some s)
  | _, _ => (None, None)
  end.
Proof.
  unfold sun_events, sunrise_search, sunset_search.
  destruct (next_rising E _ false); reflexivity.
Qed.

Lemma twilight_step_ok (d : Py.date) (tzo : Q) (o o' : Observer)
    (m m' : gmap string string) (name : string) (angle : Z) :
  twilight_step E d tzo (o, m) (name, angle) = Ok (o', m') <->
  exists s1 s2,
    render tzo (dawn_search E (lat o) (lon o) d angle) = Ok s1 /\
    render tzo (dusk_search E (lat o) (lon o) d angle) = Ok s2 /\
    o' = observer_at (lat o) (lon o) (midday d) angle /\
    m' = <[name +:+ "Dusk" := s2]> (<[name +:+ "_Dawn" := s1]> m).
Proof.
  unfold twilight_step, dawn_search, dusk_search, render, local_time, observer_at,
    midnight, midday, set_date, set_horizon; cbn [lat lon date horizon].
  split.
  - intros H. ok_inv. subst.
    destruct (next_rising E _ true); destruct (next_setting E _ true);
      ok_inv; subst; ok_merge; ok_rewrite;
      do 2 eexists; repeat split; reflexivity.
  - intros (s1 & s2 & H1 & H2 & -> & ->).
    destruct (next_rising E _ true); destruct (next_setting E _ true);
      ok_inv; subst; ok_merge; ok_rewrite; reflexivity.
Qed.

Lemma twilight_loop_ok (d : Py.date) (tzo : Q) (lat lon : Q) (o' : Observer)
    (tw : gmap string string) :
  foldM (twilight_step E d tzo) twilights (observer_at lat lon (midnight d) 0, ∅)
    = Ok (o', tw) <->
  exists a1 a2 n1 n2 c1 c2,
    render tzo (dawn_search E lat lon d (-18)) = Ok a1 /\
    render tzo (dusk_search E lat lon d (-18)) = Ok a2 /\
    render tzo (dawn_search E lat lon d (-12)) = Ok n1 /\
    render tzo (dusk_search E lat lon d (-12)) = Ok n2 /\
    render tzo (dawn_search E lat lon d (-6)) = Ok c1 /\
    render tzo (dusk_search E lat lon d (-6)) = Ok c2 /\
    o' = observer_at lat lon (midday d) (-6) /\
    tw = twilight_dict a1 a2 n1 n2 c1 c2.
Proof.
  unfold twilights; cbn [foldM]. split.
  - intros H. ok_inv.
    repeat match goal with x : (Observer * gmap string string)%type |- _ => destruct x end.
    ok_inv.
    repeat match goal with
    | Hs : twilight_step _ _ _ _ _ = Ok _ |- _ =>
        apply twilight_step_ok in Hs as (? & ? & ? & ? & ? & ?); subst;
        cbn [ephem.lat ephem.lon observer_at] in *
    end.
    do 6 eexists. repeat split; eassumption || reflexivity.
  - intros (a1 & a2 & n1 & n2 & c1 & c2 & Ha1 & Ha2 & Hn1 & Hn2 & Hc1 & Hc2 & -> & ->).
    rewrite (bind_of_ok _ _ (observer_at lat lon (midday d) (-18),
               <["AstronomicalDusk" := a2]> (<["Astronomical_Dawn" := a1]> ∅)))
      by (apply twilight_step_ok; exists a1, a2; repeat split; assumption).
    rewrite (bind_of_ok _ _ (observer_at lat lon (midday d) (-12),
               <["NauticalDusk" := n2]> (<["Nautical_Dawn" := n1]>
               (<["AstronomicalDusk" := a2]> (<["Astronomical_Dawn" := a1]> ∅)))))
      by (apply twilight_step_ok; exists n1, n2; repeat split; assumption).
    rewrite (bind_of_ok _ _ (observer_at lat lon (midday d) (-6),
               twilight_dict a1 a2 n1 n2 c1 c2))
      by (apply twilight_step_ok; exists c1, c2; repeat split; assumption).
    reflexivity.
Qed.

Lemma twilight_dict_get (a1 a2 n1 n2 c1 c2 : string) :
  let tw := twilight_dict a1 a2 n1 n2 c1 c2 in
  get tw "Astronomical_Dawn" = a1 /\ get tw "AstronomicalDusk" = a2 /\
  get tw "Nautical_Dawn" = n1 /\ get tw "NauticalDusk" = n2 /\
  get tw "Civil_Dawn" = c1 /\ get tw "CivilDusk" = c2.
Proof.
  unfold get, twilight_dict; cbv zeta.
  repeat split; by simplify_map_eq.
Qed.

Lemma strptime_ok (date_str : string) (d : Py.date) :
  strptime date_str = Ok d <-> strptime_Ymd date_str = Some d.
Proof.
  unfold strptime; destruct (strptime_Ymd date_str); split; congruence.
Qed.

(** The whole function, read off stage by stage. *)
Lemma calculate_ok (lat lon : Q) (date_str : string) (tzo : Q) (r : Report.t) :
  calculate_astronomical_events E lat lon date_str tzo = Ok r <->
  reports E lat lon date_str tzo r.
Proof.
  unfold calculate_astronomical_events, reports.
  split.
  - intros H. apply bind_ok in H as (d & Hd & H). apply strptime_ok in Hd.
    change (set_horizon 0 _) with (observer_at lat lon (midnight d) 0) in H.
    rewrite sun_events_searches in H.
    exists d.
    destruct (sunrise_search E lat lon d) as [sr| |];
      [ destruct (sunset_search E lat lon d) as [ss| |] | | ];
      cbn [day_part uv_part sleep_duration] in H; ok_inv; subst; ok_merge;
      match goal with
      | Hl : foldM _ _ _ = Ok _ |- _ =>
          apply twilight_loop_ok in Hl
            as (w1 & w2 & w3 & w4 & w5 & w6 & ? & ? & ? & ? & ? & ? & -> & ->)
      end;
      pose proof (twilight_dict_get w1 w2 w3 w4 w5 w6) as (-> & -> & -> & -> & -> & ->);
      repeat match goal with Ha : add _ _ = Ok _ |- _ => apply add_ok in Ha as [? ->] end;
      match goal with Htz : timedelta_hours tzo = Ok ?tz |- _ => exists tz end;
      exists (mk_twilight_fields w1 w2 w3 w4 w5 w6);
      (split; [assumption | split; [assumption | split; [repeat split; assumption | ]]]).
    + do 3 eexists. repeat split; try eassumption; reflexivity.
    + split; [assumption | reflexivity].
    + split; [assumption | reflexivity].
    + split; [assumption | reflexivity].
    + split; [assumption | reflexivity].
  - intros (d & tz & tw & Hd & Htz & Htw & H).
    apply strptime_ok in Hd. rewrite (bind_of_ok _ _ _ Hd).
    change (set_horizon 0 _) with (observer_at lat lon (midnight d) 0).
    rewrite sun_events_searches.
    destruct tw as [a1 a2 n1 n2 c1 c2].
    destruct Htw as (? & ? & ? & ? & ? & ?); cbn [astronomical_dawn astronomical_dusk
      nautical_dawn nautical_dusk civil_dawn civil_dusk] in *.
    assert (Hloop : foldM (twilight_step E d tzo) twilights
                      (observer_at lat lon (midnight d) 0, ∅)
                    = Ok (observer_at lat lon (midday d) (-6),
                          twilight_dict a1 a2 n1 n2 c1 c2))
      by (apply twilight_loop_ok; exists a1, a2, n1, n2, c1, c2; repeat split; assumption).
    pose proof (twilight_dict_get a1 a2 n1 n2 c1 c2) as (G1 & G2 & G3 & G4 & G5 & G6).
    destruct (sunrise_search E lat lon d) as [sr| |];
      [ destruct (sunset_search E lat lon d) as [ss| |] | | ];
      cbn [day_part uv_part sleep_duration].
    + destruct H as (u1 & u2 & u3 & U1 & U2 & U3 & R1 & R2 & R3 & R4 & R5 & R6 & R7 & ->).
      rewrite U1, U2, U3, Htz; cbn [mbind result_bind mret result_ret].
      unfold add. rewrite R1, R2, R3; cbn [mbind result_bind mret result_ret].
      rewrite Hloop; cbn [mbind result_bind mret result_ret].
      unfold Z.sub in R5, R7. rewrite R4, R5, R6, R7; cbn [mbind result_bind mret result_ret].
      rewrite G1, G2, G3, G4, G5, G6. reflexivity.
    + destruct H as (R & ->). rewrite Htz; cbn [mbind result_bind mret result_ret].
      unfold add; rewrite R; cbn [mbind result_bind mret result_ret].
      rewrite Hloop; cbn [mbind result_bind mret result_ret].
      rewrite G1, G2, G3, G4, G5, G6. reflexivity.
    + destruct H as (R & ->). rewrite Htz; cbn [mbind result_bind mret result_ret].
      unfold add; rewrite R; cbn [mbind result_bind mret result_ret].
      rewrite Hloop; cbn [mbind result_bind mret result_ret].
      rewrite G1, G2, G3, G4, G5, G6. reflexivity.
    + destruct H as (R & ->). rewrite Htz; cbn [mbind result_bind mret result_ret].
      unfold add; rewrite R; cbn [mbind result_bind mret result_ret].
      rewrite Hloop; cbn [mbind result_bind mret result_ret].
      rewrite G1, G2, G3, G4, G5, G6. reflexivity.
    + destruct H as (R & ->). rewrite Htz; cbn [mbind result_bind mret result_ret].
      unfold add; rewrite R; cbn [mbind result_bind mret result_ret].
      rewrite Hloop; cbn [mbind result_bind mret result_ret].
      rewrite G1, G2, G3, G4, G5, G6. reflexivity.
Qed.

End WithLibrary.

(** *** When the stages succeed *)

Lemma Date_datetime_ok (t : Date) (u : datetime) :
  Date_datetime t = Ok u <-> in_range (to_usec t) = true /\ u = to_usec t.
Proof.
  unfold Date_datetime; fold (to_usec t).
  destruct (in_range (to_usec t)); split.
  - intros H; apply Ok_inj in H; auto.
  - intros [_ ->]; reflexivity.
  - discriminate.
  - intros [? _]; discriminate.
Qed.

Lemma to_usec_mono (a b : Date) : (a <= b)%Q -> to_usec a <= to_usec b.
Proof.
  intros Hab. unfold to_usec. apply Z.add_le_mono_r, Qfloor_resp_le.
  apply Qplus_le_compat; [ | apply Qle_refl ].
  apply Qmult_le_compat_r; [ exact Hab | discriminate ].
Qed.

Lemma to_usec_half_sum (a b : Date) :
  Z.min (to_usec a) (to_usec b) <= to_usec ((a + b) / 2)%Q
  <= Z.max (to_usec a) (to_usec b).
Proof.
  destruct (Qlt_le_dec a b) as [Hab | Hba].
  - assert (a <= (a + b) / 2 <= b)%Q as [H1 H2]
      by (split; [apply Qle_shift_div_l | apply Qle_shift_div_r]; lra).
    apply to_usec_mono in H1, H2. lia.
  - assert (b <= (a + b) / 2 <= a)%Q as [H1 H2]
      by (split; [apply Qle_shift_div_l | apply Qle_shift_div_r]; lra).
    apply to_usec_mono in H1, H2. lia.
Qed.

Lemma render_fits (tzo : Q) (tz : timedelta) (rs : RiseSet) :
  timedelta_hours tzo = Ok tz ->
  (exists s, render tzo rs = Ok s) <-> fits tz rs = true.
Proof.
  intros Htz. unfold render, local_time, fits.
  destruct rs as [t| |]; [ | split; eauto .. ].
  rewrite Htz, andb_true_iff. split.
  - intros (s & H). ok_inv.
    match goal with Hx : Date_datetime _ = Ok _ |- _ =>
      apply Date_datetime_ok in Hx as [? ->] end.
    match goal with Hx : add _ _ = Ok _ |- _ => apply add_ok in Hx as [? _] end.
    auto.
  - intros [H1 H2].
    rewrite (proj2 (Date_datetime_ok t _) (conj H1 eq_refl)).
    cbn [mbind result_bind]. unfold add. rewrite H2.
    eexists; reflexivity.
Qed.

Lemma render_crossing (tzo : Q) (tz : timedelta) (t : Date) (s : string) :
  timedelta_hours tzo = Ok tz ->
  render tzo (Crossing t) = Ok s -> s = strftime_HM (to_usec t + tz).
Proof.
  intros Htz H. unfold render, local_time in H. ok_inv.
  match goal with Hx : Date_datetime _ = Ok _ |- _ =>
    apply Date_datetime_ok in Hx as [_ ->] end.
  match goal with Hx : add _ _ = Ok _ |- _ => apply add_ok in Hx as [_ ->] end.
  ok_merge. reflexivity.
Qed.

(** X8.  The branch of [uv_part] that would add a [timedelta] to a string
    is never taken: no call ends in [TypeError]. *)
Lemma never_TypeError (E : Lib) (lat lon : Q) (date_str : string) (tzo : Q) :
  calculate_astronomical_events E lat lon date_str tzo <> Raise TypeError.
Proof.
  unfold calculate_astronomical_events, strptime.
  destruct (strptime_Ymd date_str) as [d|]; [ | discriminate ].
  cbn [mbind result_bind].
  change (set_horizon 0 _) with (observer_at lat lon (midnight d) 0).
  rewrite sun_events_searches.
  assert (Hstep : forall st item,
            twilight_step E d tzo st item <> Raise TypeError).
  { intros [o m] [name angle]. unfold twilight_step.
    destruct (next_rising E _ true); destruct (next_setting E _ true);
      repeat match goal with
      | |- context [mbind _ ?m] =>
          match m with
          | timedelta_hours _ => unfold timedelta_hours
          | add _ _ => unfold add
          | Date_datetime _ => unfold Date_datetime
          end
      | |- context [if ?b then _ else _] => destruct b
      | _ => progress cbn [mbind result_bind mret result_ret]
      end; discriminate. }
  assert (Hloop : forall l st, foldM (twilight_step E d tzo) l st <> Raise TypeError).
  { induction l as [|item l IH]; intros st; cbn [foldM]; [ discriminate | ].
    specialize (Hstep st item).
    destruct (twilight_step E d tzo st item) as [st'|e]; cbn [mbind result_bind];
      [ apply IH | congruence ]. }
  specialize (Hloop twilights (observer_at lat lon (midnight d) 0, ∅)).
  destruct (sunrise_search E lat lon d) as [sr| |];
    [ destruct (sunset_search E lat lon d) as [ss| |] | | ];
    cbn [day_part uv_part];
    unfold timedelta_hours, add, Date_datetime;
    repeat match goal with
    | |- context [if ?b then _ else _] => destruct b
    | _ => progress cbn [mbind result_bind mret result_ret]
    end; try discriminate;
    destruct (foldM _ _ _) as [[o tw]|e]; cbn [mbind result_bind mret result_ret];
    repeat match goal with
    | |- context [if ?b then _ else _] => destruct b
    | _ => progress cbn [mbind result_bind mret result_ret]
    end; try congruence; unfold mret, result_ret; discriminate.
Qed.

(** A call returns a report exactly when the date string parses and every
    instant stays a [datetime]. *)
Lemma calculate_returns (E : Lib) (lat lon : Q) (date_str : string) (tzo : Q) :
  returns (calculate_astronomical_events E lat lon date_str tzo) = true <->
  exists d, strptime_Ymd date_str = Some d /\ stays_in_range E lat lon d tzo = true.
Proof.
  split.
  - destruct (calculate_astronomical_events E lat lon date_str tzo) as [r|e] eqn:H;
      [ intros _ | discriminate ].
    apply calculate_ok in H as (d & tz & tw & Hd & Htz & Htw & H).
    exists d; split; [exact Hd | ].
    unfold stays_in_range; rewrite Htz.
    destruct Htw as (T1 & T2 & T3 & T4 & T5 & T6).
    cbn [forallb]. rewrite !andb_true_iff.
    repeat split;
      try (apply (render_fits tzo tz _ Htz); eexists; eassumption).
    destruct (sunrise_search E lat lon d) as [sr| |];
      [ destruct (sunset_search E lat lon d) as [ss| |] | | ];
      try (destruct H as (R & _); exact R).
    destruct H as (u1 & u2 & u3 & Hu1 & Hu2 & Hu3 & R1 & R2 & R3 & R4 & R5 & R6 & R7 & _).
    apply Date_datetime_ok in Hu1 as [U1 ->].
    apply Date_datetime_ok in Hu2 as [U2 ->].
    cbn [fits]. rewrite U1, U2, R1, R2, R6, R7. reflexivity.
  - intros (d & Hd & H). unfold stays_in_range in H.
    destruct (timedelta_hours tzo) as [tz|] eqn:Htz; [ | discriminate ].
    cbn [forallb] in H. rewrite !andb_true_iff in H.
    destruct H as (((D1 & K1) & (D2 & K2) & (D3 & K3) & _) & H).
    apply (render_fits tzo tz _ Htz) in D1 as (a1 & D1), K1 as (a2 & K1),
      D2 as (n1 & D2), K2 as (n2 & K2), D3 as (c1 & D3), K3 as (c2 & K3).
    assert (Htw : twilights_rendered E lat lon d tzo (mk_twilight_fields a1 a2 n1 n2 c1 c2))
      by (repeat split; assumption).
    enough (exists r, reports E lat lon date_str tzo r) as (r & Hr)
      by (apply calculate_ok in Hr; rewrite Hr; reflexivity).
    unfold reports.
    destruct (sunrise_search E lat lon d) as [sr| |] eqn:Hsr;
      [ destruct (sunset_search E lat lon d) as [ss| |] eqn:Hss | | ];
      try (eexists; exists d, tz, (mk_twilight_fields a1 a2 n1 n2 c1 c2);
           rewrite Hsr, ?Hss;
           split; [exact Hd | split; [exact Htz | split; [exact Htw | ]]];
           split; [exact H | reflexivity]).
    cbn [fits] in H. rewrite !andb_true_iff in H.
    destruct H as ((((U1 & R1) & (U2 & R2)) & R6) & R7).
    pose proof (to_usec_half_sum sr ss) as Hmid.
    assert (U3 : in_range (to_usec ((sr + ss) / 2)%Q) = true)
      by (rewrite in_range_spec in *; lia).
    assert (R3 : in_range (to_usec ((sr + ss) / 2)%Q + tz) = true)
      by (rewrite in_range_spec in *; lia).
    assert (R4 : in_range (to_usec sr + tz + timedelta_hm 1 8) = true)
      by (rewrite in_range_spec in *; unfold timedelta_hm, usec_per_hour, usec_per_minute in *; lia).
    assert (R5 : in_range (to_usec ss + tz - timedelta_hm 1 8) = true)
      by (rewrite in_range_spec in *; unfold timedelta_hm, usec_per_hour, usec_per_minute in *; lia).
    eexists; exists d, tz, (mk_twilight_fields a1 a2 n1 n2 c1 c2).
    rewrite Hsr, Hss.
    split; [exact Hd | split; [exact Htz | split; [exact Htw | ]]].
    exists (to_usec sr), (to_usec ss), (to_usec ((sr + ss) / 2)%Q).
    repeat split; try assumption; apply Date_datetime_ok; auto.
Qed.

End Stages.

(** ** Properties of the report *)

Module Claims.
Import Py ephem calculator Samples Spec Runs PyFacts Stages.

(** Opens a report of a successful call into its stages. *)
Ltac open_report H :=
  apply calculate_ok in H;
  destruct H as (d & tz & tw & Hd & Htz & Htw & H);
  destruct (sunrise_search _ _ _ d) as [sr| |] eqn:Hsr;
    [ destruct (sunset_search _ _ _ d) as [ss| |] eqn:Hss;
      [ destruct H as (sunrise_utc & sunset_utc & noon_utc &
                       Hu1 & Hu2 & Hu3 & R1 & R2 & R3 & R4 & R5 & R6 & R7 & ->)
      | destruct H as (R & ->) | destruct H as (R & ->) ]
    | destruct H as (R & ->) | destruct H as (R & ->) ].

Ltac use_searches :=
  repeat match goal with
  | Hx : @eq RiseSet _ _ |- _ => rewrite Hx
  end.

(** C9.  In a report, sunrise is ["N/A"] exactly when sunset is, exactly
    when each of the four UV fields is, and exactly when one of the two
    searches for the 0 degree horizon ended without a crossing (one failure
    is enough to blank both). *)
Theorem sunrise_sunset_na_together (E : Lib) (lat lon : Q) (date_str : string)
    (tzo : Q) (r : Report.t) :
  calculate_astronomical_events E lat lon date_str tzo = Ok r ->
  exists d day,
    strptime_Ymd date_str = Some d /\ Report.data r = [day] /\
    (Report.sunrise day = "N/A" <-> Report.sunset day = "N/A") /\
    (Report.UVA_on day = "N/A" <-> Report.sunrise day = "N/A") /\
    (Report.UVA_off day = "N/A" <-> Report.sunrise day = "N/A") /\
    (Report.UVB_on day = "N/A" <-> Report.sunrise day = "N/A") /\
    (Report.UVB_off day = "N/A" <-> Report.sunrise day = "N/A") /\
    (Report.sunrise day = "N/A" <->
     is_crossing (sunrise_search E lat lon d) && is_crossing (sunset_search E lat lon d)
     = false).
Proof.
  intros H. open_report H; exists d; eexists;
    (split; [exact Hd | split; [reflexivity | ]]); use_searches;
    cbn [observable_day fallback_day Report.sunrise Report.sunset Report.UVA_on
         Report.UVA_off Report.UVB_on Report.UVB_off is_crossing andb];
    repeat split; intros; try reflexivity; try discriminate; try congruence;
    exfalso; eapply strftime_HM_not_NA; eassumption.
Qed.

Lemma sunrise_sunset_na_together_witness :
  exists d day,
    strptime_Ymd "2025-06-21" = Some d /\ Report.data polar_day_report = [day] /\
    (Report.sunrise day = "N/A" <-> Report.sunset day = "N/A") /\
    (Report.UVA_on day = "N/A" <-> Report.sunrise day = "N/A") /\
    (Report.UVA_off day = "N/A" <-> Report.sunrise day = "N/A") /\
    (Report.UVB_on day = "N/A" <-> Report.sunrise day = "N/A") /\
    (Report.UVB_off day = "N/A" <-> Report.sunrise day = "N/A") /\
    (Report.sunrise day = "N/A" <->
     is_crossing (sunrise_search (periodic polar_day) (7822 # 100) (1565 # 100) d)
     && is_crossing (sunset_search (periodic polar_day) (7822 # 100) (1565 # 100) d)
     = false).
Proof.
  apply (sunrise_sunset_na_together (periodic polar_day) (7822 # 100) (1565 # 100)
           "2025-06-21" 2 polar_day_report).
  vm_compute. reflexivity.
Defined.

(** C10.  With latitude, longitude and date fixed, two calls that differ
    only in [tzo] report the same day length, night length, sleep duration
    and elevation angle. *)
Theorem lengths_independent_of_tzo (E : Lib) (lat lon : Q) (date_str : string)
    (tzo1 tzo2 : Q) (r1 r2 : Report.t) :
  calculate_astronomical_events E lat lon date_str tzo1 = Ok r1 ->
  calculate_astronomical_events E lat lon date_str tzo2 = Ok r2 ->
  exists day1 day2,
    Report.data r1 = [day1] /\ Report.data r2 = [day2] /\
    Report.daylength day1 = Report.daylength day2 /\
    Report.nightLength day1 = Report.nightLength day2 /\
    Report.sleepDuration day1 = Report.sleepDuration day2 /\
    Report.ElevationAngle day1 = Report.ElevationAngle day2.
Proof.
  intros H1 H2.
  apply calculate_ok in H1 as (d & tz1 & tw1 & Hd & _ & _ & H1).
  apply calculate_ok in H2 as (d' & tz2 & tw2 & Hd' & _ & _ & H2).
  rewrite Hd in Hd'; injection Hd' as <-.
  destruct (sunrise_search E lat lon d) as [sr| |];
    [ destruct (sunset_search E lat lon d) as [ss| |] | | ].
  - destruct H1 as (u1 & u2 & u3 & Hu1 & Hu2 & _ & _ & _ & _ & _ & _ & _ & _ & ->).
    destruct H2 as (v1 & v2 & v3 & Hv1 & Hv2 & _ & _ & _ & _ & _ & _ & _ & _ & ->).
    rewrite Hu1 in Hv1; injection Hv1 as <-.
    rewrite Hu2 in Hv2; injection Hv2 as <-.
    do 2 eexists; repeat split; reflexivity.
  - destruct H1 as (_ & ->), H2 as (_ & ->). do 2 eexists; repeat split; reflexivity.
  - destruct H1 as (_ & ->), H2 as (_ & ->). do 2 eexists; repeat split; reflexivity.
  - destruct H1 as (_ & ->), H2 as (_ & ->). do 2 eexists; repeat split; reflexivity.
  - destruct H1 as (_ & ->), H2 as (_ & ->). do 2 eexists; repeat split; reflexivity.
Qed.

Lemma lengths_independent_of_tzo_witness :
  exists day1 day2,
    Report.data athens_report = [day1] /\ Report.data athens_report_tzo8 = [day2] /\
    Report.daylength day1 = Report.daylength day2 /\
    Report.nightLength day1 = Report.nightLength day2 /\
    Report.sleepDuration day1 = Report.sleepDuration day2 /\
    Report.ElevationAngle day1 = Report.ElevationAngle day2.
Proof.
  apply (lengths_independent_of_tzo (periodic athens) athens_lat athens_lon
           "2025-04-14" 3 8 athens_report athens_report_tzo8).
  - vm_compute. reflexivity.
  - vm_compute. reflexivity.
Defined.

(** C7.  [ElevationAngle] is the altitude the library computes for the
    observer at 00:00 UTC of the date, turned into degrees and cut toward
    zero to an integer: the floor of a positive value, the ceiling of a
    negative one. *)
Theorem elevation_angle_truncated (E : Lib) (lat lon : Q) (date_str : string)
    (tzo : Q) (r : Report.t) :
  calculate_astronomical_events E lat lon date_str tzo = Ok r ->
  exists d day,
    strptime_Ymd date_str = Some d /\ Report.data r = [day] /\
    let degs := degrees E (alt E (observer_at lat lon (Date_of_datetime (combine d 0 0)) (-6))) in
    Report.ElevationAngle day = str (truncate degs) /\
    (0 <= degs -> inject_Z (truncate degs) <= degs < inject_Z (truncate degs) + 1)%Q /\
    (degs <= 0 -> inject_Z (truncate degs) - 1 < degs <= inject_Z (truncate degs))%Q.
Proof.
  intros H.
  assert (Hday : exists d day, strptime_Ymd date_str = Some d /\ Report.data r = [day] /\
            Report.ElevationAngle day = str (elevation E lat lon d)).
  { open_report H; exists d; eexists; (split; [exact Hd | split; reflexivity]). }
  destruct Hday as (d & day & Hd & Hdata & Helev).
  exists d, day. split; [exact Hd | split; [exact Hdata | ]].
  cbv zeta. rewrite Helev. unfold elevation, midnight. rewrite int_truncate.
  split; [reflexivity | ].
  rewrite <- int_truncate. apply int_bounds.
Qed.

Lemma elevation_angle_truncated_witness :
  exists d day,
    strptime_Ymd "2025-04-14" = Some d /\ Report.data athens_report = [day] /\
    let degs := degrees (periodic athens)
                  (alt (periodic athens)
                     (observer_at athens_lat athens_lon
                        (Date_of_datetime (combine d 0 0)) (-6))) in
    Report.ElevationAngle day = str (truncate degs) /\
    (0 <= degs -> inject_Z (truncate degs) <= degs < inject_Z (truncate degs) + 1)%Q /\
    (degs <= 0 -> inject_Z (truncate degs) - 1 < degs <= inject_Z (truncate degs))%Q.
Proof.
  apply (elevation_angle_truncated (periodic athens) athens_lat athens_lon
           "2025-04-14" 3 athens_report).
  vm_compute. reflexivity.
Defined.

(** The altitude over Athens in the sample is -41.30 degrees: the field reads
    -41, where rounding would give -41 as well; at -41.7 the two differ. *)
Example truncation_is_not_rounding :
  str (int (-(417 # 10))) = "-41" /\ str (round (-(417 # 10))) = "-42".
Proof. split; reflexivity. Qed.

Lemma midpoint_equidistant (a b : Date) :
  (midpoint a b - a == b - midpoint a b)%Q.
Proof. unfold midpoint. field. Qed.

Lemma Date_datetime_comp (a b : Date) :
  (a == b)%Q -> Date_datetime a = Date_datetime b.
Proof.
  intros Hab. unfold Date_datetime.
  assert (Hf : Qfloor (a * inject_Z usec_per_day + (1 # 2))
               = Qfloor (b * inject_Z usec_per_day + (1 # 2)))
    by (apply Qfloor_comp; rewrite Hab; reflexivity).
  rewrite Hf. reflexivity.
Qed.

Lemma half_sum_midpoint (a b : Date) : ((a + b) / 2 == midpoint a b)%Q.
Proof. unfold midpoint. field. Qed.

(** C5.  With sunrise and sunset both found, [SolarNoon] is the instant half
    way between them, moved by [tzo] hours and printed as [HH:MM]; otherwise
    it is 12:00 of the date, moved by [tzo] hours and printed the same way. *)
Theorem solar_noon_midpoint_or_midday (E : Lib) (lat lon : Q) (date_str : string)
    (tzo : Q) (r : Report.t) :
  calculate_astronomical_events E lat lon date_str tzo = Ok r ->
  exists d day,
    strptime_Ymd date_str = Some d /\ Report.data r = [day] /\
    match sunrise_search E lat lon d, sunset_search E lat lon d with
    | Crossing sr, Crossing ss =>
        render tzo (Crossing (midpoint sr ss)) = Ok (Report.SolarNoon day)
    | _, _ =>
        (tz ← timedelta_hours tzo; noon ← add (combine d 12 0) tz;
         mret (strftime_HM noon)) = Ok (Report.SolarNoon day)
    end.
Proof.
  intros H. open_report H; exists d; eexists;
    (split; [exact Hd | split; [reflexivity | ]]); use_searches;
    cbn [observable_day fallback_day Report.SolarNoon].
  - unfold render, local_time.
    rewrite <- (Date_datetime_comp _ _ (half_sum_midpoint sr ss)).
    rewrite Hu3, Htz; cbn [mbind result_bind mret result_ret].
    unfold add; rewrite R3. reflexivity.
  - rewrite Htz; cbn [mbind result_bind]; unfold add; rewrite R; reflexivity.
  - rewrite Htz; cbn [mbind result_bind]; unfold add; rewrite R; reflexivity.
  - rewrite Htz; cbn [mbind result_bind]; unfold add; rewrite R; reflexivity.
  - rewrite Htz; cbn [mbind result_bind]; unfold add; rewrite R; reflexivity.
Qed.

Lemma solar_noon_midpoint_or_midday_witness :
  exists d day,
    strptime_Ymd "2025-04-14" = Some d /\ Report.data athens_report = [day] /\
    match sunrise_search (periodic athens) athens_lat athens_lon d,
          sunset_search (periodic athens) athens_lat athens_lon d with
    | Crossing sr, Crossing ss =>
        render 3 (Crossing (midpoint sr ss)) = Ok (Report.SolarNoon day)
    | _, _ =>
        (tz ← timedelta_hours 3; noon ← add (combine d 12 0) tz;
         mret (strftime_HM noon)) = Ok (Report.SolarNoon day)
    end.
Proof.
  apply (solar_noon_midpoint_or_midday (periodic athens) athens_lat athens_lon
           "2025-04-14" 3 athens_report).
  vm_compute. reflexivity.
Defined.

Lemma midday_after_midnight (d : Py.date) :
  (midday d == midnight d + (1 # 2))%Q.
Proof.
  unfold midday, midnight, Date_of_datetime, combine, Qeq, Qplus; simpl.
  unfold usec_per_day, usec_per_hour, usec_per_minute. lia.
Qed.

(** C6.  For each of the three twilight horizons the dawn field shows the
    next rising the library finds from 00:00 of the date, the dusk field the
    next setting it finds from 12:00 of the date: the dusk search starts
    half a day after the dawn search, on an observer that differs from it in
    nothing else. *)
Theorem twilight_search_starts (E : Lib) (lat lon : Q) (date_str : string)
    (tzo : Q) (r : Report.t) :
  calculate_astronomical_events E lat lon date_str tzo = Ok r ->
  exists d day,
    strptime_Ymd date_str = Some d /\ Report.data r = [day] /\
    let start := Date_of_datetime (combine d 0 0) in
    let noon := Date_of_datetime (combine d 12 0) in
    let dawn h := render tzo (next_rising E (mk_Observer lat lon start h) true) in
    let dusk h := render tzo (next_setting E (mk_Observer lat lon noon h) true) in
    dawn (-18) = Ok (Report.Astronomical_Dawn day) /\
    dusk (-18) = Ok (Report.AstronomicalDusk day) /\
    dawn (-12) = Ok (Report.Nautical_Dawn day) /\
    dusk (-12) = Ok (Report.NauticalDusk day) /\
    dawn (-6) = Ok (Report.Civil_Dawn day) /\
    dusk (-6) = Ok (Report.CivilDusk day) /\
    (noon == start + (1 # 2))%Q.
Proof.
  intros H.
  assert (Hday : exists d day tw, strptime_Ymd date_str = Some d /\ Report.data r = [day] /\
            twilights_rendered E lat lon d tzo tw /\
            Report.Astronomical_Dawn day = astronomical_dawn tw /\
            Report.AstronomicalDusk day = astronomical_dusk tw /\
            Report.Nautical_Dawn day = nautical_dawn tw /\
            Report.NauticalDusk day = nautical_dusk tw /\
            Report.Civil_Dawn day = civil_dawn tw /\
            Report.CivilDusk day = civil_dusk tw).
  { open_report H; exists d; eexists; exists tw;
      (split; [exact Hd | split; [reflexivity | split; [exact Htw | ]]]);
      repeat split; reflexivity. }
  destruct Hday as (d & day & tw & Hd & Hdata & Htw & F1 & F2 & F3 & F4 & F5 & F6).
  exists d, day. split; [exact Hd | split; [exact Hdata | ]].
  destruct Htw as (T1 & T2 & T3 & T4 & T5 & T6). cbv zeta.
  rewrite F1, F2, F3, F4, F5, F6.
  repeat split; try assumption. apply midday_after_midnight.
Qed.

Lemma twilight_search_starts_witness :
  exists d day,
    strptime_Ymd "2025-04-14" = Some d /\ Report.data athens_report = [day] /\
    let start := Date_of_datetime (combine d 0 0) in
    let noon := Date_of_datetime (combine d 12 0) in
    let dawn h :=
      render 3 (next_rising (periodic athens)
                  (mk_Observer athens_lat athens_lon start h) true) in
    let dusk h :=
      render 3 (next_setting (periodic athens)
                  (mk_Observer athens_lat athens_lon noon h) true) in
    dawn (-18) = Ok (Report.Astronomical_Dawn day) /\
    dusk (-18) = Ok (Report.AstronomicalDusk day) /\
    dawn (-12) = Ok (Report.Nautical_Dawn day) /\
    dusk (-12) = Ok (Report.NauticalDusk day) /\
    dawn (-6) = Ok (Report.Civil_Dawn day) /\
    dusk (-6) = Ok (Report.CivilDusk day) /\
    (noon == start + (1 # 2))%Q.
Proof.
  apply (twilight_search_starts (periodic athens) athens_lat athens_lon
           "2025-04-14" 3 athens_report).
  vm_compute. reflexivity.
Defined.

(** With a library that keeps to "next", returning a date after the one the
    observer is set to, every dusk found lies after 12:00 of the date. *)
Lemma dusk_is_after_midday (E : Lib) (lat lon : Q) (d : Py.date) (angle : Z) (t : Date) :
  (forall o c t', next_setting E o c = Crossing t' -> (date o < t')%Q) ->
  dusk_search E lat lon d angle = Crossing t ->
  (midday d < t)%Q.
Proof. intros Hnext Ht. apply (Hnext _ _ _ Ht). Qed.

(** *** A report or an exception *)

(** C8, as stated, fails at the end of the calendar: at the south pole on
    9999-12-31 the sun never sets, the error of the search is caught, and
    the fallback solar noon, 12:00 plus twelve hours, is no [datetime] any
    more: [OverflowError] leaves the call. *)
Lemma last_day_overflows :
  strptime_Ymd "9999-12-31" = Some (mk_date 9999 12 31) /\
  next_rising (periodic south_pole_summer)
    (mk_Observer (-89) 0 (Date_of_datetime (combine (mk_date 9999 12 31) 0 0)) 0) false
  = AlwaysUpError /\
  calculate_astronomical_events (periodic south_pole_summer) (-89) 0 "9999-12-31" 12
  = Raise OverflowError_date.
Proof. repeat split; vm_compute; reflexivity. Qed.

(** C8, amended.  When the date string parses and every instant the
    computation forms is a [datetime], the call returns a report with one
    day in it.  Searches that end in [AlwaysUpError] or [NeverUpError] show
    as ["N/A"]: a failed sunrise or sunset search blanks both fields and
    sets the lengths to the pair 24:00 and 00:00, and a failed twilight
    search blanks its own field. *)
Theorem report_when_instants_in_range (E : Lib) (lat lon : Q) (date_str : string)
    (tzo : Q) (d : Py.date) :
  strptime_Ymd date_str = Some d ->
  stays_in_range E lat lon d tzo = true ->
  exists r day,
    calculate_astronomical_events E lat lon date_str tzo = Ok r /\
    Report.data r = [day] /\
    (is_crossing (sunrise_search E lat lon d) && is_crossing (sunset_search E lat lon d)
     = false ->
     Report.sunrise day = "N/A" /\ Report.sunset day = "N/A" /\
     (Report.daylength day = "24:00" /\ Report.nightLength day = "00:00" \/
      Report.daylength day = "00:00" /\ Report.nightLength day = "24:00")) /\
    (is_crossing (dawn_search E lat lon d (-18)) = false ->
     Report.Astronomical_Dawn day = "N/A") /\
    (is_crossing (dusk_search E lat lon d (-18)) = false ->
     Report.AstronomicalDusk day = "N/A") /\
    (is_crossing (dawn_search E lat lon d (-12)) = false ->
     Report.Nautical_Dawn day = "N/A") /\
    (is_crossing (dusk_search E lat lon d (-12)) = false ->
     Report.NauticalDusk day = "N/A") /\
    (is_crossing (dawn_search E lat lon d (-6)) = false ->
     Report.Civil_Dawn day = "N/A") /\
    (is_crossing (dusk_search E lat lon d (-6)) = false ->
     Report.CivilDusk day = "N/A").
Proof.
  intros Hd Hrange.
  assert (Hret : returns (calculate_astronomical_events E lat lon date_str tzo) = true)
    by (apply calculate_returns; exists d; auto).
  destruct (calculate_astronomical_events E lat lon date_str tzo) as [r|e] eqn:H;
    [ clear Hret | discriminate ].
  exists r.
  assert (Hna : forall rs s, render tzo rs = Ok s -> is_crossing rs = false -> s = "N/A").
  { intros [t| |] s Hs Hc; try discriminate; apply Ok_inj in Hs; auto. }
  apply calculate_ok in H as (d' & tz & tw & Hd' & Htz & Htw & H).
  rewrite Hd in Hd'; injection Hd' as <-.
  destruct Htw as (T1 & T2 & T3 & T4 & T5 & T6).
  destruct (sunrise_search E lat lon d) as [sr| |];
    [ destruct (sunset_search E lat lon d) as [ss| |] | | ];
    [ destruct H as (u1 & u2 & u3 & _ & _ & _ & _ & _ & _ & _ & _ & _ & _ & ->)
    | destruct H as (_ & ->) .. ];
    eexists; (split; [reflexivity | split; [reflexivity | ]]);
    cbn [observable_day fallback_day Report.sunrise Report.sunset Report.daylength
         Report.nightLength Report.Astronomical_Dawn Report.AstronomicalDusk
         Report.Nautical_Dawn Report.NauticalDusk Report.Civil_Dawn Report.CivilDusk
         is_crossing andb];
    (split; [ first [ discriminate | intros _; auto ] | ]);
    repeat split; eauto.
Qed.

Lemma report_when_instants_in_range_witness :
  exists r day,
    calculate_astronomical_events (periodic polar_night)
      (7822 # 100) (1565 # 100) "2025-12-21" 1 = Ok r /\
    Report.data r = [day] /\
    (is_crossing (sunrise_search (periodic polar_night) (7822 # 100) (1565 # 100)
                    (mk_date 2025 12 21))
     && is_crossing (sunset_search (periodic polar_night) (7822 # 100) (1565 # 100)
                       (mk_date 2025 12 21))
     = false ->
     Report.sunrise day = "N/A" /\ Report.sunset day = "N/A" /\
     (Report.daylength day = "24:00" /\ Report.nightLength day = "00:00" \/
      Report.daylength day = "00:00" /\ Report.nightLength day = "24:00")) /\
    (is_crossing (dawn_search (periodic polar_night) (7822 # 100) (1565 # 100)
                    (mk_date 2025 12 21) (-18)) = false ->
     Report.Astronomical_Dawn day = "N/A") /\
    (is_crossing (dusk_search (periodic polar_night) (7822 # 100) (1565 # 100)
                    (mk_date 2025 12 21) (-18)) = false ->
     Report.AstronomicalDusk day = "N/A") /\
    (is_crossing (dawn_search (periodic polar_night) (7822 # 100) (1565 # 100)
                    (mk_date 2025 12 21) (-12)) = false ->
     Report.Nautical_Dawn day = "N/A") /\
    (is_crossing (dusk_search (periodic polar_night) (7822 # 100) (1565 # 100)
                    (mk_date 2025 12 21) (-12)) = false ->
     Report.NauticalDusk day = "N/A") /\
    (is_crossing (dawn_search (periodic polar_night) (7822 # 100) (1565 # 100)
                    (mk_date 2025 12 21) (-6)) = false ->
     Report.Civil_Dawn day = "N/A") /\
    (is_crossing (dusk_search (periodic polar_night) (7822 # 100) (1565 # 100)
                    (mk_date 2025 12 21) (-6)) = false ->
     Report.CivilDusk day = "N/A").
Proof.
  apply (report_when_instants_in_range (periodic polar_night)
           (7822 # 100) (1565 # 100) "2025-12-21" 1 (mk_date 2025 12 21)).
  - vm_compute. reflexivity.
  - vm_compute. reflexivity.
Defined.

(** C2, as stated, fails: a latitude of 100 degrees and a longitude of 200
    degrees are handed to the observer as they are, and the call returns a
    report. *)
Lemma out_of_range_coordinates_get_a_report :
  (90 < 100)%Q /\ (180 < 200)%Q /\
  returns (calculate_astronomical_events (periodic athens) 100 200 "2025-04-14" 3)
  = true.
Proof. repeat split; vm_compute; reflexivity. Qed.

(** C2, amended.  Latitude and longitude are not validated.  Also for a
    latitude outside [-90, 90] or a longitude outside [-180, 180], the
    only input the call rejects is a date string that does not parse as
    [%Y-%m-%d], with a [ValueError]; when it parses, a report is returned
    exactly when every instant the computation forms is a [datetime]. *)
Theorem coordinates_are_not_validated (E : Lib) (lat lon : Q) (date_str : string)
    (tzo : Q) :
  (lat < -90 \/ 90 < lat \/ lon < -180 \/ 180 < lon)%Q ->
  (strptime_Ymd date_str = None ->
   calculate_astronomical_events E lat lon date_str tzo = Raise ValueError_strptime) /\
  (forall d, strptime_Ymd date_str = Some d ->
   (returns (calculate_astronomical_events E lat lon date_str tzo) = true <->
    stays_in_range E lat lon d tzo = true)).
Proof.
  intros _. split.
  - intros Hd. unfold calculate_astronomical_events, strptime. rewrite Hd. reflexivity.
  - intros d Hd. rewrite calculate_returns. split.
    + intros (d' & Hd' & H). rewrite Hd in Hd'; injection Hd' as <-. exact H.
    + intros H. exists d; auto.
Qed.

Lemma coordinates_are_not_validated_witness :
  (strptime_Ymd "2025-04-14" = None ->
   calculate_astronomical_events (periodic athens) 100 200 "2025-04-14" 3
   = Raise ValueError_strptime) /\
  (forall d, strptime_Ymd "2025-04-14" = Some d ->
   (returns (calculate_astronomical_events (periodic athens) 100 200 "2025-04-14" 3)
    = true <->
    stays_in_range (periodic athens) 100 200 d 3 = true)).
Proof.
  apply (coordinates_are_not_validated (periodic athens) 100 200 "2025-04-14" 3).
  right; left. reflexivity.
Defined.

(** *** Day length and night length *)

(** C1, on the code.  Longyearbyen at the December solstice: the search for
    sunrise ends in [NeverUpError], the sun does not rise, and the report
    gives a day of 24:00 and a night of 00:00, the values of the day on
    which it does not set. *)
Theorem polar_night_reported_as_full_day :
  let res := calculate_astronomical_events (periodic polar_night)
               (7822 # 100) (1565 # 100) "2025-12-21" 1 in
  next_rising (periodic polar_night)
    (mk_Observer (7822 # 100) (1565 # 100)
       (Date_of_datetime (combine (mk_date 2025 12 21) 0 0)) 0) false
  = NeverUpError /\
  field Report.sunrise res = Some "N/A" /\
  field Report.daylength res = Some "24:00" /\
  field Report.nightLength res = Some "00:00".
Proof. cbv zeta. repeat split; vm_compute; reflexivity. Qed.

(** The same for every library and every input: whichever of the two errors
    ends the search, the lengths are those of the day without sunset. *)
Lemma not_observable_lengths (E : Lib) (lat lon : Q) (date_str : string) (tzo : Q)
    (r : Report.t) :
  calculate_astronomical_events E lat lon date_str tzo = Ok r ->
  exists d day,
    strptime_Ymd date_str = Some d /\ Report.data r = [day] /\
    (observable E lat lon d = false ->
     Report.daylength day = "24:00" /\ Report.nightLength day = "00:00").
Proof.
  intros H. open_report H; exists d; eexists;
    (split; [exact Hd | split; [reflexivity | ]]);
    unfold observable; use_searches; first [ discriminate | intros _; split; reflexivity ].
Qed.

(** C3, on the code.  Sydney on 2025-04-14: counted from 00:00 UTC the next
    sunset (07:30 UTC) comes before the next sunrise (20:15 UTC), the day
    length is -12.75 hours, and the two fields read ["-12:15"] and
    ["36:45"].  With the sign on the whole length they add up to 24:30, with
    the sign on the hours alone to 25:00. *)
Theorem sydney_lengths_do_not_add_up :
  let res := calculate_astronomical_events (periodic sydney)
               (-(3387 # 100)) (15121 # 100) "2025-04-14" 10 in
  field Report.sunrise res = Some "06:15" /\
  field Report.sunset res = Some "17:30" /\
  field Report.daylength res = Some "-12:15" /\
  field Report.nightLength res = Some "36:45" /\
  (exists day night,
     field Report.daylength res ≫= length_minutes true = Some day /\
     field Report.nightLength res ≫= length_minutes true = Some night /\
     day + night = 24 * 60 + 30) /\
  (exists day night,
     field Report.daylength res ≫= length_minutes false = Some day /\
     field Report.nightLength res ≫= length_minutes false = Some night /\
     day + night = 25 * 60).
Proof.
  cbv zeta. repeat split; try (vm_compute; reflexivity).
  - exists (-735), 2205. repeat split; vm_compute; reflexivity.
  - exists (-705), 2205. repeat split; vm_compute; reflexivity.
Qed.

(** Where C3 does hold: when the sunset found is not before the sunrise
    found and at most a day after it, the two fields read back as lengths
    that add up to 24:00 or to 23:59 (the hours being exact numbers). *)
Lemma read_fmt_hours (whole : bool) (h m : Z) :
  0 <= h <= 24 -> 0 <= m < 60 ->
  length_minutes whole (fmt02d h +:+ ":" +:+ fmt02d m) = Some (60 * h + m).
Proof.
  intros Hh Hm.
  assert (Hall : forallb (fun h => forallb (fun m =>
            match length_minutes whole (fmt02d h +:+ ":" +:+ fmt02d m) with
            | Some v => v =? 60 * h + m
            | None => false
            end) (seqZ 0 60)) (seqZ 0 25) = true)
    by (destruct whole; vm_compute; reflexivity).
  rewrite forallb_forall in Hall.
  specialize (Hall h ltac:(apply list_elem_of_In, elem_of_seqZ; lia)).
  rewrite forallb_forall in Hall.
  specialize (Hall m ltac:(apply list_elem_of_In, elem_of_seqZ; lia)).
  destruct (length_minutes whole _) as [v|]; [ | discriminate ].
  apply Z.eqb_eq in Hall. congruence.
Qed.

Lemma lengths_add_up_when_sunrise_first (sunrise_utc sunset_utc : datetime) (whole : bool) :
  sunrise_utc <= sunset_utc <= sunrise_utc + usec_per_day ->
  let h := day_length_hours sunrise_utc sunset_utc in
  exists day night,
    length_minutes whole (fmt_hours h) = Some day /\
    length_minutes whole (fmt_hours (24 - h)) = Some night /\
    24 * 60 - 1 <= day + night <= 24 * 60.
Proof.
  intros Hu h. unfold usec_per_day in Hu.
  set (n := sunset_utc - sunrise_utc) in *.
  assert (Hh : (h == n # 3600000000)%Q)
    by (unfold h, day_length_hours, total_seconds, Qeq, Qdiv, Qmult, Qinv; simpl; fold n; lia).
  assert (Hn : (24 - h == (86400000000 - n) # 3600000000)%Q)
    by (rewrite Hh; unfold Qeq, Qminus, Qplus, Qopp; simpl; lia).
  destruct (whole_minutes n ltac:(lia)) as (D1 & D2 & D3).
  destruct (whole_minutes (86400000000 - n) ltac:(lia)) as (N1 & N2 & N3).
  cbv zeta in *.
  unfold fmt_hours.
  rewrite (int_comp _ _ Hh), (int_comp (mod1 h * 60) (mod1 (n # 3600000000) * 60))
    by (rewrite (mod1_comp _ _ Hh); reflexivity).
  rewrite (int_comp _ _ Hn),
    (int_comp (mod1 (24 - h) * 60) (mod1 ((86400000000 - n) # 3600000000) * 60))
    by (rewrite (mod1_comp _ _ Hn); reflexivity).
  assert (B1 : 0 <= n / 3600000000 <= 24)
    by (split; [ apply Z.div_pos; lia | apply Z.div_le_upper_bound; lia ]).
  assert (B2 : 0 <= (86400000000 - n) / 3600000000 <= 24)
    by (split; [ apply Z.div_pos; lia | apply Z.div_le_upper_bound; lia ]).
  pose proof (Z.mod_pos_bound n 3600000000 ltac:(lia)) as M1.
  pose proof (Z.mod_pos_bound (86400000000 - n) 3600000000 ltac:(lia)) as M2.
  assert (B3 : 0 <= (n mod 3600000000) / 60000000 < 60)
    by (split; [ apply Z.div_pos; lia | apply Z.div_lt_upper_bound; lia ]).
  assert (B4 : 0 <= ((86400000000 - n) mod 3600000000) / 60000000 < 60)
    by (split; [ apply Z.div_pos; lia | apply Z.div_lt_upper_bound; lia ]).
  rewrite D1, D2, N1, N2 in *.
  do 2 eexists. split; [ apply read_fmt_hours; assumption | ].
  split; [ apply read_fmt_hours; assumption | ].
  rewrite D3, N3.
  pose proof (Z.div_mod n 60000000 ltac:(lia)).
  pose proof (Z.mod_pos_bound n 60000000 ltac:(lia)).
  pose proof (Z.div_mod (86400000000 - n) 60000000 ltac:(lia)).
  pose proof (Z.mod_pos_bound (86400000000 - n) 60000000 ltac:(lia)).
  lia.
Qed.

(** *** The order of the day *)

Ltac bad_order :=
  match goal with
  | Ho : _ = true |- _ =>
      exfalso; clear - Ho; cbn [in_order] in Ho;
      rewrite ?andb_false_r in Ho; discriminate Ho
  end.

(** C4, on the code.  Sydney on 2025-04-14, asked for with its offset of ten
    hours: all eight events are found, the first and the last of them on one
    local day, yet [SolarNoon] reads 23:52 and comes after the sunset of
    17:30.  Sunrise and sunset are both searched from 00:00 UTC, which is
    10:00 in Sydney, so the sunset found (07:30 UTC) is the one before the
    sunrise found (20:15 UTC), and the instant half way between them is in
    the middle of the night. *)
Theorem sydney_solar_noon_after_sunset :
  let lat := (-(3387 # 100))%Q in
  let lon := (15121 # 100)%Q in
  let d := mk_date 2025 4 14 in
  let res := calculate_astronomical_events (periodic sydney) lat lon "2025-04-14" 10 in
  forallb is_crossing (events (periodic sydney) lat lon d) = true /\
  timedelta_hours 10 = Ok 36000000000 /\
  local_day 36000000000 (dawn_search (periodic sydney) lat lon d (-18))
  = local_day 36000000000 (dusk_search (periodic sydney) lat lon d (-18)) /\
  (exists sr ss,
     sunrise_search (periodic sydney) lat lon d = Crossing sr /\
     sunset_search (periodic sydney) lat lon d = Crossing ss /\
     (ss < sr)%Q) /\
  field Report.sunrise res = Some "06:15" /\
  field Report.SolarNoon res = Some "23:52" /\
  field Report.sunset res = Some "17:30" /\
  HM_leb "23:52" "17:30" = false /\
  exists r day,
    res = Ok r /\ Report.data r = [day] /\
    timeline day
    = ["04:52"; "05:21"; "05:50"; "06:15"; "23:52"; "17:30"; "17:55"; "18:24"; "18:53"] /\
    ascending (timeline day) = false.
Proof.
  cbv zeta. repeat split; try (vm_compute; reflexivity).
  - do 2 eexists. split; [ vm_compute; reflexivity | ].
    split; [ vm_compute; reflexivity | vm_compute; reflexivity ].
  - do 2 eexists. split; [ vm_compute; reflexivity | ].
    split; [ reflexivity | ]. split; vm_compute; reflexivity.
Qed.

(** Beside C4: the clock.  Athens on 2025-04-14, asked for with an offset of
    eight hours: all eight events are found, in the order of the day, but on
    the local clock sunset falls after midnight and is printed as 00:57,
    before the sunrise of 11:51. *)
Lemma offset_wraps_the_clock :
  calculate_astronomical_events (periodic athens) athens_lat athens_lon "2025-04-14" 8
  = Ok athens_report_tzo8 /\
  in_order (events (periodic athens) athens_lat athens_lon (mk_date 2025 4 14)) = true /\
  exists day,
    Report.data athens_report_tzo8 = [day] /\
    Report.sunrise day = "11:51" /\ Report.sunset day = "00:57" /\
    HM_leb (Report.sunrise day) (Report.sunset day) = false /\
    ascending (timeline day) = false.
Proof.
  split; [ vm_compute; reflexivity | ].
  split; [ vm_compute; reflexivity | ].
  eexists; split; [ reflexivity | ]. repeat split; vm_compute; reflexivity.
Qed.

(** Where C4 does hold: when all eight events are found at dates that do
    not decrease from astronomical dawn to astronomical dusk, and the first
    and the last of them fall on the same local calendar day, the nine clock
    times of the report are in order. *)
Lemma timeline_in_order_when_instants_are (E : Lib) (lat lon : Q)
    (date_str : string) (tzo : Q) (r : Report.t) (d : Py.date) (tz : timedelta) :
  calculate_astronomical_events E lat lon date_str tzo = Ok r ->
  strptime_Ymd date_str = Some d ->
  timedelta_hours tzo = Ok tz ->
  in_order (events E lat lon d) = true ->
  local_day tz (dawn_search E lat lon d (-18)) = local_day tz (dusk_search E lat lon d (-18)) ->
  exists day, Report.data r = [day] /\ ascending (timeline day) = true.
Proof.
  intros H Hd Htz Horder Hday.
  apply calculate_ok in H as (d' & tz' & tw & Hd' & Htz' & Htw & H).
  rewrite Hd in Hd'; injection Hd' as <-.
  rewrite Htz in Htz'; apply Ok_inj in Htz' as <-.
  destruct Htw as (T1 & T2 & T3 & T4 & T5 & T6).
  unfold events in Horder; cbn [in_order] in Horder.
  destruct (dawn_search E lat lon d (-18)) as [a18| |]; try bad_order.
  destruct (dawn_search E lat lon d (-12)) as [a12| |]; try bad_order.
  destruct (dawn_search E lat lon d (-6)) as [a6| |]; try bad_order.
  destruct (sunrise_search E lat lon d) as [sr| |]; try bad_order.
  destruct (sunset_search E lat lon d) as [ss| |]; try bad_order.
  destruct (dusk_search E lat lon d (-6)) as [k6| |]; try bad_order.
  destruct (dusk_search E lat lon d (-12)) as [k12| |]; try bad_order.
  destruct (dusk_search E lat lon d (-18)) as [k18| |]; try bad_order.
  rewrite !andb_true_iff, !Qle_bool_iff in Horder.
  destruct Horder as (O1 & O2 & O3 & O4 & O5 & O6 & O7 & _).
  apply (render_crossing _ _ _ _ Htz) in T1, T2, T3, T4, T5, T6.
  destruct H as (u1 & u2 & u3 & Hu1 & Hu2 & Hu3 & _ & _ & _ & _ & _ & _ & _ & ->).
  apply Date_datetime_ok in Hu1 as [_ ->], Hu2 as [_ ->], Hu3 as [_ ->].
  eexists; split; [ reflexivity | ].
  unfold timeline;
    cbn [observable_day Report.Astronomical_Dawn Report.Nautical_Dawn Report.Civil_Dawn
         Report.sunrise Report.SolarNoon Report.sunset Report.CivilDusk
         Report.NauticalDusk Report.AstronomicalDusk ascending].
  rewrite T1, T2, T3, T4, T5, T6.
  cbn [local_day] in Hday. injection Hday as Hday.
  pose proof (to_usec_half_sum sr ss) as Hmid.
  apply to_usec_mono in O1, O2, O3, O4, O5, O6, O7.
  assert (D : forall t, to_usec a18 <= to_usec t <= to_usec k18 ->
              (to_usec t + tz) / usec_per_day = (to_usec a18 + tz) / usec_per_day).
  { intros t Ht. apply (same_day_between _ _ (to_usec k18 + tz)); [ lia | exact Hday ]. }
  assert (D' : (to_usec ((sr + ss) / 2)%Q + tz) / usec_per_day
               = (to_usec a18 + tz) / usec_per_day)
    by (apply (same_day_between _ _ (to_usec k18 + tz)); [ lia | exact Hday ]).
  pose proof (D a12 ltac:(lia)). pose proof (D a6 ltac:(lia)).
  pose proof (D sr ltac:(lia)). pose proof (D ss ltac:(lia)).
  pose proof (D k6 ltac:(lia)). pose proof (D k12 ltac:(lia)).
  pose proof (D k18 ltac:(lia)).
  rewrite !HM_leb_strftime by (lia || congruence).
  reflexivity.
Qed.

Lemma timeline_in_order_when_instants_are_witness :
  exists day, Report.data athens_report = [day] /\ ascending (timeline day) = true.
Proof.
  apply (timeline_in_order_when_instants_are (periodic athens) athens_lat athens_lon
           "2025-04-14" 3 athens_report (mk_date 2025 4 14) 10800000000).
  - vm_compute. reflexivity.
  - vm_compute. reflexivity.
  - vm_compute. reflexivity.
  - vm_compute. reflexivity.
  - vm_compute. reflexivity.
Defined.

End Claims.

(** ** More about the report *)

Module ReportFacts.
Import Py ephem calculator Samples Spec Runs Fields Examples PyFacts Stages Claims.

Lemma minute_of_day_range (t : datetime) : 0 <= minute_of_day t < 24 * 60.
Proof.
  unfold minute_of_day, usec_per_day, usec_per_minute.
  pose proof (Z.mod_pos_bound t 86400000000 ltac:(lia)).
  split; [ apply Z.div_pos; lia | apply Z.div_lt_upper_bound; lia ].
Qed.

Lemma minute_of_day_div (t : datetime) :
  minute_of_day t = (t / usec_per_minute) mod (24 * 60).
Proof.
  unfold minute_of_day, usec_per_day, usec_per_minute.
  change 86400000000 with (60000000 * (24 * 60)).
  rewrite Z.rem_mul_r by lia.
  rewrite Z.mul_comm, Z.div_add by lia.
  rewrite (Z.div_small (t mod 60000000)) by (apply Z.mod_pos_bound; lia).
  reflexivity.
Qed.

(** Moving an instant by whole minutes moves its clock time by as many
    minutes, around the day. *)
Lemma minute_of_day_shift (t : datetime) (k : Z) :
  minute_of_day (t + k * usec_per_minute) = (minute_of_day t + k) mod (24 * 60).
Proof.
  rewrite !minute_of_day_div.
  rewrite Z.div_add by (unfold usec_per_minute; lia).
  rewrite Z.add_mod_idemp_l by lia. reflexivity.
Qed.

Lemma is_clock_strftime (t : datetime) : is_clock (strftime_HM t) = true.
Proof.
  unfold is_clock. rewrite HM_minutes_strftime.
  pose proof (minute_of_day_range t). apply andb_true_iff; split; lia.
Qed.

Lemma render_shape (tzo : Q) (rs : RiseSet) (s : string) :
  render tzo rs = Ok s -> s = "N/A" \/ is_clock s = true.
Proof.
  destruct rs as [t| |]; cbn [render]; intros H; ok_inv;
    [ right; apply is_clock_strftime | left; reflexivity .. ].
Qed.

(** X1.  In a report each of the thirteen time fields is ["N/A"] or a clock
    time [HH:MM] between 00:00 and 23:59, and [SolarNoon] is always a clock
    time, never ["N/A"]. *)
Theorem clock_fields_well_formed (E : Lib) (lat lon : Q) (date_str : string)
    (tzo : Q) (r : Report.t) :
  calculate_astronomical_events E lat lon date_str tzo = Ok r ->
  exists day,
    Report.data r = [day] /\
    Forall (fun s => s = "N/A" \/ is_clock s = true) (clock_fields day) /\
    is_clock (Report.SolarNoon day) = true.
Proof.
  intros H. apply calculate_ok in H as (d & tz & tw & Hd & Htz & Htw & H).
  destruct Htw as (T1 & T2 & T3 & T4 & T5 & T6).
  apply render_shape in T1, T2, T3, T4, T5, T6.
  destruct (sunrise_search E lat lon d) as [sr| |];
    [ destruct (sunset_search E lat lon d) as [ss| |] | | ];
    [ destruct H as (u1 & u2 & u3 & _ & _ & _ & _ & _ & _ & _ & _ & _ & _ & ->)
    | destruct H as (_ & ->) .. ];
    eexists; (split; [ reflexivity | ]);
    unfold clock_fields;
    cbn [observable_day fallback_day Report.Astronomical_Dawn Report.Nautical_Dawn
         Report.Civil_Dawn Report.sunrise Report.UVA_on Report.UVB_on Report.SolarNoon
         Report.UVB_off Report.UVA_off Report.sunset Report.CivilDusk
         Report.NauticalDusk Report.AstronomicalDusk];
    (split; [ | apply is_clock_strftime ]);
    repeat (apply List.Forall_cons;
            [ first [ assumption | right; apply is_clock_strftime | left; reflexivity ] | ]);
    apply List.Forall_nil.
Qed.

Lemma clock_fields_well_formed_witness :
  exists day,
    Report.data athens_report = [day] /\
    Forall (fun s => s = "N/A" \/ is_clock s = true) (clock_fields day) /\
    is_clock (Report.SolarNoon day) = true.
Proof.
  apply (clock_fields_well_formed (periodic athens) athens_lat athens_lon
           "2025-04-14" 3 athens_report).
  vm_compute. reflexivity.
Defined.

(** X2.  The four UV fields are ["N/A"] together with sunrise; otherwise,
    read as minutes of the day, [UVA_on] is the sunrise shown plus 68
    minutes, [UVA_off] the sunset shown minus 68, [UVB_on] the sunrise plus
    196 and [UVB_off] the sunset minus 196, each taken around midnight. *)
Theorem uv_window_offsets (E : Lib) (lat lon : Q) (date_str : string)
    (tzo : Q) (r : Report.t) :
  calculate_astronomical_events E lat lon date_str tzo = Ok r ->
  exists day,
    Report.data r = [day] /\
    (Report.sunrise day = "N/A" /\ Report.UVA_on day = "N/A" /\ Report.UVA_off day = "N/A"
       /\ Report.UVB_on day = "N/A" /\ Report.UVB_off day = "N/A"
     \/
     exists rise set,
       HM_minutes (Report.sunrise day) = Some rise /\
       HM_minutes (Report.sunset day) = Some set /\
       HM_minutes (Report.UVA_on day) = Some ((rise + 68) mod (24 * 60)) /\
       HM_minutes (Report.UVA_off day) = Some ((set - 68) mod (24 * 60)) /\
       HM_minutes (Report.UVB_on day) = Some ((rise + 196) mod (24 * 60)) /\
       HM_minutes (Report.UVB_off day) = Some ((set - 196) mod (24 * 60))).
Proof.
  intros H. open_report H; eexists; (split; [ reflexivity | ]);
    cbn [observable_day fallback_day Report.sunrise Report.sunset Report.UVA_on
         Report.UVA_off Report.UVB_on Report.UVB_off];
    [ right | left; repeat split; reflexivity .. ].
  exists (minute_of_day (sunrise_utc + tz)), (minute_of_day (sunset_utc + tz)).
  rewrite !HM_minutes_strftime.
  change (timedelta_hm 1 8) with (68 * usec_per_minute).
  change (timedelta_hm 3 16) with (196 * usec_per_minute).
  replace (sunset_utc + tz - 68 * usec_per_minute)
    with (sunset_utc + tz + (-68) * usec_per_minute) by lia.
  replace (sunset_utc + tz - 196 * usec_per_minute)
    with (sunset_utc + tz + (-196) * usec_per_minute) by lia.
  rewrite !minute_of_day_shift.
  repeat split; reflexivity.
Qed.

Lemma uv_window_offsets_witness :
  exists day,
    Report.data athens_report = [day] /\
    (Report.sunrise day = "N/A" /\ Report.UVA_on day = "N/A" /\ Report.UVA_off day = "N/A"
       /\ Report.UVB_on day = "N/A" /\ Report.UVB_off day = "N/A"
     \/
     exists rise set,
       HM_minutes (Report.sunrise day) = Some rise /\
       HM_minutes (Report.sunset day) = Some set /\
       HM_minutes (Report.UVA_on day) = Some ((rise + 68) mod (24 * 60)) /\
       HM_minutes (Report.UVA_off day) = Some ((set - 68) mod (24 * 60)) /\
       HM_minutes (Report.UVB_on day) = Some ((rise + 196) mod (24 * 60)) /\
       HM_minutes (Report.UVB_off day) = Some ((set - 196) mod (24 * 60))).
Proof.
  apply (uv_window_offsets (periodic athens) athens_lat athens_lon
           "2025-04-14" 3 athens_report).
  vm_compute. reflexivity.
Defined.

(** X3.  [sleepDuration] takes one of two values: ["7.0"] when sunrise is
    ["N/A"], ["7.638"] otherwise; place, date and offset enter in no other
    way. *)
Theorem sleep_duration_two_values (E : Lib) (lat lon : Q) (date_str : string)
    (tzo : Q) (r : Report.t) :
  calculate_astronomical_events E lat lon date_str tzo = Ok r ->
  exists day,
    Report.data r = [day] /\
    (Report.sunrise day = "N/A" /\ Report.sleepDuration day = "7.0" \/
     Report.sunrise day <> "N/A" /\ Report.sleepDuration day = "7.638").
Proof.
  intros H. open_report H; eexists; (split; [ reflexivity | ]);
    cbn [observable_day fallback_day Report.sunrise Report.sleepDuration];
    [ right; split; [ apply strftime_HM_not_NA | reflexivity ]
    | left; split; reflexivity .. ].
Qed.

Lemma sleep_duration_two_values_witness :
  exists day,
    Report.data polar_day_report = [day] /\
    (Report.sunrise day = "N/A" /\ Report.sleepDuration day = "7.0" \/
     Report.sunrise day <> "N/A" /\ Report.sleepDuration day = "7.638").
Proof.
  apply (sleep_duration_two_values (periodic polar_day) (7822 # 100) (1565 # 100)
           "2025-06-21" 2 polar_day_report).
  vm_compute. reflexivity.
Defined.

(** X4.  When the twilight loop ends, [twilight_times] has exactly the six
    keys the result reads, so no [get] falls back on its default; and the
    observer still stands at the latitude and longitude of the call. *)
Theorem twilight_times_has_all_keys (E : Lib) (lat lon : Q) (d : Py.date) (tzo : Q)
    (o' : Observer) (tw : gmap string string) :
  foldM (twilight_step E d tzo) twilights (observer_at lat lon (midnight d) 0, ∅)
    = Ok (o', tw) ->
  dom tw = twilight_keys /\
  (forall key, key ∈ twilight_keys -> tw !! key = Some (get tw key)) /\
  ephem.lat o' = lat /\ ephem.lon o' = lon.
Proof.
  intros H.
  apply twilight_loop_ok in H
    as (a1 & a2 & n1 & n2 & c1 & c2 & _ & _ & _ & _ & _ & _ & -> & ->).
  split; [ | split; [ | split; reflexivity ] ].
  - unfold twilight_dict, twilight_keys. rewrite !dom_insert_L, dom_empty_L. set_solver.
  - intros key Hkey. unfold get.
    assert (Hdom : key ∈ dom (twilight_dict a1 a2 n1 n2 c1 c2))
      by (unfold twilight_dict, twilight_keys in *;
          rewrite !dom_insert_L, dom_empty_L; set_solver).
    apply elem_of_dom in Hdom as [v Hv]. rewrite Hv. reflexivity.
Qed.

Lemma twilight_times_has_all_keys_witness :
  dom athens_twilight.2 = twilight_keys /\
  (forall key, key ∈ twilight_keys ->
     athens_twilight.2 !! key = Some (get athens_twilight.2 key)) /\
  ephem.lat athens_twilight.1 = athens_lat /\ ephem.lon athens_twilight.1 = athens_lon.
Proof.
  apply (twilight_times_has_all_keys (periodic athens) athens_lat athens_lon
           athens_day 3 athens_twilight.1 athens_twilight.2).
  vm_compute. reflexivity.
Defined.

Lemma Qfloor_add_Z (x : Q) (n : Z) : Qfloor (x + inject_Z n) = Qfloor x + n.
Proof.
  pose proof (Qfloor_le x) as H1. pose proof (Qlt_floor x) as H2.
  pose proof (Qfloor_le (x + inject_Z n)) as H3.
  pose proof (Qlt_floor (x + inject_Z n)) as H4.
  rewrite inject_Z_plus in H2, H4. change (inject_Z 1) with 1%Q in *.
  assert (A : (inject_Z (Qfloor (x + inject_Z n)) < inject_Z (Qfloor x + n + 1))%Q)
    by (rewrite !inject_Z_plus; change (inject_Z 1) with 1%Q; lra).
  assert (B : (inject_Z (Qfloor x + n) < inject_Z (Qfloor (x + inject_Z n) + 1))%Q)
    by (rewrite !inject_Z_plus; change (inject_Z 1) with 1%Q; lra).
  rewrite <- Zlt_Qlt in A, B. lia.
Qed.

Lemma to_usec_next_day (t : Date) : to_usec (t + 1)%Q = to_usec t + usec_per_day.
Proof.
  unfold to_usec.
  rewrite (Qfloor_comp _ (t * inject_Z usec_per_day + (1 # 2) + inject_Z usec_per_day)%Q)
    by ring.
  rewrite Qfloor_add_Z. lia.
Qed.

(** X5.  When the sunset found is not before the sunrise found and at most
    a day after it, and the time between them is not a whole number of
    minutes, [daylength] shows the whole minutes between the two and
    [nightLength] the whole minutes of the rest of 24 hours; the two add up
    to 23:59.  The spans left out are those where the quotient the code
    forms in floating point can fall short of the whole minute; every other
    span of whole microseconds is at least a sixty-millionth of a minute
    away from one, far more than the rounding of the quotient. *)
Theorem lengths_off_the_whole_minute (E : Lib) (lat lon : Q) (date_str : string)
    (tzo : Q) (r : Report.t) (d : Py.date) (sr ss : Date) (whole : bool) :
  calculate_astronomical_events E lat lon date_str tzo = Ok r ->
  strptime_Ymd date_str = Some d ->
  sunrise_search E lat lon d = Crossing sr ->
  sunset_search E lat lon d = Crossing ss ->
  (sr <= ss <= sr + 1)%Q ->
  (to_usec ss - to_usec sr) mod usec_per_minute <> 0 ->
  exists day,
    Report.data r = [day] /\
    length_minutes whole (Report.daylength day)
      = Some ((to_usec ss - to_usec sr) / usec_per_minute) /\
    length_minutes whole (Report.nightLength day)
      = Some ((usec_per_day - (to_usec ss - to_usec sr)) / usec_per_minute) /\
    (to_usec ss - to_usec sr) / usec_per_minute
    + (usec_per_day - (to_usec ss - to_usec sr)) / usec_per_minute = 24 * 60 - 1.
Proof.
  intros H Hd Hsr Hss [Hle Hge] Hoff. unfold usec_per_minute in Hoff.
  apply calculate_ok in H as (d' & tz & tw & Hd' & Htz & Htw & H).
  rewrite Hd in Hd'; injection Hd' as <-.
  rewrite Hsr, Hss in H.
  destruct H as (u1 & u2 & u3 & Hu1 & Hu2 & _ & _ & _ & _ & _ & _ & _ & _ & ->).
  apply Date_datetime_ok in Hu1 as [_ ->], Hu2 as [_ ->].
  apply to_usec_mono in Hle, Hge. rewrite to_usec_next_day in Hge.
  eexists; split; [ reflexivity | ].
  cbn [observable_day Report.daylength Report.nightLength].
  set (n := to_usec ss - to_usec sr) in *.
  assert (Hn : 0 <= n <= 86400000000) by (unfold usec_per_day in *; lia).
  set (h := day_length_hours (to_usec sr) (to_usec ss)).
  assert (Hh : (h == n # 3600000000)%Q)
    by (unfold h, day_length_hours, total_seconds, Qeq, Qdiv, Qmult, Qinv; simpl; fold n; lia).
  assert (Hnight : (24 - h == (86400000000 - n) # 3600000000)%Q)
    by (rewrite Hh; unfold Qeq, Qminus, Qplus, Qopp; simpl; lia).
  destruct (whole_minutes n ltac:(lia)) as (D1 & D2 & D3).
  destruct (whole_minutes (86400000000 - n) ltac:(lia)) as (N1 & N2 & N3).
  cbv zeta in *. unfold fmt_hours.
  rewrite (int_comp _ _ Hh), (int_comp (mod1 h * 60) (mod1 (n # 3600000000) * 60))
    by (rewrite (mod1_comp _ _ Hh); reflexivity).
  rewrite (int_comp _ _ Hnight),
    (int_comp (mod1 (24 - h) * 60) (mod1 ((86400000000 - n) # 3600000000) * 60))
    by (rewrite (mod1_comp _ _ Hnight); reflexivity).
  assert (B1 : 0 <= n / 3600000000 <= 24)
    by (split; [ apply Z.div_pos; lia | apply Z.div_le_upper_bound; lia ]).
  assert (B2 : 0 <= (86400000000 - n) / 3600000000 <= 24)
    by (split; [ apply Z.div_pos; lia | apply Z.div_le_upper_bound; lia ]).
  pose proof (Z.mod_pos_bound n 3600000000 ltac:(lia)) as M1.
  pose proof (Z.mod_pos_bound (86400000000 - n) 3600000000 ltac:(lia)) as M2.
  assert (B3 : 0 <= (n mod 3600000000) / 60000000 < 60)
    by (split; [ apply Z.div_pos; lia | apply Z.div_lt_upper_bound; lia ]).
  assert (B4 : 0 <= ((86400000000 - n) mod 3600000000) / 60000000 < 60)
    by (split; [ apply Z.div_pos; lia | apply Z.div_lt_upper_bound; lia ]).
  rewrite D1, D2, N1, N2 in *.
  rewrite !read_fmt_hours by assumption.
  unfold usec_per_day, usec_per_minute. rewrite D3, N3.
  split; [ reflexivity | split; [ reflexivity | ] ].
  pose proof (Z.div_mod n 60000000 ltac:(lia)).
  pose proof (Z.mod_pos_bound n 60000000 ltac:(lia)).
  pose proof (Z.div_mod (86400000000 - n) 60000000 ltac:(lia)).
  pose proof (Z.mod_pos_bound (86400000000 - n) 60000000 ltac:(lia)).
  lia.
Qed.

Lemma lengths_off_the_whole_minute_witness :
  exists day,
    Report.data athens_to_the_second_report = [day] /\
    length_minutes true (Report.daylength day)
      = Some ((to_usec athens_sunset_to_the_second - to_usec athens_sunrise_to_the_second)
              / usec_per_minute) /\
    length_minutes true (Report.nightLength day)
      = Some ((usec_per_day
               - (to_usec athens_sunset_to_the_second - to_usec athens_sunrise_to_the_second))
              / usec_per_minute) /\
    (to_usec athens_sunset_to_the_second - to_usec athens_sunrise_to_the_second)
      / usec_per_minute
    + (usec_per_day
       - (to_usec athens_sunset_to_the_second - to_usec athens_sunrise_to_the_second))
      / usec_per_minute = 24 * 60 - 1.
Proof.
  apply (lengths_off_the_whole_minute (periodic athens_to_the_second) athens_lat athens_lon
           "2025-04-14" 3 athens_to_the_second_report athens_day
           athens_sunrise_to_the_second athens_sunset_to_the_second true).
  - vm_compute. reflexivity.
  - vm_compute. reflexivity.
  - vm_compute. reflexivity.
  - vm_compute. reflexivity.
  - split; apply Qle_bool_imp_le; vm_compute; reflexivity.
  - vm_compute. discriminate.
Defined.

Lemma round_comp (x y : Q) : (x == y)%Q -> round x = round y.
Proof.
  intros Hxy. unfold round. rewrite (Qfloor_comp _ _ Hxy).
  assert (Hc : ((x - inject_Z (Qfloor y)) ?= 1 # 2)%Q = ((y - inject_Z (Qfloor y)) ?= 1 # 2)%Q)
    by (apply Qcompare_comp; [ rewrite Hxy; reflexivity | reflexivity ]).
  rewrite Hc. reflexivity.
Qed.

Lemma round_inject_Z (n : Z) : round (inject_Z n) = n.
Proof.
  unfold round. rewrite Qfloor_Z.
  assert (Hc : ((inject_Z n - inject_Z n) ?= 1 # 2)%Q = (0 ?= 1 # 2)%Q)
    by (apply Qcompare_comp; [ ring | reflexivity ]).
  rewrite Hc. reflexivity.
Qed.

Lemma round_bounds (x : Q) : Qfloor x <= round x <= Qfloor x + 1.
Proof.
  unfold round. destruct ((x - inject_Z (Qfloor x)) ?= 1 # 2)%Q; try lia.
  destruct (Z.even (Qfloor x)); lia.
Qed.

(** An offset of whole quarter hours is a whole number of microseconds:
    nothing is rounded. *)
Lemma timedelta_hours_quarters (k : Z) (tz : timedelta) :
  timedelta_hours (k # 4) = Ok tz -> tz = k * 900000000.
Proof.
  unfold timedelta_hours.
  rewrite (round_comp ((k # 4) * inject_Z usec_per_hour) (inject_Z (k * 900000000)))
    by (unfold usec_per_hour, Qeq, Qmult, inject_Z; simpl; lia).
  rewrite round_inject_Z.
  destruct (_ && _); [ | discriminate ]. intros H. apply Ok_inj in H. lia.
Qed.

Lemma strftime_HM_day_shift (t : datetime) (k : Z) :
  strftime_HM (t + k * usec_per_day) = strftime_HM t.
Proof.
  unfold strftime_HM, hour_of, minute_of.
  rewrite Z.mod_add by (unfold usec_per_day; lia). reflexivity.
Qed.

Lemma render_a_day_later (tzo tzo' : Q) (tz : timedelta) (rs : RiseSet) (s s' : string) :
  timedelta_hours tzo = Ok tz ->
  timedelta_hours tzo' = Ok (tz + usec_per_day) ->
  render tzo rs = Ok s -> render tzo' rs = Ok s' -> s = s'.
Proof.
  intros Htz Htz' Hs Hs'. destruct rs as [t| |].
  - apply (render_crossing _ _ _ _ Htz) in Hs.
    apply (render_crossing _ _ _ _ Htz') in Hs'. subst.
    replace (to_usec t + (tz + usec_per_day)) with (to_usec t + tz + 1 * usec_per_day) by lia.
    symmetry; apply strftime_HM_day_shift.
  - cbn [render] in *. ok_inv. reflexivity.
  - cbn [render] in *. ok_inv. reflexivity.
Qed.

Ltac same_clock :=
  match goal with
  | |- strftime_HM ?a = strftime_HM ?b =>
      replace a with (b + 1 * usec_per_day) by lia;
      apply strftime_HM_day_shift
  end.

(** X6.  For an offset of whole quarter hours, [k] of them, the offset
    counts around the clock only: the call with 24 hours more, [k + 96]
    quarter hours, returns the same report when both return.  Such an
    offset and the one a day later are whole numbers of microseconds, so
    that [timedelta(hours=tzo)] has nothing to round. *)
Theorem offset_of_a_whole_day_changes_nothing (E : Lib) (lat lon : Q)
    (date_str : string) (k : Z) (r r' : Report.t) :
  calculate_astronomical_events E lat lon date_str (k # 4) = Ok r ->
  calculate_astronomical_events E lat lon date_str ((k + 96) # 4) = Ok r' ->
  r' = r.
Proof.
  intros H H'.
  apply calculate_ok in H as (d & tz & tw & Hd & Htz & Htw & H).
  apply calculate_ok in H' as (d' & tz' & tw' & Hd' & Htz' & Htw' & H').
  rewrite Hd in Hd'; injection Hd' as <-.
  assert (Etz : tz' = tz + usec_per_day).
  { apply timedelta_hours_quarters in Htz as E1. apply timedelta_hours_quarters in Htz' as E2.
    unfold usec_per_day. lia. }
  subst tz'.
  assert (Etw : tw = tw').
  { destruct Htw as (T1 & T2 & T3 & T4 & T5 & T6).
    destruct Htw' as (T1' & T2' & T3' & T4' & T5' & T6').
    destruct tw, tw'; cbn [astronomical_dawn astronomical_dusk nautical_dawn
      nautical_dusk civil_dawn civil_dusk] in *.
    f_equal; eapply (render_a_day_later (k # 4) ((k + 96) # 4) tz); eassumption. }
  subst tw'.
  destruct (sunrise_search E lat lon d) as [sr| |];
    [ destruct (sunset_search E lat lon d) as [ss| |] | | ].
  - destruct H as (u1 & u2 & u3 & Hu1 & Hu2 & Hu3 & _ & _ & _ & _ & _ & _ & _ & ->).
    destruct H' as (v1 & v2 & v3 & Hv1 & Hv2 & Hv3 & _ & _ & _ & _ & _ & _ & _ & ->).
    ok_merge. unfold envelope, observable_day. do 3 f_equal; same_clock.
  - destruct H as (_ & ->), H' as (_ & ->).
    unfold envelope, fallback_day. do 3 f_equal; same_clock.
  - destruct H as (_ & ->), H' as (_ & ->).
    unfold envelope, fallback_day. do 3 f_equal; same_clock.
  - destruct H as (_ & ->), H' as (_ & ->).
    unfold envelope, fallback_day. do 3 f_equal; same_clock.
  - destruct H as (_ & ->), H' as (_ & ->).
    unfold envelope, fallback_day. do 3 f_equal; same_clock.
Qed.

Lemma offset_of_a_whole_day_changes_nothing_witness :
  athens_report_tzo27 = athens_report.
Proof.
  apply (offset_of_a_whole_day_changes_nothing (periodic athens) athens_lat athens_lon
           "2025-04-14" 12 athens_report athens_report_tzo27).
  - vm_compute. reflexivity.
  - vm_compute. reflexivity.
Defined.

(** X7.  An offset of 24000000000 hours or more, in either direction, is
    more than a [timedelta] holds: the call raises for every place and
    date. *)
Theorem no_report_for_an_offset_out_of_range (E : Lib) (lat lon : Q)
    (date_str : string) (tzo : Q) :
  (tzo <= -24000000000 \/ 24000000000 <= tzo)%Q ->
  returns (calculate_astronomical_events E lat lon date_str tzo) = false.
Proof.
  intros Hbig.
  destruct (returns _) eqn:Hret; [ exfalso | reflexivity ].
  apply calculate_returns in Hret as (d & _ & Hrange).
  unfold stays_in_range in Hrange.
  destruct (timedelta_hours tzo) as [tz|] eqn:Htz; [ clear Hrange | discriminate ].
  unfold timedelta_hours in Htz.
  set (us := round (tzo * inject_Z usec_per_hour)) in *.
  destruct ((-999999999 <=? us / usec_per_day) && (us / usec_per_day <=? 999999999)) eqn:Hb;
    [ clear Htz | discriminate ].
  apply andb_true_iff in Hb as [Hlo Hhi]. apply Z.leb_le in Hlo, Hhi.
  pose proof (round_bounds (tzo * inject_Z usec_per_hour)) as Hr. fold us in Hr.
  unfold usec_per_day, usec_per_hour in *.
  destruct Hbig as [Hneg | Hpos].
  - assert (Hf : Qfloor (tzo * inject_Z 3600000000) <= -86400000000000000000).
    { change (-86400000000000000000) with (Qfloor (inject_Z (-86400000000000000000))).
      apply Qfloor_resp_le.
      apply Qle_trans with ((-24000000000) * inject_Z 3600000000)%Q;
        [ apply Qmult_le_compat_r; [ exact Hneg | discriminate ] | discriminate ]. }
    assert (us / 86400000000 <= (-86400000000000000000 + 1) / 86400000000)
      by (apply Z.div_le_mono; lia).
    change ((-86400000000000000000 + 1) / 86400000000) with (-1000000000) in *. lia.
  - assert (Hf : 86400000000000000000 <= Qfloor (tzo * inject_Z 3600000000)).
    { change 86400000000000000000 with (Qfloor (inject_Z 86400000000000000000)).
      apply Qfloor_resp_le.
      apply Qle_trans with (24000000000 * inject_Z 3600000000)%Q;
        [ discriminate | apply Qmult_le_compat_r; [ exact Hpos | discriminate ] ]. }
    assert (86400000000000000000 / 86400000000 <= us / 86400000000)
      by (apply Z.div_le_mono; lia).
    change (86400000000000000000 / 86400000000) with 1000000000 in *. lia.
Qed.

Lemma no_report_for_an_offset_out_of_range_witness :
  returns (calculate_astronomical_events (periodic athens) athens_lat athens_lon
             "2025-04-14" 24000000000) = false.
Proof.
  apply (no_report_for_an_offset_out_of_range (periodic athens) athens_lat athens_lon
           "2025-04-14" 24000000000).
  right. apply Qle_bool_imp_le. vm_compute. reflexivity.
Defined.

End ReportFacts.

(** ** [start.py]: the masked files *)

Module StartFacts.
Import start Examples.

Lemma is_byte_range (b : Z) : is_byte b = true <-> 0 <= b < 256.
Proof. unfold is_byte. rewrite andb_true_iff, Z.leb_le, Z.ltb_lt. reflexivity. Qed.

Lemma xor_KEY_byte (b : Z) : is_byte b = true -> is_byte (Z.lxor b KEY) = true.
Proof.
  intros Hb. apply is_byte_range in Hb.
  assert (Hall : forallb (fun b => is_byte (Z.lxor b KEY)) (seqZ 0 256) = true)
    by (vm_compute; reflexivity).
  rewrite forallb_forall in Hall. apply Hall.
  apply list_elem_of_In, elem_of_seqZ. lia.
Qed.

Lemma xor_KEY_twice (b : Z) : Z.lxor (Z.lxor b KEY) KEY = b.
Proof. rewrite Z.lxor_assoc, Z.lxor_nilpotent, Z.lxor_0_r. reflexivity. Qed.

Lemma bytes_forallb (data : list Z) :
  bytes data = Some data <-> forallb is_byte data = true.
Proof.
  unfold bytes. destruct (forallb is_byte data); split; congruence.
Qed.

Lemma orig_bytes (data : list Z) :
  bytes data = Some data ->
  orig data = Some (map (fun b => Z.lxor b KEY) data) /\
  bytes (map (fun b => Z.lxor b KEY) data) = Some (map (fun b => Z.lxor b KEY) data).
Proof.
  intros Hdata. apply bytes_forallb in Hdata.
  assert (forallb is_byte (map (fun b => Z.lxor b KEY) data) = true) as Hout.
  { rewrite forallb_forall in *. intros x Hx. apply in_map_iff in Hx as (b & <- & Hb).
    apply xor_KEY_byte, Hdata, Hb. }
  split; [ | apply bytes_forallb, Hout ]. unfold orig, bytes. rewrite Hout. reflexivity.
Qed.

(** X9.  On the bytes of a file the masking never raises, keeps the length,
    and undoes itself: what comes out of it goes back to the data when it
    is masked again. *)
Theorem orig_is_its_own_inverse (data : list Z) :
  bytes data = Some data ->
  exists out, orig data = Some out /\ length out = length data /\
              orig out = Some data.
Proof.
  intros Hdata. destruct (orig_bytes data Hdata) as [Hd Hout].
  exists (map (fun b => Z.lxor b KEY) data). split; [ exact Hd | ].
  split; [ apply length_map | ].
  destruct (orig_bytes _ Hout) as [-> _]. f_equal.
  rewrite map_map. rewrite <- (map_id data) at 2.
  apply map_ext. intros b. apply xor_KEY_twice.
Qed.

Lemma orig_is_its_own_inverse_witness :
  exists out, orig [0; 1; 170; 255; 123] = Some out /\
              length out = length [0; 1; 170; 255; 123] /\
              orig out = Some [0; 1; 170; 255; 123].
Proof.
  apply (orig_is_its_own_inverse [0; 1; 170; 255; 123]).
  vm_compute. reflexivity.
Defined.

Lemma rfind_app (c : ascii) (s1 s2 : string) :
  rfind c (s1 +:+ s2)
  = match rfind c s2 with
    | Some i => Some (String.length s1 + i)%nat
    | None => rfind c s1
    end.
Proof.
  induction s1 as [|a s1 IH].
  - change (EmptyString +:+ s2) with s2. destruct (rfind c s2); reflexivity.
  - change (String a s1 +:+ s2) with (String a (s1 +:+ s2)).
    cbn [rfind]. rewrite IH. destruct (rfind c s2); reflexivity.
Qed.

Lemma length_app (s1 s2 : string) :
  String.length (s1 +:+ s2) = (String.length s1 + String.length s2)%nat.
Proof.
  induction s1 as [|a s1 IH]; [ reflexivity | ].
  change (String a s1 +:+ s2) with (String a (s1 +:+ s2)). cbn. rewrite IH. reflexivity.
Qed.

Lemma substring_app (s1 s2 : string) (n : nat) :
  String.substring 0 (String.length s1 + n) (s1 +:+ s2) = s1 +:+ String.substring 0 n s2.
Proof.
  induction s1 as [|a s1 IH]; [ reflexivity | ].
  change (String a s1 +:+ s2) with (String a (s1 +:+ s2)).
  cbn [String.length Nat.add String.substring]. rewrite IH. reflexivity.
Qed.

Lemma stem_json_bin (base : string) :
  stem (base +:+ ".json.bin") = base +:+ ".json".
Proof.
  unfold stem. rewrite rfind_app. change (rfind "." ".json.bin") with (Some 5%nat).
  rewrite length_app. change (String.length ".json.bin") with 9%nat.
  replace (0 <? String.length base + 5)%nat with true
    by (symmetry; apply Nat.ltb_lt; lia).
  replace (String.length base + 5 <? String.length base + 9 - 1)%nat with true
    by (symmetry; apply Nat.ltb_lt; lia).
  cbn [andb]. rewrite substring_app. reflexivity.
Qed.

Lemma append_assoc (s1 s2 s3 : string) : (s1 +:+ s2) +:+ s3 = s1 +:+ (s2 +:+ s3).
Proof.
  induction s1 as [|a s1 IH]; [ reflexivity | ].
  change (String a s1 +:+ s2) with (String a (s1 +:+ s2)).
  change (String a (s1 +:+ s2) +:+ s3) with (String a ((s1 +:+ s2) +:+ s3)).
  rewrite IH. reflexivity.
Qed.

(** X10.  The file written for a path the pattern [*.json.bin] matches is
    named as the path without its last suffix: putting [.bin] back gives
    the path. *)
Theorem output_name_drops_the_bin_suffix (name : string) :
  matches name -> stem name +:+ ".bin" = name.
Proof.
  intros [base ->]. rewrite stem_json_bin, append_assoc. reflexivity.
Qed.

Lemma output_name_drops_the_bin_suffix_witness :
  stem "day.json.bin" +:+ ".bin" = "day.json.bin".
Proof.
  apply (output_name_drops_the_bin_suffix "day.json.bin").
  exists "day". reflexivity.
Defined.

Lemma list_ascii_app (s1 s2 : string) :
  list_ascii_of_string (s1 +:+ s2)
  = (list_ascii_of_string s1 ++ list_ascii_of_string s2)%list.
Proof.
  induction s1 as [|a s1 IH]; [ reflexivity | ].
  change (String a s1 +:+ s2) with (String a (s1 +:+ s2)). cbn. rewrite IH. reflexivity.
Qed.

Lemma app_suffix_inj (s1 s2 suffix : string) :
  s1 +:+ suffix = s2 +:+ suffix -> s1 = s2.
Proof.
  intros H. apply (f_equal list_ascii_of_string) in H.
  rewrite !list_ascii_app in H. apply app_inv_tail in H.
  rewrite <- (string_of_list_ascii_of_string s1), <- (string_of_list_ascii_of_string s2).
  congruence.
Qed.

Lemma json_is_no_json_bin (base base' : string) :
  base +:+ ".json" <> base' +:+ ".json.bin".
Proof.
  intros H. apply (f_equal (fun s => rev (list_ascii_of_string s))) in H.
  cbv beta in H. rewrite !list_ascii_app, !rev_app_distr in H.
  cbn in H. discriminate.
Qed.

Lemma stem_not_matched (name : string) : matches name -> ~ matches (stem name).
Proof.
  intros [base ->] [base' H]. rewrite stem_json_bin in H.
  exact (json_is_no_json_bin _ _ H).
Qed.

Lemma stem_inj (name1 name2 : string) :
  matches name1 -> matches name2 -> stem name1 = stem name2 -> name1 = name2.
Proof.
  intros [b1 ->] [b2 ->]. rewrite !stem_json_bin. intros H.
  apply app_suffix_inj in H. congruence.
Qed.

(** X11.  The name written for a matched path is itself not matched by the
    pattern, so no input is overwritten and no output is picked up as an
    input; and two matched paths are written to one name only when they are
    the same path. *)
Theorem outputs_are_new_names (name1 name2 : string) :
  matches name1 -> matches name2 ->
  ~ matches (stem name1) /\ (stem name1 = stem name2 -> name1 = name2).
Proof.
  intros H1 H2. split; [ apply stem_not_matched, H1 | apply stem_inj; assumption ].
Qed.

Lemma outputs_are_new_names_witness :
  ~ matches (stem "a.json.bin") /\
  (stem "a.json.bin" = stem "b.json.bin" -> "a.json.bin" = "b.json.bin").
Proof.
  apply (outputs_are_new_names "a.json.bin" "b.json.bin").
  - exists "a". reflexivity.
  - exists "b". reflexivity.
Defined.

Lemma regular_file_read (fs : gmap string entry) (path : string) :
  regular_file fs path = true ->
  exists data, fs !! path = Some (File data) /\ bytes data = Some data.
Proof.
  unfold regular_file. destruct (fs !! path) as [[data|]|]; try discriminate.
  intros H. exists data. split; [ reflexivity | apply bytes_forallb, H ].
Qed.

Lemma no_directory_write (fs : gmap string entry) (out : string) (data : list Z) :
  is_directory fs out = false -> write_bytes fs out data = inr (<[out := File data]> fs).
Proof.
  unfold is_directory, write_bytes. destruct (fs !! out) as [[?|]|]; [ | discriminate | ];
    reflexivity.
Qed.



(** X29.  On a console that cannot encode the line for the first path (the
    arrow of line 12 on an ASCII or a Latin-1 console), the script ends in
    [UnicodeEncodeError] after the first output is written: that file holds
    the xored bytes, nothing is printed, and no other path is read. *)
Theorem script_stops_when_print_fails (encodes : string -> bool) (path : string)
    (paths : list string) (st : state) :
  regular_file (files st) path = true ->
  is_directory (files st) (stem path) = false ->
  encodes (message path (stem path)) = false ->
  exists data,
    files st !! path = Some (File data) /\
    script encodes (path :: paths) st
    = (mk_state (<[stem path := File (map (fun b => Z.lxor b 170) data)]> (files st))
         (stdout st),
       Some UnicodeEncodeError).
Proof.
  intros Hfile Hdir Henc.
  destruct (regular_file_read _ _ Hfile) as (data & Hdata & Hbytes).
  destruct (orig_bytes data Hbytes) as [Hd _].
  exists data. split; [ exact Hdata | ].
  cbn [script]. unfold read_bytes. rewrite Hdata, Hd. cbv zeta.
  rewrite (no_directory_write _ _ _ Hdir), Henc. reflexivity.
Qed.

Lemma script_stops_when_print_fails_witness :
  exists data,
    files working_directory !! "a.json.bin" = Some (File data) /\
    script ascii_console ("a.json.bin" :: ["b.json.bin"]) working_directory
    = (mk_state (<["a.json" := File (map (fun b => Z.lxor b 170) data)]>
                   (files working_directory))
         (stdout working_directory),
       Some UnicodeEncodeError).
Proof.
  apply (script_stops_when_print_fails ascii_console "a.json.bin" ["b.json.bin"]
           working_directory).
  - vm_compute. reflexivity.
  - vm_compute. reflexivity.
  - vm_compute. reflexivity.
Defined.

End StartFacts.

(** ** [parser.py]: file names *)

Module SanitizeFacts.
Import parser Names.

Section WithAlphabet.
Context {char : Type} `{!Alphabet char}.
Implicit Types (s name : list char) (c : char).

Lemma underscore_word : is_word (of_ascii "_") = true.
Proof. rewrite is_word_ascii. reflexivity. Qed.

Lemma underscore_no_space : is_space (of_ascii "_") = false.
Proof. rewrite is_space_ascii. reflexivity. Qed.

Lemma drop_while_suffix (p : char -> bool) s :
  exists pre, s = (pre ++ drop_while p s)%list /\ Forall (fun c => p c = true) pre.
Proof.
  induction s as [|c s IH]; cbn [drop_while].
  - exists []. split; [ reflexivity | constructor ].
  - destruct (p c) eqn:Hc.
    + destruct IH as (pre & Hs & Hpre). exists (c :: pre). split.
      * cbn. f_equal. exact Hs.
      * constructor; assumption.
    + exists []. split; [ reflexivity | constructor ].
Qed.

Lemma drop_while_head (p : char -> bool) s c :
  head (drop_while p s) = Some c -> p c = false.
Proof.
  induction s as [|a s IH]; cbn [drop_while]; [ discriminate | ].
  destruct (p a) eqn:Ha; [ exact IH | ]. cbn. intros [= <-]. exact Ha.
Qed.

Lemma drop_while_id (p : char -> bool) s :
  (forall c, head s = Some c -> p c = false) -> drop_while p s = s.
Proof.
  destruct s as [|a s]; [ reflexivity | ]. intros H. cbn [drop_while].
  rewrite (H a eq_refl). reflexivity.
Qed.

Lemma drop_while_nil (p : char -> bool) s :
  drop_while p s = [] <-> Forall (fun c => p c = true) s.
Proof.
  induction s as [|a s IH]; cbn [drop_while].
  - split; [ constructor | reflexivity ].
  - destruct (p a) eqn:Ha.
    + rewrite IH. split; [ intros; constructor; assumption | intros H; inversion H; assumption ].
    + split; [ discriminate | intros H; inversion H; congruence ].
Qed.

Lemma elem_of_drop_while (p : char -> bool) s c : c ∈ drop_while p s -> c ∈ s.
Proof.
  destruct (drop_while_suffix p s) as (pre & Hs & _). intros Hc.
  rewrite Hs. apply elem_of_app. right. exact Hc.
Qed.

Lemma last_drop_while (p : char -> bool) s :
  drop_while p s <> [] -> last (drop_while p s) = last s.
Proof.
  destruct (drop_while_suffix p s) as (pre & Hs & _). intros Hne.
  rewrite Hs at 2. destruct (drop_while p s) as [|a l] eqn:Hd; [ congruence | ].
  rewrite last_app_cons. reflexivity.
Qed.

Lemma head_reverse s : head (reverse s) = last s.
Proof.
  induction s as [|a s IH] using rev_ind; [ reflexivity | ].
  rewrite reverse_app, last_snoc. reflexivity.
Qed.

Lemma last_reverse s : last (reverse s) = head s.
Proof. rewrite <- head_reverse, reverse_involutive. reflexivity. Qed.

(** What [strip_by] leaves starts and ends outside the set, and is nothing
    but a segment of the string. *)
Lemma strip_by_ends (p : char -> bool) s :
  (forall c, head (strip_by p s) = Some c -> p c = false) /\
  (forall c, last (strip_by p s) = Some c -> p c = false).
Proof.
  unfold strip_by. split; intros c Hc.
  - rewrite head_reverse in Hc.
    destruct (decide (drop_while p (reverse (drop_while p s)) = [])) as [He|Hne];
      [ rewrite He in Hc; discriminate | ].
    rewrite (last_drop_while _ _ Hne), last_reverse in Hc.
    apply (drop_while_head p s). exact Hc.
  - rewrite last_reverse in Hc. apply (drop_while_head p _ _ Hc).
Qed.

Lemma elem_of_strip_by (p : char -> bool) s c : c ∈ strip_by p s -> c ∈ s.
Proof.
  unfold strip_by. rewrite elem_of_reverse. intros Hc.
  apply elem_of_drop_while in Hc. rewrite elem_of_reverse in Hc.
  apply elem_of_drop_while in Hc. exact Hc.
Qed.

Lemma strip_by_id (p : char -> bool) s :
  (forall c, head s = Some c -> p c = false) ->
  (forall c, last s = Some c -> p c = false) ->
  strip_by p s = s.
Proof.
  intros Hh Hl. unfold strip_by. rewrite (drop_while_id p s Hh).
  rewrite drop_while_id; [ apply reverse_involutive | ].
  intros c. rewrite head_reverse. apply Hl.
Qed.

Lemma strip_by_nil (p : char -> bool) s :
  strip_by p s = [] <-> Forall (fun c => p c = true) s.
Proof.
  unfold strip_by. split.
  - intros H. apply (f_equal reverse) in H. rewrite reverse_involutive in H.
    cbn in H. apply drop_while_nil in H. rewrite Forall_reverse in H.
    destruct (drop_while_suffix p s) as (pre & Hs & Hpre).
    rewrite Hs. apply Forall_app. split; assumption.
  - intros H. rewrite (proj2 (drop_while_nil p s) H). reflexivity.
Qed.

Lemma hyphen_not_underscore : of_ascii "-" <> of_ascii "_".
Proof. intros H. apply of_ascii_inj in H. discriminate. Qed.

Lemma hyphen_no_space : is_space (of_ascii "-") = false.
Proof. rewrite is_space_ascii. reflexivity. Qed.

Lemma sub_invalid_allowed name c :
  c ∈ sub_invalid name ->
  is_word c = true \/ is_space c = true \/ c = of_ascii "-".
Proof.
  unfold sub_invalid. rewrite list_elem_of_fmap. intros (a & -> & _).
  destruct (is_word a) eqn:Hw; cbn [orb]; [ auto | ].
  destruct (is_space a) eqn:Hs; cbn [orb]; [ auto | ].
  case_bool_decide; [ auto | left; apply underscore_word ].
Qed.

Lemma sub_invalid_id name :
  Forall (fun c => is_word c = true \/ is_space c = true \/ c = of_ascii "-") name ->
  sub_invalid name = name.
Proof.
  unfold sub_invalid. induction 1 as [|c l Hc _ IH]; [ reflexivity | ].
  cbn. f_equal; [ | exact IH ].
  destruct Hc as [-> | [-> | ->]]; rewrite ?orb_true_r; try reflexivity.
  rewrite bool_decide_eq_true_2 by reflexivity. rewrite !orb_true_r. reflexivity.
Qed.

Lemma sub_spaces_elem (b : bool) s c :
  c ∈ sub_spaces b s -> is_space c = false /\ (c = of_ascii "_" \/ c ∈ s).
Proof.
  revert b. induction s as [|a s IH]; intros b; cbn [sub_spaces].
  - intros H. inversion H.
  - destruct (is_space a) eqn:Ha.
    + destruct b.
      * intros H. destruct (IH _ H) as [? [?|?]]; split; auto. right. by constructor.
      * intros H. apply elem_of_cons in H as [-> | H].
        -- split; [ apply underscore_no_space | auto ].
        -- destruct (IH _ H) as [? [?|?]]; split; auto. right. by constructor.
    + intros H. apply elem_of_cons in H as [-> | H].
      * split; [ exact Ha | right; by constructor ].
      * destruct (IH _ H) as [? [?|?]]; split; auto. right. by constructor.
Qed.

Lemma sub_spaces_id (b : bool) s :
  Forall (fun c => is_space c = false) s -> sub_spaces b s = s.
Proof.
  intros H. revert b. induction H as [|c l Hc _ IH]; intros b; [ reflexivity | ].
  cbn [sub_spaces]. rewrite Hc. f_equal. apply IH.
Qed.

Lemma sub_spaces_underscores (b : bool) s :
  Forall (fun c => bool_decide (c = of_ascii "_") = true) (sub_spaces b s) <->
  Forall (fun c => is_space c = true \/ c = of_ascii "_") s.
Proof.
  revert b. induction s as [|a s IH]; intros b; cbn [sub_spaces].
  - split; constructor.
  - destruct (is_space a) eqn:Ha.
    + destruct b.
      * rewrite IH. split; [ intros; constructor; auto | intros H; inversion H; assumption ].
      * rewrite !Forall_cons, IH, bool_decide_eq_true. tauto.
    + rewrite !Forall_cons, IH, bool_decide_eq_true.
      split; [ intros [-> ?]; auto | intros [[?|?] ?]; [ congruence | auto ] ].
Qed.

Lemma sanitized_is_clean name : clean (sanitize_filename name).
Proof.
  unfold sanitize_filename, clean. cbv zeta.
  set (p := fun c : char => bool_decide (c = of_ascii "_")).
  split; [ | split ].
  - apply Forall_forall. intros c Hc.
    apply elem_of_strip_by, sub_spaces_elem in Hc as [Hs [-> | Hc]].
    + split; [ exact Hs | left; apply underscore_word ].
    + split; [ exact Hs | ].
      apply sub_invalid_allowed in Hc as [? | [? | ?]]; [ auto | congruence | auto ].
  - intros H. apply (proj1 (strip_by_ends p _)) in H.
    unfold p in H. rewrite bool_decide_eq_true_2 in H by reflexivity. discriminate.
  - intros H. apply (proj2 (strip_by_ends p _)) in H.
    unfold p in H. rewrite bool_decide_eq_true_2 in H by reflexivity. discriminate.
Qed.

Lemma clean_is_kept name : clean name -> sanitize_filename name = name.
Proof.
  intros (Hall & Hh & Hl). unfold sanitize_filename. cbv zeta.
  rewrite sub_invalid_id by (eapply Forall_impl; [ exact Hall | ]; cbn; tauto).
  rewrite sub_spaces_id by (eapply Forall_impl; [ exact Hall | ]; cbn; tauto).
  apply strip_by_id; intros c Hc; apply bool_decide_eq_false; congruence.
Qed.

(** X13.  Whatever the name, the file name made of it holds word characters
    and hyphens only, no white space, and neither starts nor ends with an
    underscore. *)
Theorem sanitize_filename_clean name : clean (sanitize_filename name).
Proof. exact (sanitized_is_clean name). Qed.

(** X14.  The names that come back unchanged are exactly the names of that
    shape. *)
Theorem sanitize_filename_fixed name : sanitize_filename name = name <-> clean name.
Proof.
  split; [ intros H; rewrite <- H; apply sanitized_is_clean | apply clean_is_kept ].
Qed.

(** X15.  Cleaning a name a second time changes nothing. *)
Theorem sanitize_filename_idempotent name :
  sanitize_filename (sanitize_filename name) = sanitize_filename name.
Proof. apply clean_is_kept, sanitized_is_clean. Qed.

(** X16.  The file name is empty, so that the article is saved as [.html],
    exactly for the names made of underscores, white space and characters
    that are neither word characters nor hyphens. *)
Theorem sanitize_filename_empty name :
  sanitize_filename name = [] <->
  Forall (fun c => c = of_ascii "_" \/ is_space c = true
                   \/ (is_word c = false /\ c <> of_ascii "-")) name.
Proof.
  unfold sanitize_filename. cbv zeta.
  rewrite strip_by_nil, sub_spaces_underscores.
  unfold sub_invalid. rewrite Forall_fmap.
  apply Forall_iff. intros c. unfold compose.
  pose proof hyphen_not_underscore as Hhu. pose proof hyphen_no_space as Hhs.
  pose proof underscore_no_space as Hus.
  destruct (is_word c) eqn:Hw; cbn [orb].
  - intuition congruence.
  - destruct (is_space c) eqn:Hs; cbn [orb]; [ intuition congruence | ].
    case_bool_decide as Hh; [ subst c | ]; intuition congruence.
Qed.

(** X28.  No name leads out of the output directory: the file name made
    of it holds no slash, no backslash (character 92) and no dot, so the path that
    [save_article_html] joins from it has the one dot of [.html] and names
    a file directly in [output_dir]. *)
Theorem sanitize_filename_no_separator name :
  (of_ascii "/" ∉ sanitize_filename name) /\
  (of_ascii "092" ∉ sanitize_filename name) /\
  (of_ascii "." ∉ sanitize_filename name).
Proof.
  destruct (sanitized_is_clean name) as [Hall _]. rewrite Forall_forall in Hall.
  repeat split; intros Hc; destruct (Hall _ Hc) as [_ [Hw | He]];
    first [ rewrite is_word_ascii in Hw; discriminate
          | apply of_ascii_inj in He; discriminate ].
Qed.

End WithAlphabet.
End SanitizeFacts.

(** ** [parser.py]: citation markers *)

Module CitationFacts.
Import parser Examples SanitizeFacts.

Section WithAlphabet.
Context {char : Type} `{!Alphabet char}.
Variable limit : nat.
Implicit Types (s text pre post group num : list char) (c : char).
Implicit Types (references : list (reference char)).

Lemma and_then_returned {A B} (m : outcome A) (f : A -> outcome B) (a : A) :
  m = Returned a -> and_then m f = f a.
Proof. intros ->. reflexivity. Qed.

Lemma and_then_assoc {A B C} (m : outcome A) (f : A -> outcome B) (g : B -> outcome C) :
  and_then (and_then m f) g = and_then m (fun a => and_then (f a) g).
Proof. destruct m; reflexivity. Qed.

Lemma and_then_ext {A B} (m : outcome A) (f g : A -> outcome B) :
  (forall a, f a = g a) -> and_then m f = and_then m g.
Proof. intros H. destruct m; cbn; auto. Qed.

Lemma bracket_not_in_group : in_group (of_ascii "]") = false.
Proof.
  unfold in_group. rewrite decimal_ascii, is_space_ascii.
  rewrite bool_decide_eq_false_2 by (intros [? ?]; discriminate).
  rewrite bool_decide_eq_false_2 by (intros Hx; apply of_ascii_inj in Hx; discriminate).
  reflexivity.
Qed.

Lemma match_citation_other c s :
  c <> of_ascii "[" -> match_citation (c :: s) = None.
Proof. intros Hc. cbn [match_citation]. destruct (decide _); [ contradiction | reflexivity ]. Qed.

(** Where no bracket opens, the text is kept. *)
Lemma sub_plain (repl : list char -> outcome (list char)) pre s :
  of_ascii "[" ∉ pre ->
  sub repl 0 (pre ++ s)%list
  = and_then (sub repl 0 s) (fun out => Returned (pre ++ out)%list).
Proof.
  induction pre as [|c pre IH]; intros Hpre.
  - cbn. destruct (sub repl 0 s); reflexivity.
  - apply not_elem_of_cons in Hpre as [Hc Hpre].
    change ((c :: pre) ++ s)%list with (c :: (pre ++ s))%list.
    cbn [sub]. rewrite match_citation_other by congruence.
    rewrite (IH Hpre), and_then_assoc. reflexivity.
Qed.

Lemma sub_skip (repl : list char -> outcome (list char)) l s :
  sub repl (length l) (l ++ s)%list = sub repl 0 s.
Proof. induction l as [|c l IH]; [ reflexivity | exact IH ]. Qed.

Lemma take_group_app group c s :
  Forall (fun c => in_group c = true) group -> in_group c = false ->
  take_group (group ++ c :: s)%list = (group, c :: s).
Proof.
  intros Hg Hc. induction Hg as [|a l Ha _ IH].
  - cbn. rewrite Hc. reflexivity.
  - cbn [app take_group]. rewrite Ha, IH. reflexivity.
Qed.

Lemma match_citation_marker group s :
  group <> [] -> Forall (fun c => in_group c = true) group ->
  match_citation (of_ascii "[" :: group ++ of_ascii "]" :: s)%list
  = Some (group, S (S (length group))).
Proof.
  intros Hne Hg. cbn [match_citation].
  rewrite decide_True by reflexivity.
  rewrite (take_group_app _ _ _ Hg bracket_not_in_group).
  destruct group as [|g group]; [ congruence | ].
  rewrite decide_True by reflexivity. reflexivity.
Qed.

Lemma sub_no_bracket (repl : list char -> outcome (list char)) s :
  of_ascii "[" ∉ s -> sub repl 0 s = Returned s.
Proof.
  intros H. rewrite <- (app_nil_r s) at 1. rewrite (sub_plain _ _ _ H).
  cbn. rewrite app_nil_r. reflexivity.
Qed.

(** X17.  A text without an opening square bracket comes back as it is,
    whatever the references; no reference is read. *)
Theorem replace_citations_plain_text text references :
  of_ascii "[" ∉ text -> replace_citations limit text references = Returned text.
Proof. intros H. apply sub_no_bracket, H. Qed.

(** X18.  The first marker of a text: after a stretch without an opening
    bracket, a bracketed, non-empty run of decimal digits, white space and
    commas is replaced by what [replacement] makes of the run, and the rest
    of the text is treated the same way.  An exception of [replacement]
    leaves the call before the rest is looked at. *)
Theorem replace_citations_marker pre group post references :
  of_ascii "[" ∉ pre -> group <> [] -> Forall (fun c => in_group c = true) group ->
  replace_citations limit (pre ++ lit "[" ++ group ++ lit "]" ++ post)%list references
  = and_then (replacement limit references group) (fun links =>
    and_then (replace_citations limit post references) (fun out =>
    Returned (pre ++ links ++ out)%list)).
Proof.
  intros Hpre Hne Hg. unfold replace_citations.
  rewrite (sub_plain _ _ _ Hpre).
  change (lit "[" ++ group ++ lit "]" ++ post)%list
    with (of_ascii "[" :: group ++ of_ascii "]" :: post)%list.
  cbn [sub]. rewrite (match_citation_marker _ _ Hne Hg).
  cbn [pred].
  replace (group ++ of_ascii "]" :: post)%list with ((group ++ [of_ascii "]"]) ++ post)%list
    by (rewrite <- app_assoc; reflexivity).
  replace (S (length group)) with (length (group ++ [of_ascii "]"]))
    by (rewrite length_app; cbn; lia).
  rewrite sub_skip.
  rewrite !and_then_assoc. apply and_then_ext. intros links.
  rewrite !and_then_assoc. apply and_then_ext. intros out. reflexivity.
Qed.

Lemma split_commas_cons s : exists part parts, split_commas s = part :: parts.
Proof.
  induction s as [|c s (part & parts & IH)]; cbn [split_commas]; [ eauto | ].
  destruct (decide _); [ eauto | ]. rewrite IH. eauto.
Qed.

Lemma split_commas_app s1 s2 :
  split_commas (s1 ++ of_ascii "," :: s2)%list = (split_commas s1 ++ split_commas s2)%list.
Proof.
  induction s1 as [|c s1 IH].
  - cbn. rewrite decide_True by reflexivity. reflexivity.
  - change ((c :: s1) ++ of_ascii "," :: s2)%list with (c :: (s1 ++ of_ascii "," :: s2))%list.
    cbn [split_commas]. rewrite IH.
    destruct (decide _); [ reflexivity | ].
    destruct (split_commas_cons s1) as (part & parts & ->). reflexivity.
Qed.

Lemma split_commas_none s :
  of_ascii "," ∉ s -> split_commas s = [s].
Proof.
  induction s as [|c s IH]; intros Hs; [ reflexivity | ].
  apply not_elem_of_cons in Hs as [Hc Hs]. cbn [split_commas].
  rewrite decide_False by congruence. rewrite (IH Hs). reflexivity.
Qed.

Lemma cite_all_app references (l1 l2 : list (list char)) :
  cite_all limit references (l1 ++ l2)
  = and_then (cite_all limit references l1) (fun a =>
    and_then (cite_all limit references l2) (fun b => Returned (a ++ b)%list)).
Proof.
  induction l1 as [|num l1 IH].
  - cbn. destruct (cite_all limit references l2); reflexivity.
  - cbn [app cite_all]. rewrite IH, !and_then_assoc.
    apply and_then_ext. intros l. rewrite !and_then_assoc.
    apply and_then_ext. intros a. cbn. rewrite !and_then_assoc.
    apply and_then_ext. intros b. cbn. rewrite app_assoc. reflexivity.
Qed.

(** X19.  A comma cuts a marker in two: the replacement of [a,b] is the
    replacement of [a] followed by the replacement of [b], with nothing in
    between, and the numbers are looked up from left to right. *)
Theorem replacement_comma references group1 group2 :
  replacement limit references (group1 ++ lit "," ++ group2)%list
  = and_then (replacement limit references group1) (fun links1 =>
    and_then (replacement limit references group2) (fun links2 =>
    Returned (links1 ++ links2)%list)).
Proof.
  unfold replacement. cbv zeta.
  change (lit "," ++ group2)%list with (of_ascii "," :: group2).
  rewrite split_commas_app, fmap_app, filter_app. apply cite_all_app.
Qed.

Lemma drop_while_app_all (p : char -> bool) pre s :
  Forall (fun c => p c = true) pre -> drop_while p (pre ++ s)%list = drop_while p s.
Proof.
  induction 1 as [|c l Hc _ IH]; [ reflexivity | ].
  cbn [app drop_while]. rewrite Hc. exact IH.
Qed.

Lemma strip_by_padding (p : char -> bool) pre mid post :
  Forall (fun c => p c = true) pre -> Forall (fun c => p c = true) post ->
  (forall c, head mid = Some c -> p c = false) ->
  (forall c, last mid = Some c -> p c = false) ->
  mid <> [] ->
  strip_by p (pre ++ mid ++ post)%list = mid.
Proof.
  intros Hpre Hpost Hh Hl Hne. unfold strip_by.
  rewrite (drop_while_app_all _ _ _ Hpre).
  rewrite (drop_while_id p (mid ++ post)%list)
    by (destruct mid; [ congruence | exact Hh ]).
  rewrite reverse_app, drop_while_app_all by (apply Forall_reverse; exact Hpost).
  rewrite drop_while_id by (intros c; rewrite head_reverse; apply Hl).
  apply reverse_involutive.
Qed.

Lemma decimal_value_all (acc : Z) num (n : Z) :
  decimal_value acc num = Some n -> Forall (fun c => is_Some (decimal c)) num.
Proof.
  revert acc. induction num as [|c num IH]; intros acc; [ constructor | ].
  cbn [decimal_value]. destruct (decimal c) as [d|] eqn:Hd; [ | discriminate ].
  cbn. intros H. constructor; [ eauto | eapply IH; exact H ].
Qed.

Lemma int_number num (n : Z) :
  int_of_str limit num = Some n ->
  num <> [] /\ Forall (fun c => is_Some (decimal c)) num.
Proof.
  unfold int_of_str. destruct (_ && _); [ discriminate | ].
  destruct num as [|c num]; [ discriminate | ].
  intros H. split; [ discriminate | eapply decimal_value_all; exact H ].
Qed.

Lemma decimal_in_group c : is_Some (decimal c) -> in_group c = true.
Proof. intros Hc. unfold in_group. rewrite bool_decide_eq_true_2 by exact Hc. reflexivity. Qed.

Lemma decimal_not_space c : is_Some (decimal c) -> is_space c = false.
Proof.
  intros Hc. destruct (is_space c) eqn:Hs; [ | reflexivity ].
  pose proof (decimal_is_digit c Hc). pose proof (space_not_digit c Hs). congruence.
Qed.

Lemma decimal_not_comma c : is_Some (decimal c) -> c <> of_ascii ",".
Proof. intros [d Hd] ->. rewrite decimal_ascii in Hd. discriminate. Qed.

Lemma space_not_comma c : is_space c = true -> c <> of_ascii ",".
Proof. intros Hs ->. rewrite is_space_ascii in Hs. discriminate. Qed.

Lemma isdigit_number num :
  num <> [] -> Forall (fun c => is_Some (decimal c)) num -> isdigit num = true.
Proof.
  intros Hne Hall. destruct num as [|c num]; [ congruence | ].
  unfold isdigit. apply forallb_forall. intros x Hx.
  apply decimal_is_digit. rewrite Forall_forall in Hall.
  apply Hall, list_elem_of_In, Hx.
Qed.

(** X20.  White space around a number does not count: a run that holds one
    decimal number between white space is replaced by the citation of that
    number, and the white space is gone from the output. *)
Theorem replacement_number references ws1 num ws2 (n : Z) :
  Forall (fun c => is_space c = true) ws1 -> Forall (fun c => is_space c = true) ws2 ->
  int_of_str limit num = Some n ->
  replacement limit references (ws1 ++ num ++ ws2)%list = cite limit references num.
Proof.
  intros H1 H2 Hn. destruct (int_number _ _ Hn) as [Hne Hall].
  unfold replacement. cbv zeta.
  rewrite split_commas_none.
  2:{ rewrite !not_elem_of_app. rewrite Forall_forall in H1, H2, Hall.
      repeat split; intros Hc.
      - by apply (space_not_comma _ (H1 _ Hc)).
      - by apply (decimal_not_comma _ (Hall _ Hc)).
      - by apply (space_not_comma _ (H2 _ Hc)). }
  cbn [fmap list_fmap]. unfold strip.
  rewrite strip_by_padding; try assumption.
  2:{ intros c Hc. apply decimal_not_space. rewrite Forall_forall in Hall.
      apply Hall. destruct num; [ discriminate | ]. cbn in Hc. injection Hc as ->. by left. }
  2:{ intros c Hc. apply decimal_not_space. rewrite Forall_forall in Hall.
      apply Hall. apply last_Some in Hc as [l' ->]. apply elem_of_app. right. by left. }
  rewrite filter_cons_True by (apply isdigit_number; assumption).
  rewrite filter_nil. cbn [cite_all and_then].
  destruct (cite limit references num); cbn; [ rewrite app_nil_r | ]; reflexivity.
Qed.

Lemma index_in_range {A} (l : list A) (n : Z) :
  1 <= n <= Z.of_nat (length l) -> index l (n - 1) = l !! Z.to_nat (n - 1).
Proof. intros Hn. unfold index. destruct (Z.leb_spec 0 (n - 1)); [ reflexivity | lia ]. Qed.

Lemma index_minus_one {A} (l : list A) : index l (0 - 1) = last l.
Proof.
  unfold index. change (0 <=? 0 - 1) with false. cbv iota.
  destruct l as [|a l]; [ reflexivity | ].
  destruct (Z.leb_spec 0 (Z.of_nat (length (a :: l)) + (0 - 1))) as [_|Hl];
    [ | cbn [length] in Hl; lia ].
  rewrite last_lookup. f_equal. cbn [length]. lia.
Qed.

Lemma index_beyond {A} (l : list A) (n : Z) :
  Z.of_nat (length l) < n -> index l (n - 1) = None.
Proof.
  intros Hn. unfold index. destruct (Z.leb_spec 0 (n - 1)) as [Hp|Hp].
  - apply lookup_ge_None. lia.
  - destruct (Z.leb_spec 0 (Z.of_nat (length l) + (n - 1))); [ lia | reflexivity ].
Qed.

(** X21.  A number from 1 to the count of references cites the reference
    at that place, counted from 1: the marker becomes a link to the
    reference's address, with the reference's text as its title, that opens
    in a new tab and shows the number in brackets as it was written. *)
Theorem citation_in_range references num (n : Z) ref link_ title :
  int_of_str limit num = Some n ->
  references !! Z.to_nat (n - 1) = Some ref -> 1 <= n ->
  link ref = Some link_ -> text ref = Some title ->
  cite limit references num = Returned (anchor link_ title num).
Proof.
  intros Hn Href Hpos Hl Ht. unfold cite. rewrite Hn. cbn [mbind option_bind].
  rewrite index_in_range, Href, Hl, Ht; [ reflexivity | ].
  apply lookup_lt_Some in Href. lia.
Qed.

(** X22.  The number 0 is not rejected: the index -1 it gives counts from
    the end of the list, and the marker becomes a link to the last
    reference. *)
Theorem citation_zero_is_last_reference references num ref link_ title :
  int_of_str limit num = Some 0 ->
  last references = Some ref ->
  link ref = Some link_ -> text ref = Some title ->
  cite limit references num = Returned (anchor link_ title num).
Proof.
  intros Hn Href Hl Ht. unfold cite. rewrite Hn. cbn [mbind option_bind].
  rewrite index_minus_one, Href, Hl, Ht. reflexivity.
Qed.

(** X23.  A number that [int] does not take, a number above the count of
    references, and any number when there are no references, stay in the
    text as the number in brackets. *)
Theorem citation_without_reference_kept references num :
  int_of_str limit num = None \/
  (exists n, int_of_str limit num = Some n /\
             (Z.of_nat (length references) < n \/ references = [])) ->
  cite limit references num = Returned (lit "[" ++ num ++ lit "]")%list.
Proof.
  intros [Hn|(n & Hn & [Hlen| ->])]; unfold cite; rewrite Hn; cbn [mbind option_bind].
  - reflexivity.
  - rewrite index_beyond by exact Hlen. reflexivity.
  - unfold index. cbn [length]. destruct (0 <=? n - 1); [ reflexivity | ].
    destruct (0 <=? Z.of_nat 0 + (n - 1)); reflexivity.
Qed.

(** X24.  A reference that is found but lacks a key is not handled: the
    call ends with [KeyError], for ["link"] when the link is missing, for
    ["text"] when the link is there and the text is missing. *)
Theorem citation_missing_key_raises references num (n : Z) ref :
  int_of_str limit num = Some n ->
  index references (n - 1) = Some ref ->
  link ref = None \/ text ref = None ->
  exists key, cite limit references num = KeyError key /\
    (key = "link" /\ link ref = None \/
     key = "text" /\ text ref = None /\ is_Some (link ref)).
Proof.
  intros Hn Href Hmiss. unfold cite. rewrite Hn. cbn [mbind option_bind]. rewrite Href.
  destruct (link ref) as [l|] eqn:Hl.
  - destruct Hmiss as [|Ht]; [ discriminate | ]. rewrite Ht.
    exists "text". split; [ reflexivity | right; eauto ].
  - exists "link". split; [ reflexivity | left; eauto ].
Qed.

Lemma cite_returns references num :
  Forall (fun ref => is_Some (link ref) /\ is_Some (text ref)) references ->
  exists out, cite limit references num = Returned out.
Proof.
  intros Hall. unfold cite.
  destruct (int_of_str limit num ≫= _) as [ref|] eqn:Href; [ | eauto ].
  assert (ref ∈ references) as Hin.
  { destruct (int_of_str limit num) as [n|]; [ | discriminate ]. cbn in Href.
    unfold index in Href.
    repeat destruct (_ <=? _) in Href; try discriminate;
      eapply list_elem_of_lookup_2; exact Href. }
  rewrite Forall_forall in Hall. destruct (Hall _ Hin) as [[l ->] [t ->]]. eauto.
Qed.

Lemma cite_all_returns references (numbers : list (list char)) :
  Forall (fun ref => is_Some (link ref) /\ is_Some (text ref)) references ->
  exists out, cite_all limit references numbers = Returned out.
Proof.
  intros Hall. induction numbers as [|num numbers [outs IH]]; [ cbn; eauto | ].
  cbn [cite_all]. destruct (cite_returns references num Hall) as [out ->].
  cbn. rewrite IH. cbn. eauto.
Qed.

Lemma sub_returns (repl : list char -> outcome (list char)) :
  (forall group, exists out, repl group = Returned out) ->
  forall s skip, exists out, sub repl skip s = Returned out.
Proof.
  intros Hrepl s. induction s as [|c s IH]; intros skip; [ cbn; eauto | ].
  cbn [sub]. destruct skip as [|skip]; [ | apply IH ].
  destruct (match_citation (c :: s)) as [[group n]|].
  - destruct (Hrepl group) as [r ->]. cbn.
    destruct (IH (pred n)) as [out ->]. cbn. eauto.
  - destruct (IH O) as [out ->]. cbn. eauto.
Qed.

(** X25.  When every reference has a link and a text, the call returns for
    every text, whatever numbers its markers hold. *)
Theorem replace_citations_returns html references :
  Forall (fun ref => is_Some (link ref) /\ is_Some (text ref)) references ->
  exists out, replace_citations limit html references = Returned out.
Proof.
  intros Hall. unfold replace_citations. apply sub_returns.
  intros group. unfold replacement. cbv zeta. apply cite_all_returns, Hall.
Qed.

Lemma strip_spaces s : Forall (fun c => is_space c = true) s -> strip s = [].
Proof.
  intros Hs. unfold strip, strip_by.
  rewrite <- (app_nil_r s), drop_while_app_all by exact Hs. reflexivity.
Qed.

Lemma split_commas_separators group :
  Forall (fun c => is_space c = true \/ c = of_ascii ",") group ->
  Forall (fun part => Forall (fun c => is_space c = true) part) (split_commas group).
Proof.
  induction 1 as [|c s Hc _ IH]; [ repeat constructor | ].
  cbn [split_commas]. destruct (decide _) as [->|Hne].
  - constructor; [ constructor | exact IH ].
  - destruct Hc as [Hc|]; [ | congruence ].
    destruct (split_commas s) as [|part parts]; [ repeat constructor; exact Hc | ].
    apply Forall_cons in IH as [Hp Hps]. constructor; [ constructor; assumption | exact Hps ].
Qed.

(** X26.  A run of white space and commas without a digit is replaced by
    the empty string: such a marker disappears from the text, brackets
    included. *)
Theorem separators_give_nothing references group :
  Forall (fun c => is_space c = true \/ c = of_ascii ",") group ->
  replacement limit references group = Returned [].
Proof.
  intros Hg. unfold replacement. cbv zeta.
  assert (filter (fun num => isdigit num = true) (strip <$> split_commas group) = []) as ->;
    [ | reflexivity ].
  pose proof (split_commas_separators group Hg) as Hparts.
  induction Hparts as [|part parts Hpart _ IH]; [ reflexivity | ].
  cbn [fmap list_fmap]. rewrite filter_cons_False; [ exact IH | ].
  rewrite (strip_spaces _ Hpart). discriminate.
Qed.

(** X27.  An item whose text has no opening square bracket is processed
    to that text, with or without a [reference] key; an item without a text
    gives the empty string. *)
Theorem process_information_plain_text (item : information_item char) :
  of_ascii "[" ∉ default [] (information_text item) ->
  process_information limit item = Returned (default [] (information_text item)).
Proof.
  intros Htext. unfold process_information. cbv zeta.
  destruct (item_reference item); [ | reflexivity ].
  apply sub_no_bracket, Htext.
Qed.

End WithAlphabet.

Lemma replace_citations_plain_text_witness :
  replace_citations 4300 (lit "<p>No sources.</p>") complete_references
  = Returned (lit "<p>No sources.</p>").
Proof.
  apply (replace_citations_plain_text 4300 (lit "<p>No sources.</p>") complete_references).
  by_evaluation.
Defined.

Lemma replace_citations_marker_witness :
  replace_citations 4300 (lit "See " ++ lit "[" ++ lit "1, 2" ++ lit "]" ++ lit ".")%list
    complete_references
  = and_then (replacement 4300 complete_references (lit "1, 2")) (fun links =>
    and_then (replace_citations 4300 (lit ".") complete_references) (fun out =>
    Returned (lit "See " ++ links ++ out)%list)).
Proof.
  apply (replace_citations_marker 4300 (lit "See ") (lit "1, 2") (lit ".")
           complete_references).
  - by_evaluation.
  - discriminate.
  - by_evaluation.
Defined.

Lemma replacement_number_witness :
  replacement 4300 complete_references (lit " " ++ lit "2" ++ lit " ")%list
  = cite 4300 complete_references (lit "2").
Proof.
  apply (replacement_number 4300 complete_references (lit " ") (lit "2") (lit " ") 2).
  - by_evaluation.
  - by_evaluation.
  - vm_compute. reflexivity.
Defined.

Lemma citation_in_range_witness :
  cite 4300 complete_references (lit "2")
  = Returned (anchor (lit "https://b.example") (lit "Blue light") (lit "2")).
Proof.
  apply (citation_in_range 4300 complete_references (lit "2") 2 second_reference).
  - vm_compute. reflexivity.
  - vm_compute. reflexivity.
  - lia.
  - vm_compute. reflexivity.
  - vm_compute. reflexivity.
Defined.

Lemma citation_zero_is_last_reference_witness :
  cite 4300 complete_references (lit "0")
  = Returned (anchor (lit "https://b.example") (lit "Blue light") (lit "0")).
Proof.
  apply (citation_zero_is_last_reference 4300 complete_references (lit "0")
           second_reference).
  - vm_compute. reflexivity.
  - vm_compute. reflexivity.
  - vm_compute. reflexivity.
  - vm_compute. reflexivity.
Defined.

Lemma citation_without_reference_kept_witness :
  cite 4300 complete_references (lit "7") = Returned (lit "[" ++ lit "7" ++ lit "]")%list.
Proof.
  apply (citation_without_reference_kept 4300 complete_references (lit "7")).
  right. exists 7. split; [ vm_compute; reflexivity | left; vm_compute; reflexivity ].
Defined.

Lemma citation_missing_key_raises_witness :
  exists key,
    cite 4300 [first_reference; unlinked_reference] (lit "2") = KeyError key /\
    (key = "link" /\ link unlinked_reference = None \/
     key = "text" /\ text unlinked_reference = None /\ is_Some (link unlinked_reference)).
Proof.
  apply (citation_missing_key_raises 4300 [first_reference; unlinked_reference]
           (lit "2") 2 unlinked_reference).
  - vm_compute. reflexivity.
  - vm_compute. reflexivity.
  - left. reflexivity.
Defined.

Lemma replace_citations_returns_witness :
  exists out,
    replace_citations 4300 (lit "See [1,2] and [5].") complete_references = Returned out.
Proof.
  apply (replace_citations_returns 4300 (lit "See [1,2] and [5].") complete_references).
  by_evaluation.
Defined.

Lemma separators_give_nothing_witness :
  replacement 4300 complete_references (lit " , ") = Returned [].
Proof.
  apply (separators_give_nothing 4300 complete_references (lit " , ")).
  by_evaluation.
Defined.

Lemma process_information_plain_text_witness :
  process_information 4300 article_item
  = Returned (default [] (information_text article_item)).
Proof.
  apply (process_information_plain_text 4300 article_item).
  by_evaluation.
Defined.

End CitationFacts.
